(** * PyWeather: forecast aggregation and ASCII trend chart

    A shallow embedding of [weather_data.py], [weather_api.py],
    [weather_display.py] and the session loop of [main.py].  The HTTP
    exchange of [_make_request] is the boundary of the model: the API
    functions take what [_make_request] returned, an optional parsed JSON
    document.  The session takes the API key, and for each turn of its loop
    the answer of [Prompt.ask] and the two replies of [_make_request].

    Modelling choices:
    - Python [float] is IEEE 754 binary64, taken from the Standard Library's
      [SpecFloat] with [prec = 53] and [emax = 1024]; every arithmetic
      operation rounds to nearest, ties to even, as CPython does.
    - A JSON number is carried at its binary64 value.  Python keeps a JSON
      integer as an exact [int]: below [2^53] in magnitude the two are the
      same number; beyond, the [int] is exact where the model rounds, and
      [format] and [/] raise [OverflowError] on an [int] that no binary64
      number holds.  The theorems that depend on the difference bound the
      magnitude of the numbers.
    - A Python exception is a value of [exn]; code that can raise lives in
      the [result] monad, and every [try]/[except] of the source is a match
      on the raised exception.
    - [str] is a string of bytes (UTF-8); the case conversions act on ASCII
      letters.
    - [sum] is the left-to-right sum [py_sum]; the compensated sum of
      CPython 3.12 and later is [py_sum_compensated].
    - [console.print] appends to the list of printed items; a function of
      the display threads that list and may raise.  How Rich renders an
      item is not modelled, and neither is the [MarkupError] that it
      raises for a text with a closing tag that closes nothing: the
      theorems that state that a display runs to its end take the texts
      pasted into markup to be [plain]. *)

From Stdlib Require Import ZArith List String Ascii Bool Lia SpecFloat.
From Stdlib Require Import Sorting.Sorted Sorting.Permutation.
Import ListNotations.

Local Open Scope string_scope.
Local Open Scope list_scope.
Local Open Scope Z_scope.

(* ================================================================= *)
(** * Python runtime: exceptions *)

(** A subscript is a string (dict key) or an integer (sequence index). *)
Inductive key : Type :=
  | KStr (s : string)
  | KInt (i : Z).

Inductive exn : Type :=
  | KeyError (k : key)
  | IndexError
  | TypeError
  | AttributeError
  | ValueError
  | ZeroDivisionError
  | OverflowError.

Inductive result (A : Type) : Type :=
  | Ok (a : A)
  | Raise (e : exn).

Arguments Ok {A} a.
Arguments Raise {A} e.

Definition bind {A B : Type} (c : result A) (k : A -> result B) : result B :=
  match c with
  | Ok a => k a
  | Raise e => Raise e
  end.

Notation "x <- c ;; k" := (bind c (fun x => k))
  (at level 61, c at next level, right associativity).

(** A list comprehension, or a [for] loop that builds a list, whose body
    may raise: elements are evaluated left to right and the first exception
    ends the loop. *)
Fixpoint mapM {A B : Type} (f : A -> result B) (xs : list A) : result (list B) :=
  match xs with
  | [] => Ok []
  | x :: rest =>
      y <- f x ;;
      ys <- mapM f rest ;;
      Ok (y :: ys)
  end.

(** A [for] loop that updates a local variable. *)
Fixpoint foldM {A S : Type} (f : S -> A -> result S) (xs : list A) (s : S) : result S :=
  match xs with
  | [] => Ok s
  | x :: rest =>
      s' <- f s x ;;
      foldM f rest s'
  end.

(** [xs[i]] on a Python list, negative indices counting from the end. *)
Definition list_getitem {A : Type} (xs : list A) (i : Z) : result A :=
  let n := Z.of_nat (List.length xs) in
  let j := if i <? 0 then i + n else i in
  if (0 <=? j) && (j <? n)
  then match nth_error xs (Z.to_nat j) with
       | Some x => Ok x
       | None => Raise IndexError
       end
  else Raise IndexError.

(** Lookup in a dict kept as an association list in insertion order. *)
Fixpoint lookup {V : Type} (k : string) (kvs : list (string * V)) : option V :=
  match kvs with
  | [] => None
  | (k', v) :: rest => if String.eqb k' k then Some v else lookup k rest
  end.

(* ================================================================= *)
(** * Python [float]: binary64 *)

Module F64.

Definition float : Type := spec_float.

Definition prec : Z := 53.
Definition emax : Z := 1024.

Definition add : float -> float -> float := SFadd prec emax.
Definition sub : float -> float -> float := SFsub prec emax.
Definition mul : float -> float -> float := SFmul prec emax.

Definition ltb : float -> float -> bool := SFltb.
Definition leb : float -> float -> bool := SFleb.
Definition eqb : float -> float -> bool := SFeqb.

(** [float(n)] for an integer [n], as in every mixed [int]/[float]
    operation of the source (the constants 0, 1, 7 and 49, [len(temps)],
    the loop index). *)
Definition of_int (n : Z) : float := binary_normalize prec emax n 0 false.

Definition is_zero (x : float) : bool :=
  match x with
  | S754_zero _ => true
  | _ => false
  end.

Definition is_nan (x : float) : bool :=
  match x with
  | S754_nan => true
  | _ => false
  end.

Definition is_finite (x : float) : bool :=
  match x with
  | S754_zero _ | S754_finite _ _ _ => true
  | _ => false
  end.

(** A well-formed binary64 value: the mantissa is the canonical one. *)
Definition valid (x : float) : bool := valid_binary prec emax x.

(** [x / y]: true division raises on a zero divisor. *)
Definition truediv (x y : float) : result float :=
  if is_zero y then Raise ZeroDivisionError else Ok (SFdiv prec emax x y).

(** [int(x)]: truncation toward zero, the magnitude [m * 2^e] being cut to
    its integer part. *)
Definition to_int (x : float) : result Z :=
  match x with
  | S754_zero _ => Ok 0
  | S754_finite s m e =>
      Ok (cond_Zopp s (if 0 <=? e then Zpos m * 2 ^ e else Zpos m / 2 ^ (- e)))
  | S754_infinity _ => Raise OverflowError
  | S754_nan => Raise ValueError
  end.

(** The decimal literal [m * 10^k] read as a binary64 value.  For
    [|m| <= 2^53] and [-22 <= k] both operands of the division are exact,
    so the quotient is the correctly rounded value of the literal. *)
Definition of_decimal (m k : Z) : float :=
  if 0 <=? k then of_int (m * 10 ^ k)
  else SFdiv prec emax (of_int m) (of_int (10 ^ (- k))).

End F64.

Abbreviation float := F64.float.

(** [min(xs)] and [max(xs)]: the first smallest (largest) element, the
    candidate being replaced only by a strictly smaller (larger) item;
    [ValueError] on an empty sequence. *)
Definition py_min (xs : list float) : result float :=
  match xs with
  | [] => Raise ValueError
  | x :: rest => Ok (fold_left (fun best y => if F64.ltb y best then y else best) rest x)
  end.

Definition py_max (xs : list float) : result float :=
  match xs with
  | [] => Raise ValueError
  | x :: rest => Ok (fold_left (fun best y => if F64.ltb best y then y else best) rest x)
  end.

(** [sum(xs)]: left-to-right additions starting from the integer 0. *)
Definition py_sum (xs : list float) : float :=
  fold_left F64.add xs (F64.of_int 0).

(** [sum(xs)] in CPython 3.12 and later: once the running total is a
    [float], the rounding error of each addition is accumulated in [c]
    (Neumaier's variant of Kahan summation) and added at the end, unless it
    is zero or not finite. *)
Definition neumaier_step (acc : float * float) (x : float) : float * float :=
  let '(total, c) := acc in
  let t := F64.add total x in
  if F64.leb (SFabs x) (SFabs total)
  then (t, F64.add c (F64.add (F64.sub total t) x))
  else (t, F64.add c (F64.add (F64.sub x t) total)).

Definition py_sum_compensated (xs : list float) : float :=
  match xs with
  | [] => F64.of_int 0
  | x :: rest =>
      let '(total, c) := fold_left neumaier_step rest (F64.add (F64.of_int 0) x, S754_zero false) in
      if negb (F64.is_zero c) && F64.is_finite c then F64.add total c else total
  end.

(* ================================================================= *)
(** * Python [str] methods *)

Definition is_lower (c : ascii) : bool :=
  let n := N_of_ascii c in (97 <=? n)%N && (n <=? 122)%N.

Definition is_upper (c : ascii) : bool :=
  let n := N_of_ascii c in (65 <=? n)%N && (n <=? 90)%N.

Definition upper_char (c : ascii) : ascii :=
  if is_lower c then ascii_of_N (N_of_ascii c - 32) else c.

Definition lower_char (c : ascii) : ascii :=
  if is_upper c then ascii_of_N (N_of_ascii c + 32) else c.

Fixpoint lower (s : string) : string :=
  match s with
  | EmptyString => EmptyString
  | String c rest => String (lower_char c) (lower rest)
  end.

(** [s.capitalize()]: first character upper-cased, the rest lower-cased. *)
Definition capitalize (s : string) : string :=
  match s with
  | EmptyString => EmptyString
  | String c rest => String (upper_char c) (lower rest)
  end.

(** [s.split(sep)] for a one-character separator: every occurrence splits,
    empty pieces are kept, and the result is never empty. *)
Fixpoint split (sep : ascii) (s : string) : list string :=
  match s with
  | EmptyString => [EmptyString]
  | String c rest =>
      if Ascii.eqb c sep then EmptyString :: split sep rest
      else match split sep rest with
           | piece :: pieces => String c piece :: pieces
           | [] => [String c EmptyString]
           end
  end.

(** The characters of a string, each as a one-character string. *)
Fixpoint chars (s : string) : list string :=
  match s with
  | EmptyString => []
  | String c rest => String c EmptyString :: chars rest
  end.

(* ================================================================= *)
(** * Parsed JSON documents *)

(** What [response.json()] returns.  A dict keeps its keys in the order
    of the document. *)
#[warnings="-register-all"]
Inductive json : Type :=
  | JNull
  | JBool (b : bool)
  | JNum (x : float)
  | JStr (s : string)
  | JArr (items : list json)
  | JObj (fields : list (string * json)).

(** Truth value of an object, as tested by [if data:]. *)
Definition truthy (v : json) : bool :=
  match v with
  | JNull => false
  | JBool b => b
  | JNum x => negb (F64.is_zero x)
  | JStr s => negb (String.eqb s "")
  | JArr items => match items with [] => false | _ => true end
  | JObj fields => match fields with [] => false | _ => true end
  end.

(** [v[k]]. A dict read from JSON has string keys only, so an integer
    subscript on it is a missing key. *)
Definition getitem (v : json) (k : key) : result json :=
  match v, k with
  | JObj fields, KStr s =>
      match lookup s fields with
      | Some x => Ok x
      | None => Raise (KeyError k)
      end
  | JObj _, KInt _ => Raise (KeyError k)
  | JArr items, KInt i => list_getitem items i
  | JStr s, KInt i => c <- list_getitem (chars s) i ;; Ok (JStr c)
  | _, _ => Raise TypeError
  end.

(** Chained subscripts [d[k1][k2]...]: the first one that fails raises. *)
Definition subscript (c : result json) (k : key) : result json :=
  v <- c ;; getitem v k.

Coercion KStr : string >-> key.
Coercion KInt : Z >-> key.

Notation "c .[ k ]" := (subscript c k) (at level 1, left associativity, format "c .[ k ]").

(** [for item in v]: a list yields its items, a dict its keys, a string
    its characters; anything else is not iterable. *)
Definition iterate (v : json) : result (list json) :=
  match v with
  | JArr items => Ok items
  | JObj fields => Ok (map (fun kv => JStr (fst kv)) fields)
  | JStr s => Ok (map JStr (chars s))
  | _ => Raise TypeError
  end.

(** [v.capitalize()] and [v.split(sep)] exist on strings only. *)
Definition capitalize_method (v : json) : result string :=
  match v with
  | JStr s => Ok (capitalize s)
  | _ => Raise AttributeError
  end.

Definition split_method (v : json) (sep : ascii) : result (list string) :=
  match v with
  | JStr s => Ok (split sep s)
  | _ => Raise AttributeError
  end.

(** A number in arithmetic position; [bool] is a subclass of [int]. *)
Definition as_number (v : json) : result float :=
  match v with
  | JNum x => Ok x
  | JBool b => Ok (F64.of_int (if b then 1 else 0))
  | _ => Raise TypeError
  end.

(** Lists and dicts cannot be dict keys. *)
Definition hashable (v : json) : bool :=
  match v with
  | JArr _ | JObj _ => false
  | _ => true
  end.

(** [a == b] on hashable values: numbers and booleans compare by value,
    strings by content, and values of different kinds differ. *)
Definition py_eq (a b : json) : bool :=
  match a, b with
  | JNull, JNull => true
  | JStr s, JStr t => String.eqb s t
  | (JNum _ | JBool _), (JNum _ | JBool _) =>
      match as_number a, as_number b with
      | Ok x, Ok y => F64.eqb x y
      | _, _ => false
      end
  | _, _ => false
  end.

(* ================================================================= *)
(** * [collections.Counter] *)

(** [c[x] += 1] on a counter kept in insertion order: an existing key keeps
    its place, a new key goes last. *)
Fixpoint counter_add (x : json) (c : list (json * nat)) : list (json * nat) :=
  match c with
  | [] => [(x, 1%nat)]
  | (k, n) :: rest =>
      if py_eq k x then (k, S n) :: rest else (k, n) :: counter_add x rest
  end.

Definition Counter (xs : list json) : result (list (json * nat)) :=
  foldM (fun c x => if hashable x then Ok (counter_add x c) else Raise TypeError) xs [].

(** [c.most_common(1)] is [max(c.items(), key=count)]: the first entry that
    no other entry beats, and the empty list for an empty counter. *)
Definition most_common_1 (c : list (json * nat)) : list (json * nat) :=
  match c with
  | [] => []
  | kv :: rest =>
      [fold_left (fun best kv' => if (snd best <? snd kv')%nat then kv' else best) rest kv]
  end.

(** [Counter(xs).most_common(1)[0][0]]. *)
Definition most_common_key (xs : list json) : result json :=
  c <- Counter xs ;;
  top <- list_getitem (most_common_1 c) 0 ;;
  Ok (fst top).

(* ================================================================= *)
(** * weather_data.py *)

(** The dataclasses check no field type: a field that the client copies
    from the response holds whatever JSON value was there. *)
Module WeatherData.
Record t : Type := make {
  city : json;
  country : json;
  temperature : json;
  feels_like : json;
  humidity : json;
  description : string;
  icon : json;
  wind_speed : json;
  pressure : json
}.
End WeatherData.

Module DailyForecast.
Record t : Type := make {
  date : string;
  min_temp : float;
  max_temp : float;
  avg_temp : float;
  description : string;
  icon : json
}.
End DailyForecast.

Module ForecastData.
Record t : Type := make {
  city : json;
  country : json;
  daily_forecasts : list DailyForecast.t
}.
End ForecastData.

(* ================================================================= *)
(** * weather_api.py *)

Module WeatherAPI.

(** How a call of the client ends. *)
Inductive outcome (A : Type) : Type :=
  | Returned (a : A)              (* the data object is returned *)
  | NoData                        (* no usable response: [None], nothing printed *)
  | ParseFailure (k : key)        (* [except KeyError]: "Missing key k", then [None] *)
  | UnexpectedFailure (e : exn)   (* [except Exception]: message, then [None] *)
  | Uncaught (e : exn).           (* the exception leaves the function *)

Arguments Returned {A} a.
Arguments NoData {A}.
Arguments ParseFailure {A} k.
Arguments UnexpectedFailure {A} e.
Arguments Uncaught {A} e.

(** The value handed to the caller, when the call returns at all. *)
Definition returned {A : Type} (o : outcome A) : option (option A) :=
  match o with
  | Returned a => Some (Some a)
  | NoData | ParseFailure _ | UnexpectedFailure _ => Some None
  | Uncaught _ => None
  end.

(** The body of the [try] block of [get_current_weather]; keyword
    arguments are evaluated in the order written. *)
Definition parse_current_weather (data : json) : result WeatherData.t :=
  city <- (Ok data).["name"] ;;
  country <- (Ok data).["sys"].["country"] ;;
  temperature <- (Ok data).["main"].["temp"] ;;
  feels_like <- (Ok data).["main"].["feels_like"] ;;
  humidity <- (Ok data).["main"].["humidity"] ;;
  d <- (Ok data).["weather"].[0].["description"] ;;
  description <- capitalize_method d ;;
  icon <- (Ok data).["weather"].[0].["icon"] ;;
  wind_speed <- (Ok data).["wind"].["speed"] ;;
  pressure <- (Ok data).["main"].["pressure"] ;;
  Ok (WeatherData.make city country temperature feels_like humidity
        description icon wind_speed pressure).

(** [data] is what [_make_request("weather", ...)] returned: [None] for
    any transport or HTTP error. *)
Definition get_current_weather (data : option json) : outcome WeatherData.t :=
  match data with
  | None => NoData
  | Some d =>
      if truthy d then
        match parse_current_weather d with
        | Ok w => Returned w
        | Raise (KeyError k) => ParseFailure k
        | Raise e => Uncaught e
        end
      else NoData
  end.

(** [item['dt_txt'].split(' ')[0]]. *)
Definition date_of (item : json) : result string :=
  dt <- (Ok item).["dt_txt"] ;;
  parts <- split_method dt " " ;;
  list_getitem parts 0.

(** [if date not in forecast_by_day: forecast_by_day[date] = []] followed by
    [forecast_by_day[date].append(item)], on a dict in insertion order. *)
Fixpoint dict_append (date : string) (item : json)
    (forecast_by_day : list (string * list json)) : list (string * list json) :=
  match forecast_by_day with
  | [] => [(date, [item])]
  | (d, readings) :: rest =>
      if String.eqb d date then (d, readings ++ [item]) :: rest
      else (d, readings) :: dict_append date item rest
  end.

(** The first loop: group the samples by calendar date. *)
Definition group_by_day (items : list json) : result (list (string * list json)) :=
  foldM (fun forecast_by_day item =>
           date <- date_of item ;;
           Ok (dict_append date item forecast_by_day))
        items [].

Definition temp_of (r : json) : result json := (Ok r).["main"].["temp"].
Definition description_of (r : json) : result json := (Ok r).["weather"].[0].["description"].
Definition icon_of (r : json) : result json := (Ok r).["weather"].[0].["icon"].

(** The body of the second loop: one [DailyForecast] per date. The three
    comprehensions run first, then the two [Counter]s, then the arguments
    [min(temps)], [max(temps)] and [sum(temps) / len(temps)], on the
    temperatures at their binary64 values. *)
Definition aggregate_day (date_str : string) (readings : list json)
    : result DailyForecast.t :=
  temps <- mapM temp_of readings ;;
  descriptions <- mapM description_of readings ;;
  icons <- mapM icon_of readings ;;
  d <- most_common_key descriptions ;;
  most_common_description <- capitalize_method d ;;
  most_common_icon <- most_common_key icons ;;
  temps <- mapM as_number temps ;;
  min_temp <- py_min temps ;;
  max_temp <- py_max temps ;;
  avg_temp <- F64.truediv (py_sum temps) (F64.of_int (Z.of_nat (List.length temps))) ;;
  Ok (DailyForecast.make date_str min_temp max_temp avg_temp
        most_common_description most_common_icon).

(** [daily_forecasts.sort(key=lambda x: x.date)]: a stable sort on the date
    strings, compared with [<]. *)
Fixpoint insert_by_date (d : DailyForecast.t) (l : list DailyForecast.t)
    : list DailyForecast.t :=
  match l with
  | [] => [d]
  | h :: rest =>
      if String.ltb (DailyForecast.date h) (DailyForecast.date d)
      then h :: insert_by_date d rest
      else d :: h :: rest
  end.

Definition sort_by_date (l : list DailyForecast.t) : list DailyForecast.t :=
  fold_right insert_by_date [] l.

(** The body of the [try] block of [get_five_day_forecast]. *)
Definition parse_forecast (data : json) : result ForecastData.t :=
  l <- (Ok data).["list"] ;;
  items <- iterate l ;;
  forecast_by_day <- group_by_day items ;;
  daily_forecasts <- mapM (fun g => aggregate_day (fst g) (snd g)) forecast_by_day ;;
  let daily_forecasts := sort_by_date daily_forecasts in
  city <- (Ok data).["city"].["name"] ;;
  country <- (Ok data).["city"].["country"] ;;
  Ok (ForecastData.make city country daily_forecasts).

Definition get_five_day_forecast (data : option json) : outcome ForecastData.t :=
  match data with
  | None => NoData
  | Some d =>
      if truthy d then
        match parse_forecast d with
        | Ok f => Returned f
        | Raise (KeyError k) => ParseFailure k
        | Raise e => UnexpectedFailure e
        end
      else NoData
  end.

End WeatherAPI.

(* ================================================================= *)
(** * weather_display.py *)

Module WeatherDisplay.

Definition WEATHER_ICONS : list (string * string) :=
  [ ("01d", "☀️"); ("01n", "🌙");
    ("02d", "🌤️"); ("02n", "☁️");
    ("03d", "☁️"); ("03n", "☁️");
    ("04d", "☁️"); ("04n", "☁️");
    ("09d", "🌧️"); ("09n", "🌧️");
    ("10d", "🌦️"); ("10n", "🌧️");
    ("11d", "⛈️"); ("11n", "⛈️");
    ("13d", "❄️"); ("13n", "❄️");
    ("50d", "🌫️"); ("50n", "🌫️");
    ("unknown", "❓") ].

(** [d[k]] on a dict with string keys. *)
Definition dict_getitem {V : Type} (d : list (string * V)) (k : string) : result V :=
  match lookup k d with
  | Some v => Ok v
  | None => Raise (KeyError (KStr k))
  end.

(** [self.WEATHER_ICONS.get(icon_code, self.WEATHER_ICONS["unknown"])]:
    the default is evaluated first; an unhashable key cannot be looked up,
    and a key that is not a string is not in the dict. *)
Definition _get_weather_emoji (icon_code : json) : result string :=
  fallback <- dict_getitem WEATHER_ICONS "unknown" ;;
  match icon_code with
  | JStr code =>
      match lookup code WEATHER_ICONS with
      | Some emoji => Ok emoji
      | None => Ok fallback
      end
  | JArr _ | JObj _ => Raise TypeError
  | _ => Ok fallback
  end.

(** What reaches the console, one constructor per [console.print] of
    [display_forecast].  Markup, colours, centring and the [.1f] rendering
    of a number are left to Rich and to [format]: an item carries the values
    that are printed. *)
Record day_panel : Type := make_panel {
  panel_title : string;        (* the day number, [date.split('-')[2]] *)
  panel_date : string;
  panel_emoji : string;
  panel_description : string;
  panel_min : float;
  panel_max : float;
  panel_avg : float
}.

Inductive printed : Type :=
  | OverviewPanel (city country : json)
  | ForecastColumns (panels : list day_panel)
  | Newline
  | VisualizationPanel
  | TrendLabel (day_number : string) (avg_temp : float)
  | ChartLine (line : list string)
  | DateLabels (labels : list string)
  | DaysCaption.

(** Printing and raising together: a computation extends the console
    output and either yields a value or stops with an exception, what was
    printed before staying printed. *)
Definition console (A : Type) : Type := list printed -> result A * list printed.

Definition cret {A : Type} (a : A) : console A := fun out => (Ok a, out).

Definition cbind {A B : Type} (c : console A) (k : A -> console B) : console B :=
  fun out =>
    match c out with
    | (Ok a, out') => k a out'
    | (Raise e, out') => (Raise e, out')
    end.

(** [console.print(p)], for an item whose markup Rich accepts. *)
Definition print (p : printed) : console unit := fun out => (Ok tt, out ++ [p]).

Definition lift {A : Type} (r : result A) : console A := fun out => (r, out).

Notation "x <~ c ;; k" := (cbind c (fun x => k))
  (at level 61, c at next level, right associativity).
Notation "c ;;; k" := (cbind c (fun _ => k))
  (at level 61, right associativity).

(** A [for] loop over a list, with a loop-carried value. *)
Fixpoint cfold {A S : Type} (body : S -> A -> console S) (xs : list A) (s : S) : console S :=
  match xs with
  | [] => cret s
  | x :: rest => s' <~ body s x ;; cfold body rest s'
  end.

(** [enumerate(xs)]. *)
Fixpoint enumerate_from {A : Type} (i : Z) (xs : list A) : list (Z * A) :=
  match xs with
  | [] => []
  | x :: rest => (i, x) :: enumerate_from (i + 1) rest
  end.

Definition enumerate {A : Type} (xs : list A) : list (Z * A) := enumerate_from 0 xs.

(** [xs[i] = v] on a Python list. *)
Definition list_setitem {A : Type} (xs : list A) (i : Z) (v : A) : result (list A) :=
  let n := Z.of_nat (List.length xs) in
  let j := if i <? 0 then i + n else i in
  if (0 <=? j) && (j <? n)
  then Ok (firstn (Z.to_nat j) xs ++ v :: skipn (Z.to_nat j + 1) xs)
  else Raise IndexError.

Definition chart_height : Z := 8.
Definition chart_width : Z := 50.

Definition blank : string := " ".
Definition marker : string := "●".

(** [day.date.split('-')[2]]. *)
Definition day_number (day : DailyForecast.t) : result string :=
  list_getitem (split "-" (DailyForecast.date day)) 2.

(** The body of the first loop: the panel of one day. *)
Definition forecast_panel (day : DailyForecast.t) : result day_panel :=
  emoji <- _get_weather_emoji (DailyForecast.icon day) ;;
  title <- day_number day ;;
  Ok (make_panel title (DailyForecast.date day) emoji
        (DailyForecast.description day) (DailyForecast.min_temp day)
        (DailyForecast.max_temp day) (DailyForecast.avg_temp day)).

(** [temp_range = max_temp_all - min_temp_all], replaced by 1 when it
    compares equal to 0. *)
Definition temp_range_of (min_temp_all max_temp_all : float) : float :=
  let temp_range := F64.sub max_temp_all min_temp_all in
  if F64.eqb temp_range (F64.of_int 0) then F64.of_int 1 else temp_range.

(** [int(((day.avg_temp - min_temp_all) / temp_range) * (chart_height - 1))]
    followed by the clamp [max(0, min(scaled_temp, chart_height - 1))]. *)
Definition scaled_temp_of (avg_temp min_temp_all temp_range : float) : result Z :=
  q <- F64.truediv (F64.sub avg_temp min_temp_all) temp_range ;;
  scaled_temp <- F64.to_int (F64.mul q (F64.of_int (chart_height - 1))) ;;
  Ok (Z.max 0 (Z.min scaled_temp (chart_height - 1))).

(** [int((i / (n - 1)) * (chart_width - 1)) if n > 1 else 0] followed by the
    clamp, [n] being [len(data.daily_forecasts)]. *)
Definition column_pos_of (i n : Z) : result Z :=
  column_pos <-
    (if 1 <? n then
       q <- F64.truediv (F64.of_int i) (F64.of_int (n - 1)) ;;
       F64.to_int (F64.mul q (F64.of_int (chart_width - 1)))
     else Ok 0) ;;
  Ok (Z.max 0 (Z.min column_pos (chart_width - 1))).

(** The body of the second loop: place the marker of day [i], then print
    its label.  A chart line is kept as the list of its characters, which
    the source rebuilds from the string at each update. *)
Definition plot_day (min_temp_all temp_range : float) (n : Z)
    (chart_lines : list (list string)) (iday : Z * DailyForecast.t)
    : console (list (list string)) :=
  let (i, day) := iday in
  scaled_temp <~ lift (scaled_temp_of (DailyForecast.avg_temp day) min_temp_all temp_range) ;;
  column_pos <~ lift (column_pos_of i n) ;;
  line_chars <~ lift (list_getitem chart_lines (chart_height - 1 - scaled_temp)) ;;
  line_chars <~ lift (list_setitem line_chars column_pos marker) ;;
  chart_lines <~ lift (list_setitem chart_lines (chart_height - 1 - scaled_temp) line_chars) ;;
  label <~ lift (day_number day) ;;
  print (TrendLabel label (DailyForecast.avg_temp day)) ;;;
  cret chart_lines.

Definition display_forecast (data : ForecastData.t) : console unit :=
  let days := ForecastData.daily_forecasts data in
  print (OverviewPanel (ForecastData.city data) (ForecastData.country data)) ;;;
  min_temp_all <~ lift (py_min (map DailyForecast.min_temp days)) ;;
  max_temp_all <~ lift (py_max (map DailyForecast.max_temp days)) ;;
  forecast_panels <~ lift (mapM forecast_panel days) ;;
  print (ForecastColumns forecast_panels) ;;;
  print Newline ;;;
  print VisualizationPanel ;;;
  let temp_range := temp_range_of min_temp_all max_temp_all in
  let chart_lines := repeat (repeat blank (Z.to_nat chart_width)) (Z.to_nat chart_height) in
  chart_lines <~ cfold (plot_day min_temp_all temp_range (Z.of_nat (List.length days)))
                   (enumerate days) chart_lines ;;
  cfold (fun _ line => print (ChartLine line)) chart_lines tt ;;;
  date_labels <~ lift (mapM day_number days) ;;
  print (DateLabels date_labels) ;;;
  print DaysCaption ;;;
  print Newline.

End WeatherDisplay.

(* ================================================================= *)
(** * weather_display.py: the current-weather table *)

Module CurrentWeather.

(** [format(v, '.1f')], as in [f"{data.temperature:.1f}"]: a number is
    rendered ([bool] is an [int]); [str.__format__] rejects the code [f]
    with [ValueError]; [None], a list and a dict take no format string at
    all.  The rendering itself is left to [format]: the result is the
    number rendered.  The number is one that binary64 holds: on a larger
    [int] [format] raises [OverflowError]. *)
Definition format_1f (v : json) : result float :=
  match v with
  | JNum x => Ok x
  | JBool b => Ok (F64.of_int (if b then 1 else 0))
  | JStr _ => Raise ValueError
  | JNull | JArr _ | JObj _ => Raise TypeError
  end.

(** The table of [display_current_weather]: the two values of the title
    and the values of the six rows.  [{data.humidity}] and
    [{data.pressure}] have no format specification and take any value. *)
Record weather_table : Type := make_table {
  title_city : json;
  title_country : json;
  row_temperature : float;
  row_emoji : string;
  row_feels_like : float;
  row_description : string;
  row_humidity : json;
  row_wind_speed : float;
  row_pressure : json
}.

(** The rows are built in the order written; in the first row the
    temperature is formatted before the emoji is looked up. *)
Definition build_table (data : WeatherData.t) : result weather_table :=
  temperature <- format_1f (WeatherData.temperature data) ;;
  emoji <- WeatherDisplay._get_weather_emoji (WeatherData.icon data) ;;
  feels_like <- format_1f (WeatherData.feels_like data) ;;
  wind_speed <- format_1f (WeatherData.wind_speed data) ;;
  Ok (make_table (WeatherData.city data) (WeatherData.country data)
        temperature emoji feels_like (WeatherData.description data)
        (WeatherData.humidity data) wind_speed (WeatherData.pressure data)).

(** What [display_current_weather] prints: the panel around the table,
    then a newline. *)
Inductive printed : Type :=
  | CurrentConditions (table : weather_table)
  | Newline.

(** Both [console.print] calls come after the table is complete.  The
    table is printed as Rich prints one whose cells and title are
    accepted as markup. *)
Definition display_current_weather (data : WeatherData.t)
    : list printed -> result unit * list printed :=
  fun out =>
    match build_table data with
    | Ok table => (Ok tt, out ++ [CurrentConditions table; Newline])
    | Raise e => (Raise e, out)
    end.

End CurrentWeather.

(* ================================================================= *)
(** * main.py *)

Module Main.

(** What the session writes, in order: the panels and lines of [main], the
    [print] lines of the two parsers, and what the two display methods
    send to the console.  The prompt of [Prompt.ask] and the diagnostics of
    [_make_request] are not part of it. *)
Inductive event : Type :=
  | WelcomePanel
  | ConfigurationErrorPanel
  | GoodbyePanel
  | Fetching (city : string)
  | MissingKeyLine (k : key)              (* "Error parsing ...: Missing key k" *)
  | UnexpectedErrorLine (e : exn)         (* "An unexpected error occurred during forecast parsing" *)
  | Current (p : CurrentWeather.printed)
  | NoCurrentWeather (city : string)      (* "Could not retrieve current weather for city" *)
  | Forecast (p : WeatherDisplay.printed)
  | NoForecast (city : string)            (* "Could not retrieve forecast for city" *)
  | Separator.

(** One turn of the loop as the outside world supplies it: the answer
    that [Prompt.ask] returns, and what [_make_request] returns for the
    two requests made with that answer. *)
Record turn : Type := make_turn {
  answer : string;
  weather_reply : option json;
  forecast_reply : option json
}.

(** How [main] ends. *)
Inductive ending : Type :=
  | Finished                  (* [break], then [main] returns *)
  | Exited (status : Z)       (* [sys.exit(status)] *)
  | Crashed (e : exn)         (* an exception leaves [main] *)
  | EndOfInput.               (* no answer left: [Prompt.ask] raises [EOFError] *)

(** A piece of the loop body: what it writes, and the exception that stops
    it if there is one. *)
Definition step : Type := list event * option exn.

Definition and_then (a b : step) : step :=
  match a with
  | (out, None) => (out ++ fst b, snd b)
  | (out, Some e) => (out, Some e)
  end.

Definition raised {A : Type} (r : result A) : option exn :=
  match r with
  | Ok _ => None
  | Raise e => Some e
  end.

(** [current_weather_data = await weather_api.get_current_weather(city)]
    and the [if]/[else] on it.  An instance of a dataclass is true. *)
Definition show_current_weather (city : string) (reply : option json) : step :=
  match WeatherAPI.get_current_weather reply with
  | WeatherAPI.Returned w =>
      let (r, out) := CurrentWeather.display_current_weather w [] in
      (map Current out, raised r)
  | WeatherAPI.NoData => ([NoCurrentWeather city], None)
  | WeatherAPI.ParseFailure k => ([MissingKeyLine k; NoCurrentWeather city], None)
  | WeatherAPI.UnexpectedFailure e => ([UnexpectedErrorLine e; NoCurrentWeather city], None)
  | WeatherAPI.Uncaught e => ([], Some e)
  end.

Definition show_forecast (city : string) (reply : option json) : step :=
  match WeatherAPI.get_five_day_forecast reply with
  | WeatherAPI.Returned fd =>
      let (r, out) := WeatherDisplay.display_forecast fd [] in
      (map Forecast out, raised r)
  | WeatherAPI.NoData => ([NoForecast city], None)
  | WeatherAPI.ParseFailure k => ([MissingKeyLine k; NoForecast city], None)
  | WeatherAPI.UnexpectedFailure e => ([UnexpectedErrorLine e; NoForecast city], None)
  | WeatherAPI.Uncaught e => ([], Some e)
  end.

(** The body of the loop after the test for [exit].  The lines that
    name the city are printed as Rich prints them for a plain answer. *)
Definition query (t : turn) : step :=
  and_then ([Fetching (answer t)], None)
    (and_then (show_current_weather (answer t) (weather_reply t))
       (and_then (show_forecast (answer t) (forecast_reply t))
          ([Separator], None))).

(** [city.lower() == 'exit']. *)
Definition is_exit (city : string) : bool := String.eqb (lower city) "exit".

(** [while True:] over the answers that are left. *)
Fixpoint loop (turns : list turn) : list event * ending :=
  match turns with
  | [] => ([], EndOfInput)
  | t :: rest =>
      if is_exit (answer t) then ([GoodbyePanel], Finished)
      else
        match query t with
        | (out, Some e) => (out, Crashed e)
        | (out, None) => let (out', e) := loop rest in (out ++ out', e)
        end
  end.

(** [api_key] is [os.getenv("OPENWEATHER_API_KEY")]: [None] when the
    variable is not set; [not api_key] also holds for the empty string. *)
Definition main (api_key : option string) (turns : list turn) : list event * ending :=
  match api_key with
  | Some (String _ _) =>
      let (out, e) := loop turns in (WelcomePanel :: out, e)
  | _ => ([WelcomePanel; ConfigurationErrorPanel], Exited 1)
  end.

End Main.

(* ================================================================= *)
(** * Specification-side definitions *)

(** A float that is not NaN has a place in a lexicographic order on three
    integers: its class, then its exponent, then its mantissa, the last two
    negated for negative numbers. *)
Definition place (x : float) : Z * Z * Z :=
  match x with
  | S754_infinity true => (-2, 0, 0)
  | S754_finite true m e => (-1, - e, - Zpos m)
  | S754_zero _ => (0, 0, 0)
  | S754_finite false m e => (1, e, Zpos m)
  | S754_infinity false => (2, 0, 0)
  | S754_nan => (3, 0, 0)
  end.

Definition lex_lt (p q : Z * Z * Z) : Prop :=
  let '(a1, b1, c1) := p in
  let '(a2, b2, c2) := q in
  a1 < a2 \/ (a1 = a2 /\ (b1 < b2 \/ (b1 = b2 /\ c1 < c2))).

Definition not_nan (x : float) : Prop := F64.is_nan x = false.

(** The samples of one calendar date, in the order of the response. *)
Definition on_date (d : string) (item : json) : bool :=
  match WeatherAPI.date_of item with
  | Ok d' => String.eqb d' d
  | Raise _ => false
  end.

Definition samples_of_day (items : list json) (d : string) : list json :=
  filter (on_date d) items.

(** The samples of a forecast response: what [for item in data['list']]
    goes through. *)
Definition forecast_items (data : json) : result (list json) :=
  l <- (Ok data).["list"] ;; iterate l.

(** The readings stored under a date, none if the date is not a key. *)
Definition readings_of (d : string) (forecast_by_day : list (string * list json)) : list json :=
  match lookup d forecast_by_day with
  | Some readings => readings
  | None => []
  end.

(** [d1 < d2] and [d1 <= d2] on the dates of two forecasts, as Python
    compares the strings. *)
Definition date_lt (a b : DailyForecast.t) : Prop :=
  String.ltb (DailyForecast.date a) (DailyForecast.date b) = true.

Definition date_le (a b : DailyForecast.t) : Prop :=
  String.ltb (DailyForecast.date b) (DailyForecast.date a) = false.

(* ================================================================= *)
(** * Sample documents *)

(** One 3-hour sample of a forecast response. *)
Definition sample (dt_txt : string) (temp : float) (description icon : string) : json :=
  JObj [ ("dt_txt", JStr dt_txt);
         ("main", JObj [("temp", JNum temp)]);
         ("weather", JArr [JObj [("description", JStr description); ("icon", JStr icon)]]) ].

Definition forecast_response (samples : list json) : json :=
  JObj [ ("list", JArr samples);
         ("city", JObj [("name", JStr "Paris"); ("country", JStr "FR")]) ].

(** Two dates, the later one first in the document. *)
Definition example_response : json :=
  forecast_response
    [ sample "2024-01-02 00:00:00" (F64.of_decimal 125 (-1)) "cloudy" "03d";
      sample "2024-01-01 21:00:00" (F64.of_decimal 55 (-1)) "rainy" "10d";
      sample "2024-01-02 03:00:00" (F64.of_decimal 100 (-1)) "rainy" "10d";
      sample "2024-01-02 06:00:00" (F64.of_decimal 75 (-1)) "cloudy" "03d" ].

(** What the client returns for it: one sample on the first date, three
    on the second. *)
Definition example_first_day : DailyForecast.t :=
  DailyForecast.make "2024-01-01"
    (F64.of_decimal 55 (-1)) (F64.of_decimal 55 (-1)) (F64.of_decimal 55 (-1))
    "Rainy" (JStr "10d").

Definition example_second_day : DailyForecast.t :=
  DailyForecast.make "2024-01-02"
    (F64.of_decimal 75 (-1)) (F64.of_decimal 125 (-1)) (F64.of_int 10)
    "Cloudy" (JStr "03d").

Definition example_forecast : ForecastData.t :=
  ForecastData.make (JStr "Paris") (JStr "FR") [example_first_day; example_second_day].

(* ================================================================= *)
(** * The mode of a list of strings *)

(** Number of occurrences of [s] in [ss]. *)
Definition count (s : string) (ss : list string) : nat := count_occ string_dec ss s.

(** [m] is the mode of [ss] with ties going to the value met first: no
    value occurs more often than [m], and every value met before the first
    occurrence of [m] occurs strictly less often. *)
Definition is_first_mode (m : string) (ss : list string) : Prop :=
  exists pre post,
    ss = pre ++ m :: post /\ ~ In m pre /\
    (forall y, (count y ss <= count m ss)%nat) /\
    (forall y, In y pre -> (count y ss < count m ss)%nat).

(** The values of [ss] that are not in [seen], each once, in the order of
    their first occurrence. *)
Fixpoint firsts (seen : list string) (ss : list string) : list string :=
  match ss with
  | [] => []
  | s :: rest =>
      if in_dec string_dec s seen then firsts seen rest
      else s :: firsts (seen ++ [s]) rest
  end.

(** The count held by a counter for the string [k], 0 if [k] is not a key. *)
Fixpoint tally (k : string) (c : list (json * nat)) : nat :=
  match c with
  | [] => 0%nat
  | (k', n) :: rest => if py_eq k' (JStr k) then n else tally k rest
  end.

(** The three-sample and the two-sample day of the tie-break examples. *)
Definition cloudy_rainy_cloudy : json :=
  forecast_response
    [ sample "2024-01-01 00:00:00" (F64.of_int 10) "cloudy" "03d";
      sample "2024-01-01 03:00:00" (F64.of_int 11) "rainy" "10d";
      sample "2024-01-01 06:00:00" (F64.of_int 12) "cloudy" "03d" ].

Definition tie_a_b : json :=
  forecast_response
    [ sample "2024-01-01 00:00:00" (F64.of_int 10) "a" "01d";
      sample "2024-01-01 03:00:00" (F64.of_int 11) "b" "02d" ].

(** The temperatures of a list of samples, as the numbers that [min],
    [max] and [sum] work on. *)
Definition sample_temps (readings : list json) : result (list float) :=
  raw <- mapM WeatherAPI.temp_of readings ;; mapM as_number raw.

(** One date with three samples of 0.1 degrees. *)
Definition three_tenths : json :=
  forecast_response
    [ sample "2024-01-01 00:00:00" (F64.of_decimal 1 (-1)) "clear sky" "01d";
      sample "2024-01-01 03:00:00" (F64.of_decimal 1 (-1)) "clear sky" "01d";
      sample "2024-01-01 06:00:00" (F64.of_decimal 1 (-1)) "clear sky" "01d" ].

(* ================================================================= *)
(** * The printed chart *)

(** The chart lines among the printed items, top line first. *)
Fixpoint chart_lines_of (out : list WeatherDisplay.printed) : list (list string) :=
  match out with
  | [] => []
  | WeatherDisplay.ChartLine line :: rest => line :: chart_lines_of rest
  | _ :: rest => chart_lines_of rest
  end.

(** The character at column [col] of line [line], both counted from 0. *)
Definition cell (chart : list (list string)) (line col : Z) : option string :=
  if (0 <=? line) && (0 <=? col) then
    match nth_error chart (Z.to_nat line) with
    | Some l => nth_error l (Z.to_nat col)
    | None => None
    end
  else None.

(** [round(x)] of Python: the nearest integer, a tie going to the even
    one. *)
Definition py_round (x : float) : result Z :=
  match x with
  | S754_zero _ => Ok 0
  | S754_finite s m e =>
      if 0 <=? e then Ok (cond_Zopp s (Zpos m * 2 ^ e))
      else
        let d := 2 ^ (- e) in
        let q := Zpos m / d in
        let r := Zpos m mod d in
        Ok (cond_Zopp s
              (match 2 * r ?= d with
               | Lt => q
               | Gt => q + 1
               | Eq => if Z.even q then q else q + 1
               end))
  | S754_infinity _ => Raise OverflowError
  | S754_nan => Raise ValueError
  end.

(** The row and the column as the specification words them, with [round]
    where the source has [int]. *)
Definition rounded_scaled_temp (avg_temp min_temp_all temp_range : float) : result Z :=
  q <- F64.truediv (F64.sub avg_temp min_temp_all) temp_range ;;
  scaled_temp <- py_round (F64.mul q (F64.of_int (WeatherDisplay.chart_height - 1))) ;;
  Ok (Z.max 0 (Z.min scaled_temp (WeatherDisplay.chart_height - 1))).

Definition rounded_column_pos (i n : Z) : result Z :=
  column_pos <-
    (if 1 <? n then
       q <- F64.truediv (F64.of_int i) (F64.of_int (n - 1)) ;;
       py_round (F64.mul q (F64.of_int (WeatherDisplay.chart_width - 1)))
     else Ok 0) ;;
  Ok (Z.max 0 (Z.min column_pos (WeatherDisplay.chart_width - 1))).

(** Five days between 10 and 30 degrees; the third has average 20. *)
Definition day_of (date : string) (min_temp max_temp avg_temp : Z) : DailyForecast.t :=
  DailyForecast.make date (F64.of_int min_temp) (F64.of_int max_temp)
    (F64.of_int avg_temp) "Clear sky" (JStr "01d").

Definition five_days : ForecastData.t :=
  ForecastData.make (JStr "Paris") (JStr "FR")
    [ day_of "2024-01-01" 10 14 12;
      day_of "2024-01-02" 12 18 15;
      day_of "2024-01-03" 15 25 20;
      day_of "2024-01-04" 20 30 25;
      day_of "2024-01-05" 18 28 23 ].

(** A chart of [chart_height] lines of [chart_width] characters. *)
Definition chart_ok (chart : list (list string)) : Prop :=
  List.length chart = Z.to_nat WeatherDisplay.chart_height /\
  Forall (fun line => List.length line = Z.to_nat WeatherDisplay.chart_width) chart.

(* ================================================================= *)
(** * Responses with a field removed *)

(** The dict [v] without the key [k]. *)
Definition without_key (k : string) (v : json) : json :=
  match v with
  | JObj fields => JObj (filter (fun kv => negb (String.eqb (fst kv) k)) fields)
  | _ => v
  end.

(** [f] applied to the value that [v[k]] reads, respectively [v[i]]. *)
Fixpoint update_field (k : string) (f : json -> json) (fields : list (string * json))
    : list (string * json) :=
  match fields with
  | [] => []
  | (k', x) :: rest =>
      if String.eqb k' k then (k', f x) :: rest else (k', x) :: update_field k f rest
  end.

Fixpoint update_nth (i : nat) (f : json -> json) (items : list json) : list json :=
  match items, i with
  | [], _ => []
  | x :: rest, O => f x :: rest
  | x :: rest, S i' => x :: update_nth i' f rest
  end.

Definition in_field (k : string) (f : json -> json) (v : json) : json :=
  match v with
  | JObj fields => JObj (update_field k f fields)
  | _ => v
  end.

Definition in_item (i : nat) (f : json -> json) (v : json) : json :=
  match v with
  | JArr items => JArr (update_nth i f items)
  | _ => v
  end.

(** The document [v] without the key [k] of the dict found by following
    [path] from the root. *)
Fixpoint remove_field (path : list key) (k : string) (v : json) : json :=
  match path with
  | [] => without_key k v
  | KStr k' :: rest => in_field k' (remove_field rest k) v
  | KInt i :: rest => in_item (Z.to_nat i) (remove_field rest k) v
  end.

(** The fields that [get_current_weather] reads, each as the path to the
    dict that holds it and its key. *)
Definition current_weather_fields : list (list key * string) :=
  [ ([], "name");
    ([], "sys"); ([KStr "sys"], "country");
    ([], "main"); ([KStr "main"], "temp"); ([KStr "main"], "feels_like");
    ([KStr "main"], "humidity"); ([KStr "main"], "pressure");
    ([], "weather");
    ([KStr "weather"; KInt 0], "description"); ([KStr "weather"; KInt 0], "icon");
    ([], "wind"); ([KStr "wind"], "speed") ].

(** The fields that [get_five_day_forecast] reads outside the samples, and
    those it reads in sample [i] of [data['list']]. *)
Definition forecast_fields : list (list key * string) :=
  [ ([], "list"); ([], "city"); ([KStr "city"], "name"); ([KStr "city"], "country") ].

Definition sample_fields (i : nat) : list (list key * string) :=
  let item := [KStr "list"; KInt (Z.of_nat i)] in
  [ (item, "dt_txt");
    (item, "main"); (item ++ [KStr "main"], "temp");
    (item, "weather");
    (item ++ [KStr "weather"; KInt 0], "description");
    (item ++ [KStr "weather"; KInt 0], "icon") ].

(** A complete current-weather response. *)
Definition current_response : json :=
  JObj [ ("name", JStr "Paris");
         ("sys", JObj [("country", JStr "FR")]);
         ("main", JObj [ ("temp", JNum (F64.of_decimal 125 (-1)));
                         ("feels_like", JNum (F64.of_decimal 118 (-1)));
                         ("humidity", JNum (F64.of_int 70));
                         ("pressure", JNum (F64.of_int 1013)) ]);
         ("weather", JArr [JObj [("description", JStr "light rain"); ("icon", JStr "10d")]]);
         ("wind", JObj [("speed", JNum (F64.of_decimal 41 (-1)))]) ].

(** The same response with an empty [weather] array. *)
Definition no_weather_response : json :=
  in_field "weather" (fun _ => JArr []) current_response.

(** Which read of a sample a removed field breaks. *)
Inductive breaks (item item' : json) (k : string) : Prop :=
  | breaks_date :
      WeatherAPI.date_of item' = Raise (KeyError (KStr k)) -> breaks item item' k
  | breaks_temp :
      WeatherAPI.date_of item' = WeatherAPI.date_of item ->
      WeatherAPI.temp_of item' = Raise (KeyError (KStr k)) -> breaks item item' k
  | breaks_description :
      WeatherAPI.date_of item' = WeatherAPI.date_of item -> WeatherAPI.temp_of item' = WeatherAPI.temp_of item ->
      WeatherAPI.description_of item' = Raise (KeyError (KStr k)) -> breaks item item' k
  | breaks_icon :
      WeatherAPI.date_of item' = WeatherAPI.date_of item -> WeatherAPI.temp_of item' = WeatherAPI.temp_of item ->
      WeatherAPI.description_of item' = WeatherAPI.description_of item ->
      WeatherAPI.icon_of item' = Raise (KeyError (KStr k)) -> breaks item item' k.

(** A temperature of the data model: a finite, well-formed binary64
    number. *)
Definition temperature_ok (x : float) : Prop :=
  F64.valid x = true /\ F64.is_finite x = true.

(** The invariant of a [DailyForecast]: three temperatures with
    [min_temp <= avg_temp <= max_temp]. *)
Definition day_ok (day : DailyForecast.t) : Prop :=
  temperature_ok (DailyForecast.min_temp day) /\
  temperature_ok (DailyForecast.max_temp day) /\
  temperature_ok (DailyForecast.avg_temp day) /\
  F64.leb (DailyForecast.min_temp day) (DailyForecast.avg_temp day) = true /\
  F64.leb (DailyForecast.avg_temp day) (DailyForecast.max_temp day) = true.

(** A day that the panels can show: the icon can be looked up and the
    date has a day number, as an ISO date has. *)
Definition day_printable (day : DailyForecast.t) : Prop :=
  hashable (DailyForecast.icon day) = true /\
  exists label, WeatherDisplay.day_number day = Ok label.

(* ================================================================= *)
(** * Values of the sample documents *)

Definition example_items : list json :=
  [ sample "2024-01-02 00:00:00" (F64.of_decimal 125 (-1)) "cloudy" "03d";
    sample "2024-01-01 21:00:00" (F64.of_decimal 55 (-1)) "rainy" "10d";
    sample "2024-01-02 03:00:00" (F64.of_decimal 100 (-1)) "rainy" "10d";
    sample "2024-01-02 06:00:00" (F64.of_decimal 75 (-1)) "cloudy" "03d" ].

Definition cloudy_day : DailyForecast.t :=
  DailyForecast.make "2024-01-01" (F64.of_int 10) (F64.of_int 12) (F64.of_int 11)
    "Cloudy" (JStr "03d").

Definition cloudy_forecast : ForecastData.t :=
  ForecastData.make (JStr "Paris") (JStr "FR") [cloudy_day].

Definition cloudy_items : list json :=
  [ sample "2024-01-01 00:00:00" (F64.of_int 10) "cloudy" "03d";
    sample "2024-01-01 03:00:00" (F64.of_int 11) "rainy" "10d";
    sample "2024-01-01 06:00:00" (F64.of_int 12) "cloudy" "03d" ].

(** What [display_forecast] prints for [five_days]. *)
Definition five_days_output : list WeatherDisplay.printed :=
  Eval vm_compute in snd (WeatherDisplay.display_forecast five_days []).

Definition current_weather_data : WeatherData.t :=
  WeatherData.make (JStr "Paris") (JStr "FR")
    (JNum (F64.of_decimal 125 (-1))) (JNum (F64.of_decimal 118 (-1)))
    (JNum (F64.of_int 70)) "Light rain" (JStr "10d")
    (JNum (F64.of_decimal 41 (-1))) (JNum (F64.of_int 1013)).

(* ================================================================= *)
(** * Further specification-side definitions *)

(** The string has no occurrence of the character. *)
Definition free_of (c : ascii) (s : string) : Prop :=
  ~ In c (list_ascii_of_string s).

(** Number of occurrences of a character in a string. *)
Fixpoint occurrences (c : ascii) (s : string) : nat :=
  match s with
  | EmptyString => 0%nat
  | String c' rest => ((if Ascii.eqb c' c then 1 else 0) + occurrences c rest)%nat
  end.

(** A console computation that only appends to what is printed: started
    on any console, it yields what it yields on an empty one and leaves
    the old output in front of its own. *)
Definition appends {A : Type} (c : WeatherDisplay.console A) : Prop :=
  forall out, c out = (fst (c []), out ++ snd (c [])).

(** The label printed under the chart for one day. *)
Definition trend_label (day : DailyForecast.t) : result WeatherDisplay.printed :=
  label <- WeatherDisplay.day_number day ;;
  Ok (WeatherDisplay.TrendLabel label (DailyForecast.avg_temp day)).

(** The nine values that [get_current_weather] reads from a response. *)
Definition current_weather_reads (data : json)
    (city country temp feels_like humidity description icon speed pressure : json) : Prop :=
  (Ok data).["name"] = Ok city /\
  (Ok data).["sys"].["country"] = Ok country /\
  (Ok data).["main"].["temp"] = Ok temp /\
  (Ok data).["main"].["feels_like"] = Ok feels_like /\
  (Ok data).["main"].["humidity"] = Ok humidity /\
  (Ok data).["weather"].[0].["description"] = Ok description /\
  (Ok data).["weather"].[0].["icon"] = Ok icon /\
  (Ok data).["wind"].["speed"] = Ok speed /\
  (Ok data).["main"].["pressure"] = Ok pressure.

(** A turn that is not [exit] and whose two requests are answered without
    an exception leaving the loop body. *)
Definition turn_completes (t : Main.turn) : Prop :=
  Main.is_exit (Main.answer t) = false /\ snd (Main.query t) = None.

(** What the turns write one after the other. *)
Definition written (turns : list Main.turn) : list Main.event :=
  List.concat (map (fun t => fst (Main.query t)) turns).

(** A session of three turns: a city for which both requests fail, the
    word that ends the session, and a turn that is never reached. *)
Definition atlantis_then_exit : list Main.turn :=
  [ Main.make_turn "Atlantis" None None;
    Main.make_turn "EXIT" None None;
    Main.make_turn "Paris" (Some current_response) (Some example_response) ].

(** A session in which the forecast of the first city has no sample. *)
Definition empty_forecast_session : list Main.turn :=
  [ Main.make_turn "Paris" None (Some (forecast_response []));
    Main.make_turn "exit" None None ].

(** A sample that [get_five_day_forecast] can read: a string [dt_txt], a
    number for the temperature, strings for the description and the
    icon. *)
Definition sample_ok (item : json) : Prop :=
  (exists dt, (Ok item).["dt_txt"] = Ok (JStr dt)) /\
  (exists x t, WeatherAPI.temp_of item = Ok x /\ as_number x = Ok t) /\
  (exists ds, WeatherAPI.description_of item = Ok (JStr ds)) /\
  (exists ic, WeatherAPI.icon_of item = Ok (JStr ic)).

(** Magnitudes of binary64 numbers.  [below hi x]: [x] is a zero or a
    finite number with [|x| < 2^hi].  [moderate lo hi x]: moreover [x] is
    written with an exponent of at least [lo], so it is a multiple of
    [2^lo]. *)
Definition below (hi : Z) (x : float) : Prop :=
  match x with
  | S754_zero _ => True
  | S754_finite _ m e => Zdigits2 (Zpos m) + e <= hi
  | _ => False
  end.

Definition moderate (lo hi : Z) (x : float) : Prop :=
  match x with
  | S754_zero _ => True
  | S754_finite _ m e => lo <= e /\ Zdigits2 (Zpos m) + e <= hi
  | _ => False
  end.

(** A finite number of magnitude at least [2^lo]. *)
Definition at_least (lo : Z) (x : float) : Prop :=
  match x with
  | S754_finite _ m e => lo < Zdigits2 (Zpos m) + e
  | _ => False
  end.

(** Text that is pasted into Rich markup.  [console.print] and the title
    of a [Table] or a [Panel] read a bracketed word in a string as a style
    tag, and a closing tag that closes nothing is a [MarkupError] of Rich,
    which is not an exception of this model.  A text without an opening
    bracket adds no tag to the markup around it. *)
Definition plain (s : string) : Prop := free_of "[" s.

(** The same for a value pasted as [f"{v}"]: a string is pasted as it is;
    a number, a boolean and [None] are written without a bracket; a list
    is written with one, and a dict may hold one. *)
Definition plain_value (v : json) : Prop :=
  match v with
  | JStr s => plain s
  | JNull | JBool _ | JNum _ => True
  | JArr _ | JObj _ => False
  end.

(** A value that, if it is a number, is a finite one.  Python keeps a JSON
    integer as an exact [int]; on one that is too large for a binary64
    number [format] and [/] raise [OverflowError], where the model carries
    an infinity. *)
Definition finite_number (v : json) : Prop :=
  forall t, as_number v = Ok t -> F64.is_finite t = true.

(** A [WeatherData] that [display_current_weather] can paste into its
    table: the city, the country, the description, the humidity and the
    pressure go into markup, the three other values through [format]. *)
Definition table_plain (w : WeatherData.t) : Prop :=
  plain_value (WeatherData.city w) /\ plain_value (WeatherData.country w) /\
  plain (WeatherData.description w) /\
  plain_value (WeatherData.humidity w) /\ plain_value (WeatherData.pressure w) /\
  finite_number (WeatherData.temperature w) /\
  finite_number (WeatherData.feels_like w) /\
  finite_number (WeatherData.wind_speed w).

(** A current-weather reply whose data, when the client returns some, can
    be pasted into the table. *)
Definition current_reply_plain (reply : option json) : Prop :=
  forall w, WeatherAPI.get_current_weather reply = WeatherAPI.Returned w -> table_plain w.

(** A day that [display_forecast] can show: the icon can be looked up, the
    date has a day number, and the day number, which is pasted into the
    title of the panel and into the label under the chart, is plain. *)
Definition day_renders (day : DailyForecast.t) : Prop :=
  hashable (DailyForecast.icon day) = true /\
  exists label, WeatherDisplay.day_number day = Ok label /\ plain label.

(** The temperature of a sample, when it is a number, is below [2^900] in
    magnitude: the sum of up to [2^53] of them is finite, also where
    Python adds JSON integers exactly. *)
Definition temperature_bounded (item : json) : Prop :=
  forall x t, WeatherAPI.temp_of item = Ok x -> as_number x = Ok t -> below 900 t.

(** A day of a forecast in which all minima and maxima coincide, with
    [min_temp_all] their common value: its average lies between its
    minimum and its maximum, or differs from [min_temp_all] by less than
    [2^-5], as the rounding of [sum(temps) / len(temps)] leaves it for
    temperatures of ordinary size. *)
Definition day_flat (min_temp_all : float) (day : DailyForecast.t) : Prop :=
  day_ok day \/
  (temperature_ok (DailyForecast.min_temp day) /\
   temperature_ok (DailyForecast.max_temp day) /\
   below (-5) (F64.sub (DailyForecast.avg_temp day) min_temp_all)).

(** A day whose three temperatures are moderate: the extremes are
    multiples of [2^lo], and all three are below [2^hi] in magnitude. *)
Definition day_moderate (lo hi : Z) (day : DailyForecast.t) : Prop :=
  moderate lo hi (DailyForecast.min_temp day) /\
  moderate lo hi (DailyForecast.max_temp day) /\
  below hi (DailyForecast.avg_temp day).

(** A sample that can also be displayed: the date under which it is
    grouped has the two hyphens of an ISO date and is plain, and its
    temperature is moderate. *)
Definition sample_displayable (item : json) : Prop :=
  sample_ok item /\
  (forall d, WeatherAPI.date_of item = Ok d -> (2 <= occurrences "-" d)%nat) /\
  (forall d, WeatherAPI.date_of item = Ok d -> plain d) /\
  (forall x t, WeatherAPI.temp_of item = Ok x -> as_number x = Ok t ->
     moderate (-300) 100 t).

(** Two days, of 10 and of 20 degrees. *)
Definition two_level_days : ForecastData.t :=
  ForecastData.make (JStr "Paris") (JStr "FR")
    [ day_of "2024-01-01" 10 10 10; day_of "2024-01-02" 20 20 20 ].

(** Two days of 0.1 degrees.  The first is the day that
    [get_five_day_forecast] returns for three samples of 0.1: its average
    is one unit in the last place above its maximum. *)
Definition tenth_days : ForecastData.t :=
  ForecastData.make (JStr "Paris") (JStr "FR")
    [ DailyForecast.make "2024-01-01" (F64.of_decimal 1 (-1)) (F64.of_decimal 1 (-1))
        (S754_finite false 7205759403792795 (-56)) "Clear sky" (JStr "01d");
      DailyForecast.make "2024-01-02" (F64.of_decimal 1 (-1)) (F64.of_decimal 1 (-1))
        (F64.of_decimal 1 (-1)) "Clear sky" (JStr "01d") ].

(** A turn in which both requests are answered in full. *)
Definition paris_turn : Main.turn :=
  Main.make_turn "Paris" (Some current_response) (Some example_response).

(** Every character of the chart is a blank or the marker. *)
Definition cells_ok (chart : list (list string)) : Prop :=
  Forall (Forall (fun c => c = WeatherDisplay.blank \/ c = WeatherDisplay.marker)) chart.

(** The samples of [example_response] with the single sample of the first
    date moved to the front. *)
Definition example_response_by_date : json :=
  forecast_response
    [ sample "2024-01-01 21:00:00" (F64.of_decimal 55 (-1)) "rainy" "10d";
      sample "2024-01-02 00:00:00" (F64.of_decimal 125 (-1)) "cloudy" "03d";
      sample "2024-01-02 03:00:00" (F64.of_decimal 100 (-1)) "rainy" "10d";
      sample "2024-01-02 06:00:00" (F64.of_decimal 75 (-1)) "cloudy" "03d" ].

(** A sample whose four fields can be read, with strings for the date,
    the description and the icon; the temperature may hold any value. *)
Definition sample_readable (item : json) : Prop :=
  (exists dt, (Ok item).["dt_txt"] = Ok (JStr dt)) /\
  (exists x, WeatherAPI.temp_of item = Ok x) /\
  (exists ds, WeatherAPI.description_of item = Ok (JStr ds)) /\
  (exists ic, WeatherAPI.icon_of item = Ok (JStr ic)).

(** [example_response] with the temperature of its third sample given as
    a string. *)
Definition string_temperature_response : json :=
  in_field "list"
    (in_item 2 (in_field "main" (in_field "temp" (fun _ => JStr "10.0"))))
    example_response.

(* ================================================================= *)
(** * The [result] monad *)

Lemma bind_Ok {A B : Type} (c : result A) (k : A -> result B) (b : B) :
  bind c k = Ok b -> exists a, c = Ok a /\ k a = Ok b.
Proof.
  destruct c as [a|e]; simpl; intros H; [eauto | discriminate].
Qed.

(** Split a successful sequence of binds into its steps. *)
Ltac inv_bind H :=
  repeat match type of H with
  | bind ?c ?k = Ok ?b =>
      let a := fresh "v" in
      let H1 := fresh "E" in
      apply bind_Ok in H; destruct H as (a & H1 & H); cbv beta in H
  end.

Lemma mapM_Ok_Forall2 {A B : Type} (f : A -> result B) (xs : list A) (ys : list B) :
  mapM f xs = Ok ys <-> Forall2 (fun x y => f x = Ok y) xs ys.
Proof.
  revert ys; induction xs as [|x xs IH]; intros ys; simpl.
  - split; intros H.
    + injection H as <-. constructor.
    + inversion H. reflexivity.
  - split; intros H.
    + inv_bind H. injection H as <-. constructor; [assumption | now apply IH].
    + inversion H as [|? y ? ys' Hx Hr]; subst.
      rewrite Hx; simpl. apply IH in Hr. rewrite Hr. reflexivity.
Qed.

Lemma mapM_length {A B : Type} (f : A -> result B) (xs : list A) (ys : list B) :
  mapM f xs = Ok ys -> List.length ys = List.length xs.
Proof.
  intros H. apply mapM_Ok_Forall2 in H. symmetry. eapply Forall2_length; eauto.
Qed.

Lemma mapM_app {A B : Type} (f : A -> result B) (xs1 xs2 : list A) :
  mapM f (xs1 ++ xs2) =
  (ys1 <- mapM f xs1 ;; ys2 <- mapM f xs2 ;; Ok (ys1 ++ ys2)).
Proof.
  induction xs1 as [|x xs1 IH]; simpl.
  - destruct (mapM f xs2); reflexivity.
  - destruct (f x) as [y|e]; simpl; [|reflexivity].
    rewrite IH. destruct (mapM f xs1) as [ys1|e]; simpl; [|reflexivity].
    destruct (mapM f xs2); reflexivity.
Qed.

Lemma mapM_In {A B : Type} (f : A -> result B) (xs : list A) (ys : list B) (y : B) :
  mapM f xs = Ok ys -> In y ys -> exists x, In x xs /\ f x = Ok y.
Proof.
  intros H. apply mapM_Ok_Forall2 in H.
  induction H as [|x y' xs ys Hx _ IH]; simpl; intros Hin; [contradiction|].
  destruct Hin as [->|Hin]; [eauto|].
  destruct (IH Hin) as (x' & ? & ?); eauto.
Qed.

(** The first failing element decides the exception. *)
Lemma mapM_first_Raise {A B : Type} (f : A -> result B) (xs1 xs2 : list A)
    (x : A) (ys1 : list B) (e : exn) :
  mapM f xs1 = Ok ys1 -> f x = Raise e -> mapM f (xs1 ++ x :: xs2) = Raise e.
Proof.
  intros H1 Hx. rewrite mapM_app, H1. simpl. rewrite Hx. reflexivity.
Qed.

(* ================================================================= *)
(** * Order on binary64 values *)

Lemma compare_place (x y : float) :
  F64.is_nan x = false -> F64.is_nan y = false ->
  (SFcompare x y = Some Lt <-> lex_lt (place x) (place y)) /\
  (SFcompare x y = Some Eq <-> place x = place y) /\
  (SFcompare x y = Some Gt <-> lex_lt (place y) (place x)).
Proof.
  intros Hx Hy.
  destruct x as [sx|sx| |sx mx ex]; try discriminate;
  destruct y as [sy|sy| |sy my ey]; try discriminate;
  try destruct sx; try destruct sy; simpl;
  try (repeat split; intros H; try discriminate; try reflexivity;
       try (injection H; intros; lia); try lia; fail).
  all: change (Pos.compare_cont Eq mx my) with (Pos.compare mx my).
  all: destruct (Z.compare_spec ex ey) as [He|He|He];
       destruct (Pos.compare_spec mx my) as [Hm|Hm|Hm]; simpl;
       repeat split; intros H; try discriminate; try reflexivity;
       try (injection H; intros; subst; lia); try lia; try (f_equal; f_equal; lia).
Qed.

Lemma ltb_place (x y : float) :
  F64.is_nan x = false -> F64.is_nan y = false ->
  (F64.ltb x y = true <-> lex_lt (place x) (place y)).
Proof.
  intros Hx Hy. destruct (compare_place x y Hx Hy) as (Hlt & _ & _).
  unfold F64.ltb, SFltb. rewrite <- Hlt.
  destruct (SFcompare x y) as [[| |]|]; split; intros H; congruence.
Qed.

Ltac lex_solve :=
  unfold lex_lt in *;
  repeat match goal with
  | H : context [place ?x] |- _ =>
      let a := fresh "a" in let b := fresh "b" in let c := fresh "c" in
      destruct (place x) as [[a b] c]
  | |- context [place ?x] =>
      let a := fresh "a" in let b := fresh "b" in let c := fresh "c" in
      destruct (place x) as [[a b] c]
  end;
  repeat match goal with
  | H : (_, _, _) = (_, _, _) |- _ => injection H as ? ? ?
  end;
  subst;
  try lia; try (left; lia); try (right; f_equal; [f_equal|]; lia).

Lemma leb_place (x y : float) :
  F64.is_nan x = false -> F64.is_nan y = false ->
  (F64.leb x y = true <-> lex_lt (place x) (place y) \/ place x = place y).
Proof.
  intros Hx Hy. destruct (compare_place x y Hx Hy) as (Hlt & Heq & Hgt).
  unfold F64.leb, SFleb.
  destruct (SFcompare x y) as [[| |]|] eqn:E; split; intros H; try discriminate;
    try reflexivity.
  - right. now apply Heq.
  - left. now apply Hlt.
  - exfalso. assert (G : lex_lt (place y) (place x)) by now apply Hgt.
    destruct H as [H|H]; [|rewrite H in G]; lex_solve.
  - destruct H as [H|H]; [apply Hlt in H | apply Heq in H]; discriminate.
Qed.

Lemma eqb_place (x y : float) :
  F64.is_nan x = false -> F64.is_nan y = false ->
  (F64.eqb x y = true <-> place x = place y).
Proof.
  intros Hx Hy. destruct (compare_place x y Hx Hy) as (_ & Heq & _).
  unfold F64.eqb, SFeqb. rewrite <- Heq.
  destruct (SFcompare x y) as [[| |]|]; split; intros H; congruence.
Qed.

Lemma leb_refl (x : float) : F64.is_nan x = false -> F64.leb x x = true.
Proof. intros Hx. apply leb_place; auto. Qed.

Lemma leb_trans (x y z : float) :
  F64.is_nan x = false -> F64.is_nan y = false -> F64.is_nan z = false ->
  F64.leb x y = true -> F64.leb y z = true -> F64.leb x z = true.
Proof.
  intros Hx Hy Hz Hxy Hyz.
  apply leb_place in Hxy; auto. apply leb_place in Hyz; auto. apply leb_place; auto.
  destruct Hxy as [Hxy|Hxy]; destruct Hyz as [Hyz|Hyz];
    try rewrite Hxy in *; try rewrite <- Hyz in *; auto.
  left. lex_solve.
Qed.

Lemma leb_antisym (x y : float) :
  F64.is_nan x = false -> F64.is_nan y = false ->
  F64.leb x y = true -> F64.leb y x = true -> F64.eqb x y = true.
Proof.
  intros Hx Hy Hxy Hyx.
  apply leb_place in Hxy; auto. apply leb_place in Hyx; auto. apply eqb_place; auto.
  destruct Hxy as [Hxy|Hxy]; [|assumption].
  destruct Hyx as [Hyx|Hyx]; [|auto].
  exfalso. lex_solve.
Qed.

Lemma ltb_leb (x y : float) :
  F64.is_nan x = false -> F64.is_nan y = false ->
  F64.ltb x y = true -> F64.leb x y = true.
Proof.
  intros Hx Hy H. apply leb_place; auto. left. now apply ltb_place.
Qed.

Lemma not_ltb_leb (x y : float) :
  F64.is_nan x = false -> F64.is_nan y = false ->
  F64.ltb x y = false -> F64.leb y x = true.
Proof.
  intros Hx Hy H. apply leb_place; auto.
  destruct (compare_place x y Hx Hy) as (Hlt & Heq & Hgt).
  unfold F64.ltb, SFltb in H.
  destruct (SFcompare x y) as [[| |]|] eqn:E; try discriminate.
  - right. symmetry. now apply Heq.
  - left. now apply Hgt.
  - destruct x, y; discriminate.
Qed.

(* ================================================================= *)
(** * [min] and [max] *)

Lemma fold_min_In (rest : list float) (best : float) :
  let m := fold_left (fun best y => if F64.ltb y best then y else best) rest best in
  m = best \/ In m rest.
Proof.
  revert best; induction rest as [|y rest IH]; intros best; simpl; [auto|].
  destruct (IH (if F64.ltb y best then y else best)) as [H|H]; [|auto].
  rewrite H. destruct (F64.ltb y best); auto.
Qed.

Lemma fold_max_In (rest : list float) (best : float) :
  let m := fold_left (fun best y => if F64.ltb best y then y else best) rest best in
  m = best \/ In m rest.
Proof.
  revert best; induction rest as [|y rest IH]; intros best; simpl; [auto|].
  destruct (IH (if F64.ltb best y then y else best)) as [H|H]; [|auto].
  rewrite H. destruct (F64.ltb best y); auto.
Qed.

Lemma fold_min_le (rest : list float) (best : float) :
  not_nan best -> Forall not_nan rest ->
  let m := fold_left (fun best y => if F64.ltb y best then y else best) rest best in
  not_nan m /\ F64.leb m best = true /\ Forall (fun y => F64.leb m y = true) rest.
Proof.
  revert best; induction rest as [|y rest IH]; intros best Hb Hr; simpl.
  - split; [assumption|]. split; [now apply leb_refl | constructor].
  - inversion Hr as [|? ? Hy Hr']; subst.
    assert (Hb' : not_nan (if F64.ltb y best then y else best))
      by (destruct (F64.ltb y best); assumption).
    destruct (IH _ Hb' Hr') as (Hm & Hle & Hall).
    split; [assumption|].
    destruct (F64.ltb y best) eqn:E.
    + split; [|constructor; assumption].
      eapply leb_trans; [| | |exact Hle|]; auto. now apply ltb_leb.
    + split; [assumption|]. constructor; [|assumption].
      eapply leb_trans; [| | |exact Hle|]; auto. now apply not_ltb_leb.
Qed.

Lemma fold_max_ge (rest : list float) (best : float) :
  not_nan best -> Forall not_nan rest ->
  let m := fold_left (fun best y => if F64.ltb best y then y else best) rest best in
  not_nan m /\ F64.leb best m = true /\ Forall (fun y => F64.leb y m = true) rest.
Proof.
  revert best; induction rest as [|y rest IH]; intros best Hb Hr; simpl.
  - split; [assumption|]. split; [now apply leb_refl | constructor].
  - inversion Hr as [|? ? Hy Hr']; subst.
    assert (Hb' : not_nan (if F64.ltb best y then y else best))
      by (destruct (F64.ltb best y); assumption).
    destruct (IH _ Hb' Hr') as (Hm & Hle & Hall).
    split; [assumption|].
    destruct (F64.ltb best y) eqn:E.
    + split; [|constructor; assumption].
      eapply leb_trans; [| | | |exact Hle]; auto. now apply ltb_leb.
    + split; [assumption|]. constructor; [|assumption].
      eapply leb_trans; [| | | |exact Hle]; auto. now apply not_ltb_leb.
Qed.

Lemma py_min_spec (xs : list float) (m : float) :
  py_min xs = Ok m ->
  In m xs /\ (Forall not_nan xs -> not_nan m /\ Forall (fun y => F64.leb m y = true) xs).
Proof.
  destruct xs as [|x rest]; simpl; intros H; [discriminate|].
  injection H as <-. split.
  - destruct (fold_min_In rest x) as [H|H]; [left; now rewrite H | now right].
  - intros Hxs. inversion Hxs; subst.
    destruct (fold_min_le rest x) as (Hm & Hle & Hall); auto.
Qed.

Lemma py_max_spec (xs : list float) (m : float) :
  py_max xs = Ok m ->
  In m xs /\ (Forall not_nan xs -> not_nan m /\ Forall (fun y => F64.leb y m = true) xs).
Proof.
  destruct xs as [|x rest]; simpl; intros H; [discriminate|].
  injection H as <-. split.
  - destruct (fold_max_In rest x) as [H|H]; [left; now rewrite H | now right].
  - intros Hxs. inversion Hxs; subst.
    destruct (fold_max_ge rest x) as (Hm & Hle & Hall); auto.
Qed.

(* ================================================================= *)
(** * Order on strings *)

Lemma ascii_compare_N (a b : ascii) :
  Ascii.compare a b = N.compare (N_of_ascii a) (N_of_ascii b).
Proof. reflexivity. Qed.

Lemma string_compare_refl (s : string) : String.compare s s = Eq.
Proof.
  induction s as [|c s IH]; simpl; [reflexivity|].
  rewrite ascii_compare_N, N.compare_refl. exact IH.
Qed.

Lemma string_compare_Lt_trans (a b c : string) :
  String.compare a b = Lt -> String.compare b c = Lt -> String.compare a c = Lt.
Proof.
  revert b c; induction a as [|x a IH]; intros [|y b] [|z c]; simpl;
    try discriminate; try reflexivity.
  rewrite !ascii_compare_N.
  destruct (N.compare_spec (N_of_ascii x) (N_of_ascii y)) as [Hxy|Hxy|Hxy];
    try discriminate;
  destruct (N.compare_spec (N_of_ascii y) (N_of_ascii z)) as [Hyz|Hyz|Hyz];
    try discriminate; intros H1 H2.
  - rewrite Hxy, Hyz, N.compare_refl. eauto.
  - rewrite Hxy. apply N.compare_lt_iff in Hyz. now rewrite Hyz.
  - rewrite <- Hyz. apply N.compare_lt_iff in Hxy. now rewrite Hxy.
  - assert (H : (N_of_ascii x < N_of_ascii z)%N) by lia.
    apply N.compare_lt_iff in H. now rewrite H.
Qed.

Lemma string_ltb_trans (a b c : string) :
  String.ltb a b = true -> String.ltb b c = true -> String.ltb a c = true.
Proof.
  unfold String.ltb.
  destruct (String.compare a b) eqn:E1; try discriminate.
  destruct (String.compare b c) eqn:E2; try discriminate.
  now rewrite (string_compare_Lt_trans a b c E1 E2).
Qed.

(** [not (b < a)] is [a = b] or [a < b]. *)
Lemma string_not_ltb (a b : string) :
  String.ltb b a = false <-> a = b \/ String.ltb a b = true.
Proof.
  unfold String.ltb. rewrite (String.compare_antisym b a).
  destruct (String.compare a b) eqn:E; simpl; split; intros H; auto; try discriminate.
  - left. now apply String.compare_eq_iff.
  - destruct H as [->|H]; [|discriminate].
    rewrite string_compare_refl in E. discriminate.
Qed.

Lemma date_le_trans (a b c : DailyForecast.t) :
  date_le a b -> date_le b c -> date_le a c.
Proof.
  unfold date_le. rewrite !string_not_ltb.
  intros [Hab|Hab] [Hbc|Hbc].
  - left. congruence.
  - right. now rewrite Hab.
  - right. now rewrite <- Hbc.
  - right. eapply string_ltb_trans; eauto.
Qed.

(* ================================================================= *)
(** * [list.sort] by date *)

Import WeatherAPI.

Lemma insert_by_date_perm (d : DailyForecast.t) (l : list DailyForecast.t) :
  Permutation (insert_by_date d l) (d :: l).
Proof.
  induction l as [|h l IH]; simpl; [reflexivity|].
  destruct (String.ltb (DailyForecast.date h) (DailyForecast.date d)).
  - rewrite IH. apply perm_swap.
  - reflexivity.
Qed.

Lemma sort_by_date_perm (l : list DailyForecast.t) :
  Permutation (sort_by_date l) l.
Proof.
  induction l as [|d l IH]; simpl; [reflexivity|].
  rewrite insert_by_date_perm. now constructor.
Qed.

Lemma insert_by_date_sorted (d : DailyForecast.t) (l : list DailyForecast.t) :
  StronglySorted date_le l -> StronglySorted date_le (insert_by_date d l).
Proof.
  induction l as [|h l IH]; simpl; intros Hs.
  - constructor; constructor.
  - inversion Hs as [|? ? Hs' Hall]; subst.
    destruct (String.ltb (DailyForecast.date h) (DailyForecast.date d)) eqn:E.
    + constructor; [now apply IH|].
      eapply Permutation_Forall; [symmetry; apply insert_by_date_perm|].
      constructor; [|assumption].
      unfold date_le. apply string_not_ltb. now right.
    + constructor; [assumption|].
      constructor; [exact E|].
      eapply Forall_impl; [|exact Hall].
      intros x Hx. eapply date_le_trans; [exact E | exact Hx].
Qed.

Lemma sort_by_date_sorted (l : list DailyForecast.t) :
  StronglySorted date_le (sort_by_date l).
Proof.
  induction l as [|d l IH]; simpl; [constructor|].
  now apply insert_by_date_sorted.
Qed.

(** Distinct keys turn the order of a sorted list into a strict one. *)
Lemma sorted_distinct_strict (l : list DailyForecast.t) :
  StronglySorted date_le l -> NoDup (map DailyForecast.date l) ->
  StronglySorted date_lt l.
Proof.
  induction 1 as [|a l Hs IH Hall]; simpl; intros Hnd; [constructor|].
  inversion Hnd as [|? ? Hnotin Hnd']; subst.
  constructor; [now apply IH|].
  rewrite Forall_forall in *. intros x Hx.
  specialize (Hall x Hx). unfold date_le in Hall. apply string_not_ltb in Hall.
  destruct Hall as [Heq|Hlt]; [|exact Hlt].
  exfalso. apply Hnotin. rewrite Heq. now apply in_map.
Qed.

(* ================================================================= *)
(** * Grouping the samples by date *)

Lemma lookup_dict_append (date d : string) (item : json) (g : list (string * list json)) :
  lookup d (dict_append date item g) =
  if String.eqb date d then Some (readings_of date g ++ [item]) else lookup d g.
Proof.
  unfold readings_of.
  induction g as [|[d0 rs] g IH]; simpl.
  - destruct (String.eqb date d); reflexivity.
  - destruct (String.eqb_spec d0 date) as [->|Hne]; simpl.
    + destruct (String.eqb date d); reflexivity.
    + rewrite IH. destruct (String.eqb_spec date d) as [<-|Hne'].
      * apply String.eqb_neq in Hne. now rewrite Hne.
      * reflexivity.
Qed.

Lemma dict_append_keys (date : string) (item : json) (g : list (string * list json)) :
  map fst (dict_append date item g) = map fst g \/
  (~ In date (map fst g) /\ map fst (dict_append date item g) = map fst g ++ [date]).
Proof.
  induction g as [|[d0 rs] g IH]; simpl.
  - right. split; [tauto | reflexivity].
  - destruct (String.eqb_spec d0 date) as [->|Hne]; simpl; [now left|].
    destruct IH as [IH|[Hnotin IH]]; [left | right]; rewrite IH; [reflexivity|].
    split; [|reflexivity]. intros [H|H]; [congruence | contradiction].
Qed.

Lemma dict_append_NoDup (date : string) (item : json) (g : list (string * list json)) :
  NoDup (map fst g) -> NoDup (map fst (dict_append date item g)).
Proof.
  intros Hnd. destruct (dict_append_keys date item g) as [H|[Hnotin H]]; rewrite H.
  - assumption.
  - apply NoDup_Add with (a := date) (l := map fst g).
    + rewrite <- (app_nil_r (map fst g)) at 1. apply Add_app.
    + split; assumption.
Qed.

Lemma dict_append_nonempty (date : string) (item : json) (g : list (string * list json)) :
  Forall (fun kv => snd kv <> []) g ->
  Forall (fun kv => snd kv <> []) (dict_append date item g).
Proof.
  induction g as [|[d0 rs] g IH]; simpl; intros H.
  - constructor; [discriminate | constructor].
  - inversion H; subst. destruct (String.eqb d0 date).
    + constructor; [|assumption]. simpl. now destruct rs.
    + constructor; [assumption | now apply IH].
Qed.

Lemma group_fold_spec (items : list json) :
  forall acc groups,
    foldM (fun forecast_by_day item =>
             date <- date_of item ;; Ok (dict_append date item forecast_by_day))
          items acc = Ok groups ->
    NoDup (map fst acc) -> Forall (fun kv => snd kv <> []) acc ->
    NoDup (map fst groups) /\ Forall (fun kv => snd kv <> []) groups /\
    forall d, readings_of d groups = readings_of d acc ++ samples_of_day items d.
Proof.
  induction items as [|item items IH]; simpl; intros acc groups H Hnd Hne.
  - injection H as <-. repeat split; auto. intros d. now rewrite app_nil_r.
  - inv_bind H. rename E into Estep. inv_bind Estep. injection Estep as <-.
    rename v0 into date.
    destruct (IH _ _ H (dict_append_NoDup date item acc Hnd)
                (dict_append_nonempty date item acc Hne)) as (H1 & H2 & H3).
    repeat split; auto. intros d. rewrite H3.
    unfold readings_of at 1. rewrite lookup_dict_append.
    unfold on_date. rewrite E.
    destruct (String.eqb date d) eqn:Ed.
    + apply String.eqb_eq in Ed. subst d. now rewrite <- app_assoc.
    + reflexivity.
Qed.

Lemma In_lookup {V : Type} (d : string) (v : V) (g : list (string * V)) :
  NoDup (map fst g) -> In (d, v) g -> lookup d g = Some v.
Proof.
  induction g as [|[d0 v0] g IH]; simpl; intros Hnd Hin; [contradiction|].
  inversion Hnd as [|? ? Hnotin Hnd']; subst.
  destruct Hin as [Heq|Hin].
  - injection Heq as -> ->. now rewrite String.eqb_refl.
  - destruct (String.eqb_spec d0 d) as [->|Hne]; [|now apply IH].
    exfalso. apply Hnotin. change d with (fst (d, v)). now apply in_map.
Qed.

(** Each date of the response gets one group, holding the samples of that
    date in the order of the response. *)
Lemma group_by_day_spec (items : list json) (groups : list (string * list json)) :
  group_by_day items = Ok groups ->
  NoDup (map fst groups) /\
  forall d readings, In (d, readings) groups ->
    readings = samples_of_day items d /\ readings <> [].
Proof.
  intros H. destruct (group_fold_spec items [] groups H) as (Hnd & Hne & Hr);
    [constructor | constructor |].
  split; [assumption|]. intros d readings Hin. split.
  - specialize (Hr d). unfold readings_of in Hr at 1.
    now rewrite (In_lookup d readings groups Hnd Hin) in Hr.
  - rewrite Forall_forall in Hne. exact (Hne _ Hin).
Qed.

Lemma aggregate_day_date (date_str : string) (readings : list json) (d : DailyForecast.t) :
  aggregate_day date_str readings = Ok d -> DailyForecast.date d = date_str.
Proof.
  unfold aggregate_day. intros H. inv_bind H. injection H as <-. reflexivity.
Qed.

(** What a successful [get_five_day_forecast] did. *)
Lemma forecast_returned (data : option json) (fd : ForecastData.t) :
  get_five_day_forecast data = Returned fd ->
  exists d items groups days,
    data = Some d /\ forecast_items d = Ok items /\
    group_by_day items = Ok groups /\
    mapM (fun g => aggregate_day (fst g) (snd g)) groups = Ok days /\
    ForecastData.daily_forecasts fd = sort_by_date days.
Proof.
  unfold get_five_day_forecast. destruct data as [d|]; [|discriminate].
  destruct (truthy d); [|discriminate].
  destruct (parse_forecast d) as [f|e] eqn:E; [|destruct e; discriminate].
  intros H. injection H as ->.
  unfold parse_forecast in E. inv_bind E. injection E as <-.
  exists d, v0, v1, v2. unfold forecast_items. rewrite E0. simpl.
  repeat split; assumption.
Qed.

(** Every day of a returned forecast is the aggregate of the samples of its
    date, and there is at least one such sample. *)
Lemma forecast_day (data : json) (fd : ForecastData.t) (day : DailyForecast.t) :
  get_five_day_forecast (Some data) = Returned fd ->
  In day (ForecastData.daily_forecasts fd) ->
  exists items,
    forecast_items data = Ok items /\
    samples_of_day items (DailyForecast.date day) <> [] /\
    aggregate_day (DailyForecast.date day)
      (samples_of_day items (DailyForecast.date day)) = Ok day.
Proof.
  intros H Hin.
  destruct (forecast_returned _ _ H) as (d & items & groups & days & Hd & Hi & Hg & Hm & Hs).
  injection Hd as <-. exists items. split; [assumption|].
  rewrite Hs in Hin.
  apply (Permutation_in _ (sort_by_date_perm days)) in Hin.
  destruct (mapM_In _ _ _ _ Hm Hin) as ([date readings] & Hgin & Hagg). simpl in Hagg.
  destruct (group_by_day_spec _ _ Hg) as (_ & Hspec).
  destruct (Hspec _ _ Hgin) as (-> & Hne).
  rewrite (aggregate_day_date _ _ _ Hagg). split; assumption.
Qed.

Lemma forecast_dates_distinct (groups : list (string * list json)) (days : list DailyForecast.t) :
  mapM (fun g => aggregate_day (fst g) (snd g)) groups = Ok days ->
  map DailyForecast.date days = map fst groups.
Proof.
  intros H. apply mapM_Ok_Forall2 in H.
  induction H as [|g d groups days Hd _ IH]; simpl; [reflexivity|].
  now rewrite IH, (aggregate_day_date _ _ _ Hd).
Qed.

(* ================================================================= *)
(** * The claims *)

(** C2: in every forecast that [get_five_day_forecast] returns, the dates of
    [daily_forecasts] are pairwise distinct and every day comes before all
    later ones in the order [<] of the date strings; a result with two days
    or more is therefore strictly sorted ascending by date. *)
Theorem forecast_dates_strictly_increasing (data : option json) (fd : ForecastData.t) :
  get_five_day_forecast data = Returned fd ->
  NoDup (map DailyForecast.date (ForecastData.daily_forecasts fd)) /\
  StronglySorted date_lt (ForecastData.daily_forecasts fd).
Proof.
  intros H.
  destruct (forecast_returned _ _ H) as (d & items & groups & days & _ & _ & Hg & Hm & Hs).
  destruct (group_by_day_spec _ _ Hg) as (Hnd & _).
  assert (Hdistinct : NoDup (map DailyForecast.date (ForecastData.daily_forecasts fd))).
  { rewrite Hs.
    eapply Permutation_NoDup.
    - apply Permutation_map. symmetry. apply sort_by_date_perm.
    - now rewrite (forecast_dates_distinct _ _ Hm). }
  split; [assumption|].
  apply sorted_distinct_strict; [|assumption].
  rewrite Hs. apply sort_by_date_sorted.
Qed.

Lemma forecast_dates_strictly_increasing_witness :
  NoDup (map DailyForecast.date (ForecastData.daily_forecasts example_forecast)) /\
  StronglySorted date_lt (ForecastData.daily_forecasts example_forecast).
Proof.
  apply (forecast_dates_strictly_increasing (Some example_response)).
  vm_compute. reflexivity.
Defined.

(* ================================================================= *)
(** * [Counter] and [most_common(1)] on strings *)

Lemma py_eq_str (a b : string) : py_eq (JStr a) (JStr b) = String.eqb a b.
Proof. reflexivity. Qed.

Lemma Counter_strings (ss : list string) :
  Counter (map JStr ss) = Ok (fold_left (fun c x => counter_add x c) (map JStr ss) []).
Proof.
  unfold Counter. generalize (@nil (json * nat)) as acc.
  induction ss as [|s ss IH]; intros acc; simpl; [reflexivity|]. apply IH.
Qed.

Lemma tally_counter_add (k x : string) (c : list (json * nat)) :
  (exists ks, map fst c = map JStr ks) ->
  tally k (counter_add (JStr x) c) = (tally k c + if String.eqb x k then 1 else 0)%nat.
Proof.
  induction c as [|[k' n] c IH]; intros (ks & Hks); simpl.
  - rewrite String.eqb_sym. destruct (String.eqb k x); reflexivity.
  - destruct ks as [|a ks]; [discriminate|]. simpl in Hks.
    injection Hks as -> Hks. simpl.
    destruct (String.eqb_spec a x) as [->|Hax]; simpl.
    + destruct (String.eqb x k); lia.
    + destruct (String.eqb_spec a k) as [->|Hak].
      * apply String.eqb_neq in Hax. rewrite String.eqb_sym, Hax. lia.
      * apply IH. eauto.
Qed.

Lemma counter_add_keys (x : string) (c : list (json * nat)) (seen : list string) :
  map fst c = map JStr seen ->
  map fst (counter_add (JStr x) c) =
  map JStr (if in_dec string_dec x seen then seen else seen ++ [x]).
Proof.
  revert seen; induction c as [|[k' n] c IH]; intros [|a seen] Hks;
    try discriminate; simpl in *.
  - reflexivity.
  - injection Hks as -> Hks. simpl.
    destruct (String.eqb_spec a x) as [->|Hax].
    + destruct (string_dec x x); [|congruence]. simpl. now rewrite Hks.
    + destruct (string_dec a x); [congruence|]. simpl.
      rewrite (IH seen Hks). destruct (in_dec string_dec x seen); reflexivity.
Qed.

Lemma counter_fold_keys (ss seen : list string) (acc : list (json * nat)) :
  map fst acc = map JStr seen ->
  map fst (fold_left (fun c x => counter_add x c) (map JStr ss) acc) =
  map JStr (seen ++ firsts seen ss).
Proof.
  revert seen acc; induction ss as [|s ss IH]; intros seen acc Hacc; simpl.
  - now rewrite app_nil_r.
  - pose proof (counter_add_keys s acc seen Hacc) as Hk.
    destruct (in_dec string_dec s seen).
    + now apply IH.
    + rewrite (IH _ _ Hk). now rewrite <- app_assoc.
Qed.

Lemma counter_fold_tally (k : string) (ss seen : list string) (acc : list (json * nat)) :
  map fst acc = map JStr seen ->
  tally k (fold_left (fun c x => counter_add x c) (map JStr ss) acc) =
  (tally k acc + count k ss)%nat.
Proof.
  unfold count.
  revert seen acc; induction ss as [|s ss IH]; intros seen acc Hacc; simpl; [lia|].
  rewrite (IH _ _ (counter_add_keys s acc seen Hacc)).
  rewrite tally_counter_add by eauto.
  destruct (String.eqb_spec s k); destruct (string_dec s k); try congruence; lia.
Qed.

Lemma firsts_NoDup (ss seen : list string) :
  NoDup seen -> NoDup (seen ++ firsts seen ss).
Proof.
  revert seen; induction ss as [|s ss IH]; intros seen Hnd; simpl.
  - now rewrite app_nil_r.
  - destruct (in_dec string_dec s seen) as [Hin|Hnotin]; [now apply IH|].
    replace (seen ++ s :: firsts (seen ++ [s]) ss)
      with ((seen ++ [s]) ++ firsts (seen ++ [s]) ss) by now rewrite <- app_assoc.
    apply IH. apply NoDup_Add with (a := s) (l := seen).
    + rewrite <- (app_nil_r seen) at 1. apply Add_app.
    + split; assumption.
Qed.

(** A first occurrence listed by [firsts] splits the list at that
    occurrence, and what comes before it was seen or is listed earlier. *)
Lemma firsts_split (ss : list string) :
  forall seen A m B,
    firsts seen ss = A ++ m :: B ->
    exists pre post,
      ss = pre ++ m :: post /\ ~ In m pre /\ ~ In m seen /\
      forall y, In y pre -> In y seen \/ In y A.
Proof.
  induction ss as [|s ss IH]; intros seen A m B H; simpl in H.
  - destruct A; discriminate.
  - destruct (in_dec string_dec s seen) as [Hin|Hnotin].
    + destruct (IH _ _ _ _ H) as (pre & post & -> & Hpre & Hseen & Hy).
      exists (s :: pre), post. repeat split; auto.
      * intros [->|Hm]; auto.
      * intros y [<-|Hyin]; auto.
    + destruct A as [|a A]; simpl in H.
      * injection H as -> _. exists [], ss. repeat split; auto.
      * injection H as -> H.
        destruct (IH _ _ _ _ H) as (pre & post & -> & Hpre & Hseen & Hy).
        exists (a :: pre), post. repeat split.
        -- intros [->|Hm]; [|auto]. apply Hseen. apply in_or_app. right. now left.
        -- intros Hm. apply Hseen. apply in_or_app. now left.
        -- intros y [<-|Hyin]; [right; now left|].
           destruct (Hy y Hyin) as [Hs|Ha]; [|right; now right].
           apply in_app_or in Hs. destruct Hs as [Hs|[<-|[]]]; [now left | right; now left].
Qed.

(** [max] with a key keeps the first entry that no later entry beats. *)
Lemma fold_most_common (rest : list (json * nat)) :
  forall before best mid,
    Forall (fun kv => (snd kv < snd best)%nat) before ->
    Forall (fun kv => (snd kv <= snd best)%nat) mid ->
    exists w c1 c2,
      fold_left (fun best kv' => if (snd best <? snd kv')%nat then kv' else best)
        rest best = w /\
      before ++ best :: mid ++ rest = c1 ++ w :: c2 /\
      Forall (fun kv => (snd kv < snd w)%nat) c1 /\
      Forall (fun kv => (snd kv <= snd w)%nat) c2.
Proof.
  induction rest as [|kv rest IH]; intros before best mid Hb Hm; simpl.
  - exists best, before, mid. rewrite app_nil_r. auto.
  - destruct (Nat.ltb_spec (snd best) (snd kv)) as [Hlt|Hge].
    + destruct (IH (before ++ best :: mid) kv []) as (w & c1 & c2 & Hw & Heq & H1 & H2).
      { apply Forall_app. split.
        - eapply Forall_impl; [|exact Hb]. simpl. intros; lia.
        - constructor; [assumption|].
          eapply Forall_impl; [|exact Hm]. simpl. intros; lia. }
      { constructor. }
      exists w, c1, c2. simpl in Heq. rewrite <- app_assoc in Heq. auto.
    + destruct (IH before best (mid ++ [kv])) as (w & c1 & c2 & Hw & Heq & H1 & H2).
      { assumption. }
      { apply Forall_app. split; [assumption|]. constructor; [assumption | constructor]. }
      exists w, c1, c2. rewrite <- app_assoc in Heq. auto.
Qed.

Lemma most_common_1_spec (c : list (json * nat)) :
  c <> [] ->
  exists w c1 c2,
    most_common_1 c = [w] /\ c = c1 ++ w :: c2 /\
    Forall (fun kv => (snd kv < snd w)%nat) c1 /\
    Forall (fun kv => (snd kv <= snd w)%nat) c2.
Proof.
  destruct c as [|kv rest]; [congruence|]. intros _. simpl.
  destruct (fold_most_common rest [] kv []) as (w & c1 & c2 & Hw & Heq & H1 & H2);
    [constructor | constructor |].
  exists w, c1, c2. rewrite Hw. auto.
Qed.

Lemma tally_le (k : string) (n : nat) (c : list (json * nat)) :
  Forall (fun kv => (snd kv <= n)%nat) c -> (tally k c <= n)%nat.
Proof.
  induction 1 as [|[k' n'] c Hn _ IH]; simpl; [lia|].
  destruct (py_eq k' (JStr k)); [exact Hn | exact IH].
Qed.

Lemma tally_app_notin (k : string) (ks : list string) (c1 c2 : list (json * nat)) :
  map fst c1 = map JStr ks -> ~ In k ks -> tally k (c1 ++ c2) = tally k c2.
Proof.
  revert ks; induction c1 as [|[k' n] c1 IH]; intros [|a ks] Hks Hnotin;
    try discriminate; simpl in *; [reflexivity|].
  injection Hks as -> Hks. simpl.
  destruct (String.eqb_spec a k) as [->|Hne]; [tauto|].
  apply (IH ks); tauto.
Qed.

Lemma tally_In (k : string) (n : nat) (ks : list string) (c : list (json * nat)) :
  map fst c = map JStr ks -> In k ks -> Forall (fun kv => (snd kv < n)%nat) c ->
  (tally k c < n)%nat.
Proof.
  revert ks; induction c as [|[k' n'] c IH]; intros [|a ks] Hks Hin Hall;
    try discriminate; simpl in *; [contradiction|].
  injection Hks as -> Hks. simpl. inversion Hall; subst. simpl in *.
  destruct (String.eqb_spec a k) as [->|Hne]; [assumption|].
  destruct Hin as [->|Hin]; [congruence|]. now apply (IH ks).
Qed.

(** [Counter(ss).most_common(1)[0][0]] on strings is the mode, ties going
    to the value met first. *)
Lemma most_common_key_strings (ss : list string) :
  ss <> [] ->
  exists m, most_common_key (map JStr ss) = Ok (JStr m) /\ is_first_mode m ss.
Proof.
  intros Hne. unfold most_common_key. rewrite Counter_strings. simpl.
  set (c := fold_left (fun c x => counter_add x c) (map JStr ss) []).
  assert (Hkeys : map fst c = map JStr (firsts [] ss))
    by (apply (counter_fold_keys ss [] []); reflexivity).
  assert (Htally : forall k, tally k c = count k ss)
    by (intros k; apply (counter_fold_tally k ss [] []); reflexivity).
  assert (Hc : c <> []).
  { intros Hnil. destruct ss as [|s ss]; [congruence|].
    rewrite Hnil in Hkeys. simpl in Hkeys. discriminate. }
  destruct (most_common_1_spec c Hc) as ([k n] & c1 & c2 & Hmc & Hsplit & H1 & H2).
  rewrite Hmc. simpl.
  (* the winning key is a string, at its place among the first occurrences *)
  rewrite Hsplit, map_app in Hkeys. simpl in Hkeys. symmetry in Hkeys.
  apply map_eq_app in Hkeys. destruct Hkeys as (A & B' & Hf & HA & HB').
  apply map_eq_cons in HB'. destruct HB' as (m & B & -> & <- & HB).
  exists m. split; [reflexivity|].
  destruct (firsts_split ss [] A m B Hf) as (pre & post & Hss & Hpre & _ & Hbefore).
  assert (HmA : ~ In m A).
  { pose proof (firsts_NoDup ss [] (NoDup_nil _)) as Hnd. simpl in Hnd.
    rewrite Hf in Hnd. apply NoDup_remove_2 in Hnd.
    intros Hin. apply Hnd. apply in_or_app. now left. }
  assert (Hn : count m ss = n).
  { rewrite <- Htally, Hsplit.
    rewrite (tally_app_notin m A c1 _ (eq_sym HA) HmA). simpl.
    now rewrite String.eqb_refl. }
  exists pre, post. repeat split; try assumption.
  - intros y. rewrite Hn, <- Htally, Hsplit. apply tally_le.
    apply Forall_app. split.
    + eapply Forall_impl; [|exact H1]. simpl. intros; lia.
    + constructor; [simpl; lia | exact H2].
  - intros y Hy. rewrite Hn, <- Htally, Hsplit.
    destruct (Hbefore y Hy) as [[]|HyA].
    assert (Hlt : (tally y c1 < n)%nat) by (apply (tally_In y n A); auto).
    assert (Hyc1 : tally y (c1 ++ (JStr m, n) :: c2) = tally y c1).
    { clear -HA HyA. revert A HA HyA.
      induction c1 as [|[k' n'] c1 IH]; intros [|a A] HA HyA;
        try discriminate; simpl in *; [contradiction|].
      injection HA as <- HA. simpl.
      destruct (String.eqb_spec a y) as [->|Hne]; [reflexivity|].
      destruct HyA as [->|HyA]; [congruence|]. now apply (IH A). }
    now rewrite Hyc1.
Qed.

(* ================================================================= *)
(** * One day of the forecast *)

Lemma aggregate_day_inv (date_str : string) (readings : list json) (day : DailyForecast.t) :
  aggregate_day date_str readings = Ok day ->
  exists descriptions icons temps d,
    mapM description_of readings = Ok descriptions /\
    mapM icon_of readings = Ok icons /\
    sample_temps readings = Ok temps /\
    most_common_key descriptions = Ok d /\
    capitalize_method d = Ok (DailyForecast.description day) /\
    most_common_key icons = Ok (DailyForecast.icon day) /\
    py_min temps = Ok (DailyForecast.min_temp day) /\
    py_max temps = Ok (DailyForecast.max_temp day) /\
    F64.truediv (py_sum temps) (F64.of_int (Z.of_nat (List.length temps)))
      = Ok (DailyForecast.avg_temp day).
Proof.
  unfold aggregate_day. intros H. inv_bind H. injection H as <-. simpl.
  exists v0, v1, v5, v2. unfold sample_temps. rewrite E. simpl.
  repeat split; assumption.
Qed.

(** C3: the description and the icon of a day are the mode of the
    descriptions, respectively the icons, of the samples of that date, a
    tie going to the value met first in the order of the response, and the
    description is capitalized.  Three samples "cloudy", "rainy", "cloudy"
    give "Cloudy"; the tie "a", "b" gives "A". *)
Theorem description_and_icon_are_first_modes :
  (forall (data : json) (fd : ForecastData.t) (day : DailyForecast.t)
          (items : list json) (descriptions icons : list string),
      get_five_day_forecast (Some data) = Returned fd ->
      In day (ForecastData.daily_forecasts fd) ->
      forecast_items data = Ok items ->
      mapM description_of (samples_of_day items (DailyForecast.date day))
        = Ok (map JStr descriptions) ->
      mapM icon_of (samples_of_day items (DailyForecast.date day))
        = Ok (map JStr icons) ->
      (exists m, is_first_mode m descriptions /\
                 DailyForecast.description day = capitalize m) /\
      (exists m, is_first_mode m icons /\ DailyForecast.icon day = JStr m)) /\
  (exists fd, get_five_day_forecast (Some cloudy_rainy_cloudy) = Returned fd /\
      map DailyForecast.description (ForecastData.daily_forecasts fd) = ["Cloudy"]) /\
  (exists fd, get_five_day_forecast (Some tie_a_b) = Returned fd /\
      map DailyForecast.description (ForecastData.daily_forecasts fd) = ["A"]).
Proof.
  split; [|split; eexists; (split; [vm_compute; reflexivity | reflexivity])].
  intros data fd day items descriptions icons Hret Hin Hitems Hd Hi.
  destruct (forecast_day data fd day Hret Hin) as (items' & Hitems' & Hne & Hagg).
  rewrite Hitems in Hitems'. injection Hitems' as <-.
  destruct (aggregate_day_inv _ _ _ Hagg)
    as (ds & ics & temps & d & Hds & Hics & _ & Hmd & Hcap & Hmi & _).
  rewrite Hd in Hds. injection Hds as <-.
  rewrite Hi in Hics. injection Hics as <-.
  assert (Hlen : forall ss, mapM description_of
             (samples_of_day items (DailyForecast.date day)) = Ok (map JStr ss) \/
           mapM icon_of (samples_of_day items (DailyForecast.date day)) = Ok (map JStr ss) ->
           ss <> []).
  { intros ss [H|H]; apply mapM_length in H; rewrite length_map in H;
      intros ->; simpl in H; symmetry in H; apply length_zero_iff_nil in H; contradiction. }
  split.
  - destruct (most_common_key_strings descriptions (Hlen _ (or_introl Hd))) as (m & Hm & Hmode).
    rewrite Hm in Hmd. injection Hmd as <-. simpl in Hcap. injection Hcap as <-.
    eauto.
  - destruct (most_common_key_strings icons (Hlen _ (or_intror Hi))) as (m & Hm & Hmode).
    rewrite Hm in Hmi. injection Hmi as <-. eauto.
Qed.

(* ================================================================= *)
(** * Exact binary64 operations *)

Lemma fexp_64 (k : Z) : fexp F64.prec F64.emax k = Z.max (k - 53) (-1074).
Proof. reflexivity. Qed.


Lemma of_int_1 : F64.of_int 1 = S754_finite false 4503599627370496 (-52).
Proof. reflexivity. Qed.


Lemma valid_finite (s : bool) (m : positive) (e : Z) :
  F64.valid (S754_finite s m e) = true ->
  Z.max (Zpos (digits2_pos m) + e - 53) (-1074) = e /\ e <= 971.
Proof.
  unfold F64.valid, valid_binary, bounded, canonical_mantissa.
  rewrite fexp_64. intros H. apply andb_true_iff in H. destruct H as (H1 & H2).
  apply Z.eqb_eq in H1. apply Z.leb_le in H2.
  change (F64.emax - F64.prec) with 971 in H2. auto.
Qed.



Lemma Ok_inj {A : Type} (a b : A) : Ok a = Ok b -> a = b.
Proof. congruence. Qed.



(** C1, as the specification states it, fails: three samples of 0.1 on one
    date give [min_temp = max_temp = 0.1], and the sum [0.1 + 0.1 + 0.1]
    rounds to 0.30000000000000004, whose third is 0.10000000000000002:
    [avg_temp] is above [max_temp]. *)
Lemma avg_above_max_counterexample :
  exists fd day,
    get_five_day_forecast (Some three_tenths) = Returned fd /\
    ForecastData.daily_forecasts fd = [day] /\
    DailyForecast.min_temp day = S754_finite false 7205759403792794 (-56) /\
    DailyForecast.max_temp day = S754_finite false 7205759403792794 (-56) /\
    DailyForecast.avg_temp day = S754_finite false 7205759403792795 (-56) /\
    F64.leb (DailyForecast.avg_temp day) (DailyForecast.max_temp day) = false.
Proof.
  do 2 eexists. split; [vm_compute; reflexivity|].
  repeat split; reflexivity.
Qed.

(** The compensated [sum] of CPython 3.12 gives the same total on these
    three samples: the exact sum is halfway between two binary64 values and
    the correction rounds back to the same one. *)
Lemma compensated_sum_three_tenths :
  let tenth := F64.of_decimal 1 (-1) in
  py_sum_compensated [tenth; tenth; tenth] = py_sum [tenth; tenth; tenth] /\
  py_sum [tenth; tenth; tenth] = S754_finite false 5404319552844596 (-54).
Proof. split; vm_compute; reflexivity. Qed.

(** C1, amended: in every forecast that [get_five_day_forecast] returns,
    [min_temp] and [max_temp] of a day are two of the sample temperatures
    of that date, every sample temperature lies between them, so
    [min_temp <= max_temp], and [avg_temp] is the binary64 quotient
    [sum(temps) / len(temps)] (temperatures that are not NaN). *)
Theorem min_max_bound_the_samples
    (data : json) (fd : ForecastData.t) (day : DailyForecast.t)
    (items : list json) (temps : list float) :
  get_five_day_forecast (Some data) = Returned fd ->
  In day (ForecastData.daily_forecasts fd) ->
  forecast_items data = Ok items ->
  sample_temps (samples_of_day items (DailyForecast.date day)) = Ok temps ->
  Forall not_nan temps ->
  In (DailyForecast.min_temp day) temps /\
  In (DailyForecast.max_temp day) temps /\
  Forall (fun t => F64.leb (DailyForecast.min_temp day) t = true /\
                   F64.leb t (DailyForecast.max_temp day) = true) temps /\
  F64.leb (DailyForecast.min_temp day) (DailyForecast.max_temp day) = true /\
  F64.truediv (py_sum temps) (F64.of_int (Z.of_nat (List.length temps)))
    = Ok (DailyForecast.avg_temp day).
Proof.
  intros Hret Hin Hitems Htemps Hnan.
  destruct (forecast_day data fd day Hret Hin) as (items' & Hitems' & Hne & Hagg).
  rewrite Hitems in Hitems'. injection Hitems' as <-.
  destruct (aggregate_day_inv _ _ _ Hagg)
    as (ds & ics & temps' & d & _ & _ & Ht & _ & _ & _ & Hmin & Hmax & Havg).
  rewrite Htemps in Ht. injection Ht as <-.
  destruct (py_min_spec _ _ Hmin) as (Hmin_in & Hmin_le).
  destruct (py_max_spec _ _ Hmax) as (Hmax_in & Hmax_ge).
  destruct (Hmin_le Hnan) as (Hmin_nan & Hle).
  destruct (Hmax_ge Hnan) as (Hmax_nan & Hge).
  repeat split; try assumption.
  - rewrite Forall_forall in *. intros t Ht. split; auto.
  - rewrite Forall_forall in Hge. now apply Hge.
Qed.


(* ================================================================= *)
(** * The console monad *)

Import WeatherDisplay.

Lemma cbind_Ok {A B : Type} (c : console A) (k : A -> console B)
    (out out' : list printed) (b : B) :
  cbind c k out = (Ok b, out') ->
  exists a out1, c out = (Ok a, out1) /\ k a out1 = (Ok b, out').
Proof.
  unfold cbind. destruct (c out) as [[a|e] out1]; intros H; [eauto | discriminate].
Qed.

Lemma lift_Ok {A : Type} (r : result A) (out out' : list printed) (a : A) :
  lift r out = (Ok a, out') -> r = Ok a /\ out' = out.
Proof. unfold lift. intros H. injection H as -> ->. auto. Qed.

Lemma print_Ok (p : printed) (out out' : list printed) (u : unit) :
  print p out = (Ok u, out') -> out' = out ++ [p].
Proof. unfold print. intros H. now injection H as _ <-. Qed.

Lemma cret_Ok {A : Type} (a b : A) (out out' : list printed) :
  cret a out = (Ok b, out') -> a = b /\ out' = out.
Proof. unfold cret. intros H. injection H as -> ->. auto. Qed.

(** Split a completed console computation into its steps. *)
Ltac inv_console H :=
  repeat match type of H with
  | cbind (lift ?r) ?k ?out = (Ok ?b, ?out') =>
      let a := fresh "v" in let o := fresh "out" in
      let H1 := fresh "E" in let H2 := fresh "E" in
      apply cbind_Ok in H; destruct H as (a & o & H1 & H);
      apply lift_Ok in H1; destruct H1 as (H1 & H2); subst o; cbv beta in H
  | cbind (print ?p) ?k ?out = (Ok ?b, ?out') =>
      let a := fresh "u" in let o := fresh "out" in
      let H1 := fresh "E" in
      apply cbind_Ok in H; destruct H as (a & o & H1 & H);
      apply print_Ok in H1; subst o; cbv beta in H
  | cbind ?c ?k ?out = (Ok ?b, ?out') =>
      let a := fresh "v" in let o := fresh "out" in
      let H1 := fresh "E" in
      apply cbind_Ok in H; destruct H as (a & o & H1 & H); cbv beta in H
  end.

Lemma chart_lines_of_app (a b : list printed) :
  chart_lines_of (a ++ b) = chart_lines_of a ++ chart_lines_of b.
Proof.
  induction a as [|p a IH]; simpl; [reflexivity|].
  destruct p; simpl; rewrite IH; reflexivity.
Qed.

(* ================================================================= *)
(** * Python list indexing *)

Lemma list_getitem_nth {A : Type} (xs : list A) (i : Z) (x : A) :
  0 <= i -> list_getitem xs i = Ok x -> nth_error xs (Z.to_nat i) = Some x.
Proof.
  intros Hi. unfold list_getitem.
  destruct (Z.ltb_spec i 0); [lia|].
  destruct ((0 <=? i) && (i <? Z.of_nat (List.length xs))); [|discriminate].
  destruct (nth_error xs (Z.to_nat i)); congruence.
Qed.

Lemma list_getitem_Ok {A : Type} (xs : list A) (i : Z) :
  0 <= i < Z.of_nat (List.length xs) -> exists x, list_getitem xs i = Ok x.
Proof.
  intros Hi. unfold list_getitem.
  destruct (Z.ltb_spec i 0); [lia|].
  destruct (Z.leb_spec 0 i); [|lia].
  destruct (Z.ltb_spec i (Z.of_nat (List.length xs))); [|lia]. simpl.
  destruct (nth_error xs (Z.to_nat i)) eqn:E; [eauto|].
  apply nth_error_None in E. lia.
Qed.

Lemma list_setitem_Ok {A : Type} (xs : list A) (i : Z) (v : A) :
  0 <= i < Z.of_nat (List.length xs) -> exists xs', list_setitem xs i v = Ok xs'.
Proof.
  intros Hi. unfold list_setitem.
  destruct (Z.ltb_spec i 0); [lia|].
  destruct (Z.leb_spec 0 i); [|lia].
  destruct (Z.ltb_spec i (Z.of_nat (List.length xs))); [|lia]. simpl. eauto.
Qed.

Lemma list_setitem_spec {A : Type} (xs xs' : list A) (i : Z) (v : A) :
  0 <= i -> list_setitem xs i v = Ok xs' ->
  List.length xs' = List.length xs /\
  nth_error xs' (Z.to_nat i) = Some v /\
  forall j, j <> Z.to_nat i -> nth_error xs' j = nth_error xs j.
Proof.
  intros Hi. unfold list_setitem.
  destruct (Z.ltb_spec i 0); [lia|].
  destruct (Z.leb_spec 0 i); [|lia].
  destruct (Z.ltb_spec i (Z.of_nat (List.length xs))) as [Hlt|]; [|discriminate].
  cbn [andb]. intros Heq. injection Heq as <-.
  set (n := Z.to_nat i). assert (Hn : (n < List.length xs)%nat) by lia.
  assert (Hf : List.length (firstn n xs) = n) by (rewrite length_firstn; lia).
  repeat split.
  - rewrite length_app. simpl. rewrite length_skipn, Hf. lia.
  - rewrite nth_error_app2 by lia. rewrite Hf, Nat.sub_diag. reflexivity.
  - intros j Hj. destruct (Nat.lt_ge_cases j n) as [Hlt'|Hge].
    + rewrite nth_error_app1 by lia. rewrite nth_error_firstn.
      destruct (Nat.ltb_spec j n); [reflexivity | lia].
    + rewrite nth_error_app2 by lia. rewrite Hf.
      destruct (j - n)%nat as [|k] eqn:Ek; [lia|]. simpl.
      rewrite nth_error_skipn. f_equal. lia.
Qed.

(* ================================================================= *)
(** * Placing the markers *)

Lemma scaled_temp_range (avg_temp min_temp_all temp_range : float) (row : Z) :
  scaled_temp_of avg_temp min_temp_all temp_range = Ok row ->
  0 <= row <= chart_height - 1.
Proof.
  unfold scaled_temp_of, chart_height. intros H. inv_bind H.
  apply Ok_inj in H. lia.
Qed.

Lemma column_pos_range (i n col : Z) :
  column_pos_of i n = Ok col -> 0 <= col <= chart_width - 1.
Proof.
  unfold column_pos_of, chart_width. intros H. inv_bind H.
  apply Ok_inj in H. lia.
Qed.

Lemma cell_eq (chart : list (list string)) (r c : Z) (line : list string) :
  0 <= r -> 0 <= c -> nth_error chart (Z.to_nat r) = Some line ->
  cell chart r c = nth_error line (Z.to_nat c).
Proof.
  intros Hr Hc Hl. unfold cell.
  destruct (Z.leb_spec 0 r); [|lia]. destruct (Z.leb_spec 0 c); [|lia].
  simpl. now rewrite Hl.
Qed.

(** One pass of the second loop writes one marker and nothing else. *)
Lemma plot_day_Ok (min_temp_all temp_range : float) (n i : Z) (day : DailyForecast.t)
    (chart chart' : list (list string)) (out out' : list printed) :
  plot_day min_temp_all temp_range n chart (i, day) out = (Ok chart', out') ->
  chart_ok chart ->
  exists row col,
    scaled_temp_of (DailyForecast.avg_temp day) min_temp_all temp_range = Ok row /\
    column_pos_of i n = Ok col /\
    chart_ok chart' /\
    chart_lines_of out' = chart_lines_of out /\
    cell chart' (chart_height - 1 - row) col = Some marker /\
    forall r c, cell chart' r c = cell chart r c \/ (r = chart_height - 1 - row /\ c = col).
Proof.
  unfold plot_day. intros H (Hlen & Hwidth). inv_console H.
  apply cret_Ok in H. destruct H as (<- & ->).
  rename v into row, v0 into col, v1 into line, v2 into line'.
  pose proof (scaled_temp_range _ _ _ _ E) as Hrow.
  pose proof (column_pos_range _ _ _ E0) as Hcol.
  unfold chart_height, chart_width in *.
  assert (Hr : 0 <= 8 - 1 - row) by lia.
  assert (Hc : 0 <= col) by lia.
  pose proof (list_getitem_nth _ _ _ Hr E1) as Hline.
  destruct (list_setitem_spec _ _ _ _ Hc E2) as (Hl1 & Hl2 & Hl3).
  destruct (list_setitem_spec _ _ _ _ Hr E3) as (Hc1 & Hc2 & Hc3).
  exists row, col. repeat split; try assumption.
  - unfold chart_height. congruence.
  - unfold chart_width. rewrite Forall_forall in *. intros l Hl.
    apply In_nth_error in Hl. destruct Hl as (j & Hj).
    destruct (Nat.eq_dec j (Z.to_nat (8 - 1 - row))) as [->|Hne].
    + rewrite Hc2 in Hj. injection Hj as <-. rewrite Hl1.
      apply Hwidth. eapply nth_error_In; eauto.
    + rewrite Hc3 in Hj by assumption. apply Hwidth. eapply nth_error_In; eauto.
  - rewrite chart_lines_of_app. simpl. now rewrite app_nil_r.
  - rewrite (cell_eq _ _ _ _ Hr Hc Hc2). exact Hl2.
  - intros r c. unfold cell.
    destruct (Z.leb_spec 0 r); [|now left]. destruct (Z.leb_spec 0 c); [|now left].
    simpl. destruct (Z.eq_dec r (8 - 1 - row)) as [->|Hne].
    + rewrite Hc2, Hline. destruct (Z.eq_dec c col) as [->|Hnc]; [now right|].
      left. apply Hl3. lia.
    + left. rewrite Hc3 by lia. reflexivity.
Qed.

(** The second loop: every day gets its marker, and markers appear only
    where a day put one. *)
Lemma plot_loop_Ok (min_temp_all temp_range : float) (n : Z) (days : list DailyForecast.t) :
  forall (i0 : Z) (chart chart' : list (list string)) (out out' : list printed),
    cfold (plot_day min_temp_all temp_range n) (enumerate_from i0 days) chart out
      = (Ok chart', out') ->
    chart_ok chart ->
    chart_ok chart' /\
    chart_lines_of out' = chart_lines_of out /\
    (forall r c, cell chart r c = Some marker -> cell chart' r c = Some marker) /\
    (forall k day, nth_error days k = Some day ->
       exists row col,
         scaled_temp_of (DailyForecast.avg_temp day) min_temp_all temp_range = Ok row /\
         column_pos_of (i0 + Z.of_nat k) n = Ok col /\
         cell chart' (chart_height - 1 - row) col = Some marker) /\
    (forall r c, cell chart' r c = Some marker ->
       cell chart r c = Some marker \/
       exists k day row col,
         nth_error days k = Some day /\
         scaled_temp_of (DailyForecast.avg_temp day) min_temp_all temp_range = Ok row /\
         column_pos_of (i0 + Z.of_nat k) n = Ok col /\
         r = chart_height - 1 - row /\ c = col).
Proof.
  induction days as [|day days IH]; intros i0 chart chart' out out' H Hok; simpl in H.
  - apply cret_Ok in H. destruct H as (<- & ->).
    split; [assumption|]. split; [reflexivity|]. split; [auto|]. split.
    + intros k day Hk. destruct k; discriminate.
    + intros r c Hm. now left.
  - inv_console H. rename v into chart1, out0 into out1.
    destruct (plot_day_Ok _ _ _ _ _ _ _ _ _ E Hok)
      as (row & col & Hrow & Hcol & Hok1 & Hout1 & Hmark & Hother).
    destruct (IH _ _ _ _ _ H Hok1) as (Hok' & Hout' & Hkeep & Hdays & Honly).
    split; [assumption|]. split; [congruence|]. split; [|split].
    + intros r c Hm. apply Hkeep.
      destruct (Hother r c) as [Heq|[-> ->]]; [congruence | assumption].
    + intros [|k] d Hk; simpl in Hk.
      * injection Hk as <-. exists row, col. rewrite Z.add_0_r. auto.
      * destruct (Hdays k d Hk) as (row' & col' & Hr' & Hc' & Hm').
        exists row', col'. repeat split; try assumption.
        replace (i0 + Z.of_nat (S k)) with (i0 + 1 + Z.of_nat k) by lia. assumption.
    + intros r c Hm. destruct (Honly r c Hm) as [Hm1|(k & d & row' & col' & Hk & Hr' & Hc' & -> & ->)].
      * destruct (Hother r c) as [Heq|[-> ->]].
        -- left. congruence.
        -- right. exists 0%nat, day, row, col. rewrite Z.add_0_r. auto.
      * right. exists (S k), d, row', col'. repeat split; try assumption.
        replace (i0 + Z.of_nat (S k)) with (i0 + 1 + Z.of_nat k) by lia. assumption.
Qed.

Lemma print_lines_Ok (chart : list (list string)) (out : list printed) :
  cfold (fun _ line => print (ChartLine line)) chart tt out
    = (Ok tt, out ++ map ChartLine chart).
Proof.
  revert out; induction chart as [|line chart IH]; intros out; simpl.
  - now rewrite app_nil_r.
  - unfold cbind. simpl. rewrite IH. now rewrite <- app_assoc.
Qed.

Lemma chart_lines_of_lines (chart : list (list string)) :
  chart_lines_of (map ChartLine chart) = chart.
Proof. induction chart as [|l chart IH]; simpl; congruence. Qed.

Lemma blank_chart_ok :
  chart_ok (repeat (repeat blank (Z.to_nat chart_width)) (Z.to_nat chart_height)).
Proof.
  split; [apply repeat_length|].
  apply Forall_forall. intros l Hl. apply repeat_spec in Hl. subst l. apply repeat_length.
Qed.

Lemma blank_chart_unmarked (r c : Z) :
  cell (repeat (repeat blank (Z.to_nat chart_width)) (Z.to_nat chart_height)) r c
    <> Some marker.
Proof.
  unfold cell. destruct ((0 <=? r) && (0 <=? c)); [|discriminate].
  destruct (nth_error _ (Z.to_nat r)) as [l|] eqn:El; [|discriminate].
  apply nth_error_In, repeat_spec in El. subst l.
  intros Hc. apply nth_error_In, repeat_spec in Hc. discriminate.
Qed.

(** What a completed [display_forecast] printed as its chart. *)
Lemma display_forecast_marks (data : ForecastData.t) (out : list printed) :
  display_forecast data [] = (Ok tt, out) ->
  exists min_temp_all max_temp_all,
    py_min (map DailyForecast.min_temp (ForecastData.daily_forecasts data)) = Ok min_temp_all /\
    py_max (map DailyForecast.max_temp (ForecastData.daily_forecasts data)) = Ok max_temp_all /\
    chart_ok (chart_lines_of out) /\
    (forall k day, nth_error (ForecastData.daily_forecasts data) k = Some day ->
       exists row col,
         scaled_temp_of (DailyForecast.avg_temp day) min_temp_all
           (temp_range_of min_temp_all max_temp_all) = Ok row /\
         column_pos_of (Z.of_nat k) (Z.of_nat (List.length (ForecastData.daily_forecasts data))) = Ok col /\
         cell (chart_lines_of out) (chart_height - 1 - row) col = Some marker) /\
    (forall r c, cell (chart_lines_of out) r c = Some marker ->
       exists k day row col,
         nth_error (ForecastData.daily_forecasts data) k = Some day /\
         scaled_temp_of (DailyForecast.avg_temp day) min_temp_all
           (temp_range_of min_temp_all max_temp_all) = Ok row /\
         column_pos_of (Z.of_nat k) (Z.of_nat (List.length (ForecastData.daily_forecasts data))) = Ok col /\
         r = chart_height - 1 - row /\ c = col).
Proof.
  unfold display_forecast. intros H. inv_console H.
  rename v into min_temp_all, v0 into max_temp_all, v2 into chart.
  rewrite print_lines_Ok in E3. injection E3 as _ <-.
  apply print_Ok in H. subst out.
  destruct (plot_loop_Ok _ _ _ _ _ _ _ _ _ E2 blank_chart_ok)
    as (Hok & Hout & _ & Hdays & Honly).
  assert (Hchart :
    chart_lines_of ((((out0 ++ map ChartLine chart) ++ [DateLabels v4]) ++ [DaysCaption])
                      ++ [Newline]) = chart).
  { rewrite !chart_lines_of_app, Hout, chart_lines_of_lines. simpl.
    now rewrite !app_nil_r. }
  rewrite Hchart.
  exists min_temp_all, max_temp_all.
  split; [assumption|]. split; [assumption|]. split; [assumption|].
  split; [assumption|].
  intros r c Hm. destruct (Honly r c Hm) as [Hb|Hk]; [|exact Hk].
  now apply blank_chart_unmarked in Hb.
Qed.

(** C4, as the specification states it, fails: with the days of
    [five_days] ([min_temp_all = 10], [max_temp_all = 30]) the day of
    average 20 scales to [3.5]; [round] gives row 4, the source takes
    [int], which gives row 3, and the marker is printed on line
    [8 - 1 - 3 = 4] from the top, line 3 staying blank there. *)
Lemma rounded_row_counterexample :
  exists out,
    display_forecast five_days [] = (Ok tt, out) /\
    py_min (map DailyForecast.min_temp (ForecastData.daily_forecasts five_days))
      = Ok (F64.of_int 10) /\
    py_max (map DailyForecast.max_temp (ForecastData.daily_forecasts five_days))
      = Ok (F64.of_int 30) /\
    rounded_scaled_temp (F64.of_int 20) (F64.of_int 10)
      (temp_range_of (F64.of_int 10) (F64.of_int 30)) = Ok 4 /\
    scaled_temp_of (F64.of_int 20) (F64.of_int 10)
      (temp_range_of (F64.of_int 10) (F64.of_int 30)) = Ok 3 /\
    cell (chart_lines_of out) (chart_height - 1 - 3) 24 = Some marker /\
    cell (chart_lines_of out) (chart_height - 1 - 4) 24 = Some blank.
Proof.
  eexists. split; [vm_compute; reflexivity|].
  repeat split; vm_compute; reflexivity.
Qed.

(** C4, amended: when [display_forecast] completes, the marker of each day
    is on the chart line [chart_height - 1 - row], where [row] is
    [int((avg_temp - min_temp_all) / temp_range * (chart_height - 1))], the
    product truncated toward zero and not rounded, clamped into
    [0, chart_height - 1]; with [min_temp_all = 10], [max_temp_all = 30]
    and [chart_height = 8] an average of 20 gives row 3. *)
Theorem chart_row_is_truncated :
  (forall (data : ForecastData.t) (out : list printed) (k : nat) (day : DailyForecast.t),
      display_forecast data [] = (Ok tt, out) ->
      nth_error (ForecastData.daily_forecasts data) k = Some day ->
      exists min_temp_all max_temp_all q scaled_temp col,
        py_min (map DailyForecast.min_temp (ForecastData.daily_forecasts data))
          = Ok min_temp_all /\
        py_max (map DailyForecast.max_temp (ForecastData.daily_forecasts data))
          = Ok max_temp_all /\
        F64.truediv (F64.sub (DailyForecast.avg_temp day) min_temp_all)
          (temp_range_of min_temp_all max_temp_all) = Ok q /\
        F64.to_int (F64.mul q (F64.of_int (chart_height - 1))) = Ok scaled_temp /\
        0 <= Z.max 0 (Z.min scaled_temp (chart_height - 1)) <= chart_height - 1 /\
        column_pos_of (Z.of_nat k)
          (Z.of_nat (List.length (ForecastData.daily_forecasts data))) = Ok col /\
        cell (chart_lines_of out)
          (chart_height - 1 - Z.max 0 (Z.min scaled_temp (chart_height - 1))) col
          = Some marker) /\
  scaled_temp_of (F64.of_int 20) (F64.of_int 10)
    (temp_range_of (F64.of_int 10) (F64.of_int 30)) = Ok 3.
Proof.
  split; [|vm_compute; reflexivity].
  intros data out k day Hrun Hk.
  destruct (display_forecast_marks data out Hrun)
    as (min_temp_all & max_temp_all & Hmin & Hmax & _ & Hdays & _).
  destruct (Hdays k day Hk) as (row & col & Hrow & Hcol & Hcell).
  pose proof (scaled_temp_range _ _ _ _ Hrow) as Hrange.
  unfold scaled_temp_of in Hrow. inv_bind Hrow. apply Ok_inj in Hrow. subst row.
  exists min_temp_all, max_temp_all, v, v0, col. repeat split; try assumption; lia.
Qed.

(** C5, as the specification states it, fails: for day 3 of 5 the product
    [3 / 4 * 49] is [36.75]; [round] gives column 37, the source takes
    [int], which gives column 36, where the marker of that day is printed. *)
Lemma rounded_column_counterexample :
  exists out,
    display_forecast five_days [] = (Ok tt, out) /\
    rounded_column_pos 3 5 = Ok 37 /\
    column_pos_of 3 5 = Ok 36 /\
    cell (chart_lines_of out) (chart_height - 1 - 5) 36 = Some marker /\
    cell (chart_lines_of out) (chart_height - 1 - 5) 37 = Some blank.
Proof.
  eexists. split; [vm_compute; reflexivity|].
  repeat split; vm_compute; reflexivity.
Qed.

(** C5, amended: when [display_forecast] completes, the marker of day [i]
    of [n] days is in column [int(i / (n - 1) * (chart_width - 1))] for
    [n > 1], the product truncated toward zero and not rounded, clamped into
    [0, chart_width - 1], and in column 0 for [n = 1]. *)
Theorem chart_column_is_truncated
    (data : ForecastData.t) (out : list printed) (i : nat) (day : DailyForecast.t) :
  display_forecast data [] = (Ok tt, out) ->
  nth_error (ForecastData.daily_forecasts data) i = Some day ->
  let n := Z.of_nat (List.length (ForecastData.daily_forecasts data)) in
  exists min_temp_all max_temp_all row col,
    py_min (map DailyForecast.min_temp (ForecastData.daily_forecasts data))
      = Ok min_temp_all /\
    py_max (map DailyForecast.max_temp (ForecastData.daily_forecasts data))
      = Ok max_temp_all /\
    scaled_temp_of (DailyForecast.avg_temp day) min_temp_all
      (temp_range_of min_temp_all max_temp_all) = Ok row /\
    cell (chart_lines_of out) (chart_height - 1 - row) col = Some marker /\
    0 <= col <= chart_width - 1 /\
    (n = 1 -> col = 0) /\
    (1 < n ->
     exists q column_pos,
       F64.truediv (F64.of_int (Z.of_nat i)) (F64.of_int (n - 1)) = Ok q /\
       F64.to_int (F64.mul q (F64.of_int (chart_width - 1))) = Ok column_pos /\
       col = Z.max 0 (Z.min column_pos (chart_width - 1))).
Proof.
  intros Hrun Hi n.
  destruct (display_forecast_marks data out Hrun)
    as (min_temp_all & max_temp_all & Hmin & Hmax & _ & Hdays & _).
  destruct (Hdays i day Hi) as (row & col & Hrow & Hcol & Hcell). fold n in Hcol.
  exists min_temp_all, max_temp_all, row, col.
  split; [assumption|]. split; [assumption|]. split; [assumption|].
  split; [assumption|]. split; [eapply column_pos_range; eauto|].
  unfold column_pos_of in Hcol. split.
  - intros Hn. rewrite Hn in Hcol. simpl in Hcol. apply Ok_inj in Hcol.
    subst col. reflexivity.
  - intros Hn. destruct (Z.ltb_spec 1 n); [|lia].
    inv_bind Hcol. apply Ok_inj in Hcol. inv_bind E. eauto.
Qed.

(** C9: the lookup of an icon code never fails; a code that is not a key
    of [WEATHER_ICONS], such as "99x", gets the glyph stored under
    "unknown". *)
Theorem unknown_icon_gets_fallback :
  (forall code, exists emoji, _get_weather_emoji (JStr code) = Ok emoji) /\
  (forall code, lookup code WEATHER_ICONS = None ->
     _get_weather_emoji (JStr code) = dict_getitem WEATHER_ICONS "unknown") /\
  dict_getitem WEATHER_ICONS "unknown" = Ok "❓" /\
  _get_weather_emoji (JStr "99x") = Ok "❓".
Proof.
  repeat split.
  - intros code. unfold _get_weather_emoji.
    change (dict_getitem WEATHER_ICONS "unknown") with (@Ok string "❓").
    cbv beta iota delta [bind].
    destruct (lookup code WEATHER_ICONS); eauto.
  - intros code Hnone. unfold _get_weather_emoji.
    change (dict_getitem WEATHER_ICONS "unknown") with (@Ok string "❓").
    cbv beta iota delta [bind].
    now rewrite Hnone.
Qed.

(** C10: on a forecast without days [display_forecast] prints the overview
    panel and then raises [ValueError], from [min] over an empty sequence;
    and [get_five_day_forecast] does return such a forecast, for a response
    whose [list] is empty. *)
Theorem display_forecast_empty_raises :
  (forall (city country : json) (out : list printed),
     display_forecast (ForecastData.make city country []) out
       = (Raise ValueError, out ++ [OverviewPanel city country])) /\
  get_five_day_forecast (Some (forecast_response []))
    = Returned (ForecastData.make (JStr "Paris") (JStr "FR") []).
Proof.
  split; [intros city country out|]; reflexivity.
Qed.

(* ================================================================= *)
(** * Reading a response with a field removed *)

Lemma lookup_without_same (k : string) (fields : list (string * json)) :
  lookup k (filter (fun kv => negb (String.eqb (fst kv) k)) fields) = None.
Proof.
  induction fields as [|[k' x] fields IH]; simpl; [reflexivity|].
  destruct (String.eqb k' k) eqn:E; simpl; [exact IH|]. now rewrite E.
Qed.

Lemma lookup_without_other (k k' : string) (fields : list (string * json)) :
  k' <> k ->
  lookup k' (filter (fun kv => negb (String.eqb (fst kv) k)) fields) = lookup k' fields.
Proof.
  intros Hne. induction fields as [|[k0 x] fields IH]; simpl; [reflexivity|].
  destruct (String.eqb_spec k0 k) as [->|Hk]; simpl.
  - apply String.eqb_neq in Hne. rewrite String.eqb_sym, Hne. exact IH.
  - now rewrite IH.
Qed.

Lemma lookup_update_same (k : string) (f : json -> json) (fields : list (string * json)) :
  lookup k (update_field k f fields) = option_map f (lookup k fields).
Proof.
  induction fields as [|[k' x] fields IH]; simpl; [reflexivity|].
  destruct (String.eqb k' k) eqn:E; simpl; rewrite E; [reflexivity | exact IH].
Qed.

Lemma lookup_update_other (k k' : string) (f : json -> json) (fields : list (string * json)) :
  k' <> k -> lookup k' (update_field k f fields) = lookup k' fields.
Proof.
  intros Hne. induction fields as [|[k0 x] fields IH]; simpl; [reflexivity|].
  destruct (String.eqb_spec k0 k) as [->|Hk]; simpl.
  - apply String.eqb_neq in Hne. now rewrite String.eqb_sym, Hne.
  - now rewrite IH.
Qed.

Lemma subscript_obj (fields : list (string * json)) (k : string) :
  (Ok (JObj fields)).[k] =
  match lookup k fields with
  | Some x => Ok x
  | None => Raise (KeyError (KStr k))
  end.
Proof. reflexivity. Qed.

Lemma subscript_str_Ok (c : result json) (k : string) (x : json) :
  c.[k] = Ok x -> exists fields, c = Ok (JObj fields) /\ lookup k fields = Some x.
Proof.
  destruct c as [v|e]; [|discriminate]. unfold subscript. cbn [bind].
  destruct v; try discriminate. cbn [getitem].
  destruct (lookup k fields) eqn:E; [|discriminate].
  intros H. apply Ok_inj in H. subst. eauto.
Qed.

Lemma subscript_first_obj (c : result json) (k : string) (x : json) :
  c.[0].[k] = Ok x ->
  exists first rest fields,
    c = Ok (JArr (first :: rest)) /\ first = JObj fields /\ lookup k fields = Some x.
Proof.
  intros H. apply subscript_str_Ok in H. destruct H as (fields & H & Hk).
  destruct c as [v|e]; [|discriminate]. unfold subscript in H. cbn [bind] in H.
  destruct v; try discriminate; cbn [getitem] in H.
  - destruct (list_getitem (chars s) 0); discriminate.
  - destruct items as [|first rest]; [discriminate|].
    change (list_getitem (first :: rest) 0) with (Ok first) in H.
    apply Ok_inj in H. subst. eauto 6.
Qed.

(** The shape of a response that [get_current_weather] reads to the end. *)
Lemma current_weather_shape (data : json) (w : WeatherData.t) :
  parse_current_weather data = Ok w ->
  exists fields sys main w0 wrest wind city country temp feels hum descr icon speed pres,
    data = JObj fields /\
    lookup "name" fields = Some city /\
    lookup "sys" fields = Some (JObj sys) /\ lookup "country" sys = Some country /\
    lookup "main" fields = Some (JObj main) /\
    lookup "temp" main = Some temp /\ lookup "feels_like" main = Some feels /\
    lookup "humidity" main = Some hum /\ lookup "pressure" main = Some pres /\
    lookup "weather" fields = Some (JArr (JObj w0 :: wrest)) /\
    lookup "description" w0 = Some (JStr descr) /\ lookup "icon" w0 = Some icon /\
    lookup "wind" fields = Some (JObj wind) /\ lookup "speed" wind = Some speed.
Proof.
  unfold parse_current_weather. intros H. inv_bind H.
  apply subscript_str_Ok in E. destruct E as (fields & Hd & Hname).
  apply Ok_inj in Hd. subst data.
  apply subscript_str_Ok in E0. destruct E0 as (sys & Hsys & Hcountry).
  apply subscript_str_Ok in E1. destruct E1 as (main & Hmain & Htemp).
  apply subscript_str_Ok in E2. destruct E2 as (main' & Hmain' & Hfeels).
  apply subscript_str_Ok in E3. destruct E3 as (main'' & Hmain'' & Hhum).
  apply subscript_first_obj in E4. destruct E4 as (first & wrest & w0 & Hw & -> & Hdescr).
  apply subscript_first_obj in E6. destruct E6 as (first' & wrest' & w0' & Hw' & -> & Hicon).
  apply subscript_str_Ok in E7. destruct E7 as (wind & Hwind & Hspeed).
  apply subscript_str_Ok in E8. destruct E8 as (main3 & Hmain3 & Hpres).
  rewrite subscript_obj in *.
  destruct (lookup "sys" fields) as [sysv|] eqn:Lsys; [|discriminate].
  destruct (lookup "main" fields) as [mainv|] eqn:Lmain; [|discriminate].
  destruct (lookup "weather" fields) as [wv|] eqn:Lweather; [|discriminate].
  destruct (lookup "wind" fields) as [windv|] eqn:Lwind; [|discriminate].
  apply Ok_inj in Hsys, Hmain, Hmain', Hmain'', Hmain3, Hw, Hw', Hwind. subst.
  injection Hmain' as <-. injection Hmain'' as <-. injection Hmain3 as <-.
  injection Hw' as <- <-.
  destruct v4 as [| | |descr| |]; try discriminate.
  exists fields, sys, main, w0, wrest, wind, v, v0, v1, v2, v3, descr, v6, v7, v8.
  repeat split; assumption.
Qed.

Lemma truthy_obj (k : string) (x : json) (fields : list (string * json)) :
  lookup k fields = Some x -> truthy (JObj fields) = true.
Proof. destruct fields; [discriminate | reflexivity]. Qed.

Lemma subscript_arr_0 (first : json) (rest : list json) :
  (Ok (JArr (first :: rest))).[0] = Ok first.
Proof. reflexivity. Qed.

Lemma subscript_Raise (e : exn) (k : key) : (Raise e).[k] = Raise e.
Proof. reflexivity. Qed.

(** Evaluate the subscripts of a document whose lookups are known. *)
Ltac eval_subscripts :=
  repeat first
    [ rewrite subscript_obj
    | rewrite subscript_arr_0
    | rewrite subscript_Raise
    | rewrite lookup_without_same
    | rewrite lookup_without_other by discriminate
    | rewrite lookup_update_same
    | rewrite lookup_update_other by discriminate
    | match goal with
      | H : lookup ?k ?f = Some _ |- context [lookup ?k ?f] => rewrite H
      end
    | progress cbn [bind option_map without_key in_item in_field update_nth
                    capitalize_method] ].

Lemma current_weather_missing_field (data : json) (w : WeatherData.t)
    (path : list key) (k : string) :
  In (path, k) current_weather_fields ->
  get_current_weather (Some data) = Returned w ->
  get_current_weather (Some (remove_field path k data)) = ParseFailure (KStr k).
Proof.
  intros Hin Hret. unfold get_current_weather in Hret.
  destruct (truthy data); [|discriminate].
  destruct (parse_current_weather data) as [w'|e] eqn:Hparse;
    [|destruct e; discriminate].
  destruct (current_weather_shape _ _ Hparse)
    as (fields & sys & main & w0 & wrest & wind & city & country & temp & feels & hum
        & descr & icon & speed & pres & -> & Hname & Hsys & Hcountry & Hmain & Htemp
        & Hfeels & Hhum & Hpres & Hweather & Hdescr & Hicon & Hwind & Hspeed).
  unfold current_weather_fields in Hin. simpl in Hin.
  repeat (destruct Hin as [Hin|Hin]; [injection Hin as <- <-|]); try contradiction;
    unfold get_current_weather;
    cbn [remove_field in_field in_item without_key Z.to_nat Pos.to_nat];
    match goal with
    | |- context [truthy (JObj ?f)] =>
        let T := fresh "T" in
        assert (T : truthy (JObj f) = true)
          by (first [ apply (truthy_obj "name" city); eval_subscripts; reflexivity
                    | apply (truthy_obj "sys" (JObj sys)); eval_subscripts; reflexivity ]);
        rewrite T
    end;
    unfold parse_current_weather; eval_subscripts; reflexivity.
Qed.

(* ================================================================= *)
(** * A forecast response with a sample field removed *)

Lemma foldM_app {A S : Type} (f : S -> A -> result S) (xs ys : list A) (s : S) :
  foldM f (xs ++ ys) s = (s' <- foldM f xs s ;; foldM f ys s').
Proof.
  revert s; induction xs as [|x xs IH]; intros s; simpl; [reflexivity|].
  destruct (f s x) as [s1|e]; simpl; [apply IH | reflexivity].
Qed.

Lemma mapM_replace {A B : Type} (f : A -> result B) (xs1 xs2 : list A) (x x' : A) :
  f x' = f x -> mapM f (xs1 ++ x' :: xs2) = mapM f (xs1 ++ x :: xs2).
Proof. intros H. rewrite !mapM_app. simpl. now rewrite H. Qed.

Lemma mapM_app_Ok {A B : Type} (f : A -> result B) (xs1 xs2 : list A) (ys : list B) :
  mapM f (xs1 ++ xs2) = Ok ys ->
  exists ys1 ys2, mapM f xs1 = Ok ys1 /\ mapM f xs2 = Ok ys2 /\ ys = ys1 ++ ys2.
Proof.
  rewrite mapM_app. intros H. inv_bind H. apply Ok_inj in H. eauto.
Qed.

Lemma update_nth_split (i : nat) (g : json -> json) (items : list json) (item : json) :
  nth_error items i = Some item ->
  exists pre post,
    items = pre ++ item :: post /\ update_nth i g items = pre ++ g item :: post.
Proof.
  revert i; induction items as [|x items IH]; intros [|i] H; simpl in H; try discriminate.
  - injection H as ->. exists [], items. auto.
  - destruct (IH i H) as (pre & post & -> & Hu).
    exists (x :: pre), post. simpl. now rewrite Hu.
Qed.

(** Grouping succeeds exactly when every sample has a date. *)
Lemma group_fold_dates (items : list json) :
  forall acc groups,
    foldM (fun forecast_by_day item =>
             date <- date_of item ;; Ok (dict_append date item forecast_by_day))
          items acc = Ok groups ->
    exists dates,
      mapM date_of items = Ok dates /\
      map fst groups = map fst acc ++ firsts (map fst acc) dates.
Proof.
  induction items as [|item items IH]; simpl; intros acc groups H.
  - apply Ok_inj in H. subst. exists []. simpl. now rewrite app_nil_r.
  - inv_bind H. rename E into Estep. inv_bind Estep. apply Ok_inj in Estep. subst v.
    rename v0 into date.
    destruct (IH _ _ H) as (dates & Hd & Hk).
    exists (date :: dates). rewrite E, Hd. simpl. split; [reflexivity|].
    rewrite Hk.
    destruct (dict_append_keys date item acc) as [Hsame|[Hnotin Hnew]].
    + rewrite Hsame.
      destruct (in_dec string_dec date (map fst acc)) as [_|Hn]; [reflexivity|].
      exfalso. apply Hn. clear -Hsame.
      induction acc as [|[d0 rs] acc IHacc]; simpl in *; [discriminate|].
      destruct (String.eqb_spec d0 date) as [->|Hne]; [now left|].
      right. apply IHacc. simpl in Hsame. now injection Hsame.
    + rewrite Hnew.
      destruct (in_dec string_dec date (map fst acc)) as [Hi|_]; [contradiction|].
      now rewrite <- app_assoc.
Qed.

Lemma group_fold_total (items : list json) (dates : list string) :
  mapM date_of items = Ok dates ->
  forall acc, exists groups,
    foldM (fun forecast_by_day item =>
             date <- date_of item ;; Ok (dict_append date item forecast_by_day))
          items acc = Ok groups.
Proof.
  revert dates; induction items as [|item items IH]; intros dates H acc; simpl.
  - eauto.
  - simpl in H. inv_bind H. rewrite E. simpl. eapply IH; eauto.
Qed.

(** The groups, as a function of the samples and of their dates. *)
Lemma group_by_day_fun (items : list json) (groups : list (string * list json))
    (dates : list string) :
  group_by_day items = Ok groups -> mapM date_of items = Ok dates ->
  groups = map (fun d => (d, samples_of_day items d)) (firsts [] dates).
Proof.
  intros Hg Hd.
  destruct (group_fold_dates items [] groups Hg) as (dates' & Hd' & Hkeys).
  rewrite Hd in Hd'. apply Ok_inj in Hd'. subst dates'. simpl in Hkeys.
  destruct (group_by_day_spec items groups Hg) as (_ & Hspec).
  rewrite <- Hkeys. clear Hkeys Hg Hd.
  induction groups as [|[d rs] groups IH]; simpl; [reflexivity|].
  destruct (Hspec d rs (or_introl eq_refl)) as (-> & _).
  f_equal. apply IH. intros d' rs' Hin. apply Hspec. now right.
Qed.

Lemma samples_of_day_middle (pre post : list json) (item : json) (d : string) :
  samples_of_day (pre ++ item :: post) d =
  samples_of_day pre d ++
  (if on_date d item then [item] else []) ++ samples_of_day post d.
Proof.
  unfold samples_of_day. rewrite filter_app. simpl.
  destruct (on_date d item); reflexivity.
Qed.

(** The error of the first failing comprehension of [aggregate_day]. *)
Lemma aggregate_day_Raise (date_str : string) (readings : list json) (e : exn) :
  mapM temp_of readings = Raise e \/
  (exists temps, mapM temp_of readings = Ok temps /\
     (mapM description_of readings = Raise e \/
      (exists ds, mapM description_of readings = Ok ds /\
                  mapM icon_of readings = Raise e))) ->
  aggregate_day date_str readings = Raise e.
Proof.
  unfold aggregate_day.
  intros [H|(temps & Ht & [H|(ds & Hd & H)])].
  - now rewrite H.
  - rewrite Ht. simpl. now rewrite H.
  - rewrite Ht. simpl. rewrite Hd. simpl. now rewrite H.
Qed.


(** With the dates unchanged, the groups before the one of the broken
    sample are aggregated as before, and the run ends where that group
    fails. *)
Lemma forecast_group_broken (pre post : list json) (item item' : json) (d0 : string)
    (K1 K2 dates : list string) (days1 : list DailyForecast.t) (e : exn) :
  mapM date_of (pre ++ item :: post) = Ok dates ->
  date_of item = Ok d0 ->
  date_of item' = date_of item ->
  firsts [] dates = K1 ++ d0 :: K2 ->
  ~ In d0 K1 ->
  mapM (fun g => aggregate_day (fst g) (snd g))
    (map (fun d => (d, samples_of_day (pre ++ item :: post) d)) K1) = Ok days1 ->
  aggregate_day d0 (samples_of_day pre d0 ++ item' :: samples_of_day post d0) = Raise e ->
  (forecast_by_day <- group_by_day (pre ++ item' :: post) ;;
   mapM (fun g => aggregate_day (fst g) (snd g)) forecast_by_day) = Raise e.
Proof.
  intros Hdates Hd0 Hsame Hkeys HK1 Hdays1 Hfail.
  assert (Hdates' : mapM date_of (pre ++ item' :: post) = Ok dates)
    by (rewrite <- Hdates; now apply mapM_replace).
  destruct (group_fold_total _ _ Hdates' []) as (groups' & Hg').
  fold (group_by_day (pre ++ item' :: post)) in Hg'.
  rewrite Hg'. simpl.
  rewrite (group_by_day_fun _ _ _ Hg' Hdates'), Hkeys, map_app. simpl.
  assert (Hon' : forall d, on_date d item' = on_date d item)
    by (intros d; unfold on_date; now rewrite Hsame).
  assert (Hon : forall d, on_date d item = String.eqb d0 d)
    by (intros d; unfold on_date; now rewrite Hd0).
  eapply mapM_first_Raise.
  - erewrite map_ext_in; [exact Hdays1|].
    intros d Hd. simpl. f_equal.
    rewrite !samples_of_day_middle, Hon', Hon.
    destruct (String.eqb_spec d0 d) as [<-|_]; [contradiction | reflexivity].
  - simpl. rewrite samples_of_day_middle, Hon', Hon, String.eqb_refl. exact Hfail.
Qed.

Lemma lookup_Some_In {V : Type} (k : string) (v : V) (g : list (string * V)) :
  lookup k g = Some v -> In k (map fst g).
Proof.
  induction g as [|[k0 v0] g IH]; simpl; [discriminate|].
  destruct (String.eqb_spec k0 k) as [->|Hne]; [now left | intros H; right; auto].
Qed.

Lemma aggregate_day_reads (date_str : string) (readings : list json) (day : DailyForecast.t) :
  aggregate_day date_str readings = Ok day ->
  exists temps ds ics,
    mapM temp_of readings = Ok temps /\ mapM description_of readings = Ok ds /\
    mapM icon_of readings = Ok ics.
Proof.
  unfold aggregate_day. intros H. inv_bind H. eauto 7.
Qed.

Lemma mapM_middle_Ok {A B : Type} (f : A -> result B) (xs1 xs2 : list A) (x : A)
    (ys : list B) :
  mapM f (xs1 ++ x :: xs2) = Ok ys ->
  exists ys1 y, mapM f xs1 = Ok ys1 /\ f x = Ok y.
Proof.
  intros H. apply mapM_app_Ok in H. destruct H as (ys1 & ys2 & H1 & H2 & _).
  simpl in H2. inv_bind H2. eauto.
Qed.

(** Replacing one sample by a broken one makes the run end in the
    [KeyError] of the removed key: no earlier read fails, since the same
    reads succeeded on the intact response. *)
Lemma forecast_sample_removed (pre post : list json) (item item' : json) (k : string)
    (groups : list (string * list json)) (days : list DailyForecast.t) :
  group_by_day (pre ++ item :: post) = Ok groups ->
  mapM (fun g => aggregate_day (fst g) (snd g)) groups = Ok days ->
  (forall d t ds ic,
      date_of item = Ok d -> temp_of item = Ok t ->
      description_of item = Ok ds -> icon_of item = Ok ic -> breaks item item' k) ->
  (forecast_by_day <- group_by_day (pre ++ item' :: post) ;;
   mapM (fun g => aggregate_day (fst g) (snd g)) forecast_by_day)
  = Raise (KeyError (KStr k)).
Proof.
  intros Hg Hm Hbreaks.
  (* the dates, and the date [d0] of the sample *)
  destruct (group_fold_dates _ _ _ Hg) as (dates & Hdates & _).
  destruct (mapM_middle_Ok _ _ _ _ _ Hdates) as (dates1 & d0 & Hpre & Hd0).
  (* the groups as a function of the dates; [d0] is one of the keys *)
  pose proof (group_by_day_fun _ _ _ Hg Hdates) as Hfun.
  destruct (group_by_day_spec _ _ Hg) as (Hnd & _).
  assert (Hon : on_date d0 item = true)
    by (unfold on_date; rewrite Hd0; apply String.eqb_refl).
  assert (Hkey : In d0 (firsts [] dates)).
  { destruct (group_fold_spec _ _ _ Hg (NoDup_nil _) (Forall_nil _)) as (_ & _ & Hr).
    specialize (Hr d0). rewrite samples_of_day_middle, Hon in Hr.
    unfold readings_of in Hr. simpl in Hr.
    destruct (lookup d0 groups) as [rs|] eqn:El.
    - apply lookup_Some_In in El. rewrite Hfun, map_map in El. simpl in El.
      now rewrite map_id in El.
    - destruct (samples_of_day pre d0); discriminate. }
  apply in_split in Hkey. destruct Hkey as (K1 & K2 & Hkeys).
  assert (HK1 : ~ In d0 K1).
  { rewrite Hfun, map_map in Hnd. simpl in Hnd. rewrite map_id, Hkeys in Hnd.
    apply NoDup_remove_2 in Hnd. intros Hin. apply Hnd. apply in_or_app. now left. }
  (* the group of [d0] was aggregated, so every read of the sample worked *)
  rewrite Hfun, Hkeys, map_app in Hm. simpl in Hm.
  destruct (mapM_middle_Ok _ _ _ _ _ Hm) as (days1 & day0 & Hdays1 & Hagg0).
  simpl in Hagg0. rewrite samples_of_day_middle, Hon in Hagg0. simpl in Hagg0.
  destruct (aggregate_day_reads _ _ _ Hagg0) as (temps & ds & ics & Ht & Hd & Hi).
  destruct (mapM_middle_Ok _ _ _ _ _ Ht) as (temps1 & t & Ht1 & Htemp).
  destruct (mapM_middle_Ok _ _ _ _ _ Hd) as (ds1 & dsc & Hd1 & Hdesc).
  destruct (mapM_middle_Ok _ _ _ _ _ Hi) as (ics1 & ic & Hi1 & Hicon).
  destruct (Hbreaks d0 t dsc ic Hd0 Htemp Hdesc Hicon)
    as [Hdate | Hdate Hbt | Hdate Hsame_t Hbd | Hdate Hsame_t Hsame_d Hbi].
  - (* the date cannot be read: the first loop stops at the sample *)
    unfold group_by_day in *. rewrite foldM_app in *.
    apply bind_Ok in Hg. destruct Hg as (acc & Hacc & _).
    rewrite Hacc. simpl. now rewrite Hdate.
  - (* the temperature cannot be read *)
    apply (forecast_group_broken pre post item item' d0 K1 K2 dates days1); auto.
    apply aggregate_day_Raise. left. eapply mapM_first_Raise; eauto.
  - apply (forecast_group_broken pre post item item' d0 K1 K2 dates days1); auto.
    apply aggregate_day_Raise. right. exists temps. split.
    + rewrite <- Ht. now apply mapM_replace.
    + left. eapply mapM_first_Raise; eauto.
  - apply (forecast_group_broken pre post item item' d0 K1 K2 dates days1); auto.
    apply aggregate_day_Raise. right. exists temps. split.
    + rewrite <- Ht. now apply mapM_replace.
    + right. exists ds. split.
      * rewrite <- Hd. now apply mapM_replace.
      * eapply mapM_first_Raise; eauto.
Qed.

Lemma bind_assoc {A B C : Type} (c : result A) (f : A -> result B) (g : B -> result C) :
  (b <- (a <- c ;; f a) ;; g b) = (a <- c ;; b <- f a ;; g b).
Proof. destruct c; reflexivity. Qed.

(** The shape of a sample all of whose reads succeed. *)
Lemma sample_shape (item : json) (d : string) (t ds ic : json) :
  date_of item = Ok d -> temp_of item = Ok t ->
  description_of item = Ok ds -> icon_of item = Ok ic ->
  exists fields dt main w0 wrest,
    item = JObj fields /\
    lookup "dt_txt" fields = Some (JStr dt) /\
    lookup "main" fields = Some (JObj main) /\ lookup "temp" main = Some t /\
    lookup "weather" fields = Some (JArr (JObj w0 :: wrest)) /\
    lookup "description" w0 = Some ds /\ lookup "icon" w0 = Some ic.
Proof.
  unfold date_of, temp_of, description_of, icon_of. intros Hd Ht Hds Hic.
  inv_bind Hd.
  apply subscript_str_Ok in E. destruct E as (fields & Hitem & Hdt).
  apply Ok_inj in Hitem. subst item.
  destruct v as [| | |dt| |]; try discriminate.
  apply subscript_str_Ok in Ht. destruct Ht as (main & Hmain & Htemp).
  apply subscript_first_obj in Hds. destruct Hds as (first & wrest & w0 & Hw & -> & Hdescr).
  apply subscript_first_obj in Hic. destruct Hic as (first' & wrest' & w0' & Hw' & -> & Hicon).
  rewrite subscript_obj in *.
  destruct (lookup "main" fields) as [mainv|] eqn:Lmain; [|discriminate].
  destruct (lookup "weather" fields) as [wv|] eqn:Lweather; [|discriminate].
  apply Ok_inj in Hmain, Hw, Hw'. subst mainv. rewrite Hw in Hw'.
  injection Hw' as <- <-. subst wv.
  exists fields, dt, main, w0, wrest. repeat split; assumption.
Qed.

(** The fields of one sample, relative to the sample. *)
Lemma sample_field_breaks (item : json) (path : list key) (k : string)
    (d : string) (t ds ic : json) :
  In (path, k)
     [ ([], "dt_txt"); ([], "main"); ([KStr "main"], "temp"); ([], "weather");
       ([KStr "weather"; KInt 0], "description"); ([KStr "weather"; KInt 0], "icon") ] ->
  date_of item = Ok d -> temp_of item = Ok t ->
  description_of item = Ok ds -> icon_of item = Ok ic ->
  breaks item (remove_field path k item) k.
Proof.
  intros Hin Hd Ht Hds Hic.
  destruct (sample_shape item d t ds ic Hd Ht Hds Hic)
    as (fields & dt & main & w0 & wrest & -> & Hdt & Hmain & Htemp & Hweather
        & Hdescr & Hicon).
  simpl in Hin.
  repeat (destruct Hin as [Hin|Hin]; [injection Hin as <- <-|]); try contradiction;
    cbn [remove_field in_field in_item without_key Z.to_nat Pos.to_nat].
  - apply breaks_date. unfold date_of. eval_subscripts. reflexivity.
  - apply breaks_temp; unfold date_of, temp_of; eval_subscripts; reflexivity.
  - apply breaks_temp; unfold date_of, temp_of; eval_subscripts; reflexivity.
  - apply breaks_description; unfold date_of, temp_of, description_of;
      eval_subscripts; reflexivity.
  - apply breaks_description; unfold date_of, temp_of, description_of;
      eval_subscripts; reflexivity.
  - apply breaks_icon; unfold date_of, temp_of, description_of, icon_of;
      eval_subscripts; reflexivity.
Qed.

(** The shape of a response that [get_five_day_forecast] reads to the end,
    and the two loops it ran. *)
Lemma forecast_shape (data : json) (fd : ForecastData.t) :
  get_five_day_forecast (Some data) = Returned fd ->
  exists fields l items groups days city name country,
    data = JObj fields /\
    lookup "list" fields = Some l /\ iterate l = Ok items /\
    group_by_day items = Ok groups /\
    mapM (fun g => aggregate_day (fst g) (snd g)) groups = Ok days /\
    lookup "city" fields = Some (JObj city) /\
    lookup "name" city = Some name /\ lookup "country" city = Some country.
Proof.
  unfold get_five_day_forecast. destruct (truthy data); [|discriminate].
  destruct (parse_forecast data) as [f|e] eqn:E; [|destruct e; discriminate].
  intros _. unfold parse_forecast in E. inv_bind E.
  apply subscript_str_Ok in E0. destruct E0 as (fields & Hdata & Hlist).
  apply Ok_inj in Hdata. subst data.
  apply subscript_str_Ok in E4. destruct E4 as (city & Hcity & Hname).
  apply subscript_str_Ok in E5. destruct E5 as (city' & Hcity' & Hcountry).
  rewrite subscript_obj in *.
  destruct (lookup "city" fields) as [cv|] eqn:Lcity; [|discriminate].
  apply Ok_inj in Hcity, Hcity'. subst. injection Hcity' as <-.
  exists fields, v, v0, v1, v2, city, v3, v4. repeat split; assumption.
Qed.

Lemma forecast_missing_field (data : json) (fd : ForecastData.t)
    (path : list key) (k : string) :
  In (path, k) forecast_fields ->
  get_five_day_forecast (Some data) = Returned fd ->
  get_five_day_forecast (Some (remove_field path k data)) = ParseFailure (KStr k).
Proof.
  intros Hin Hret.
  destruct (forecast_shape data fd Hret)
    as (fields & l & items & groups & days & city & name & country & -> & Hlist & Hiter
        & Hgroups & Hdays & Hcity & Hname & Hcountry).
  unfold forecast_fields in Hin. simpl in Hin.
  repeat (destruct Hin as [Hin|Hin]; [injection Hin as <- <-|]); try contradiction;
    unfold get_five_day_forecast;
    cbn [remove_field in_field in_item without_key Z.to_nat Pos.to_nat];
    match goal with
    | |- context [truthy (JObj ?f)] =>
        let T := fresh "T" in
        assert (T : truthy (JObj f) = true)
          by (first [ apply (truthy_obj "list" l); eval_subscripts; reflexivity
                    | apply (truthy_obj "city" (JObj city)); eval_subscripts; reflexivity ]);
        rewrite T
    end;
    unfold parse_forecast; eval_subscripts;
    try rewrite Hiter; eval_subscripts;
    try rewrite Hgroups; eval_subscripts;
    try rewrite Hdays; eval_subscripts;
    reflexivity.
Qed.

Lemma forecast_missing_sample_field (data : json) (fd : ForecastData.t)
    (items : list json) (i : nat) (path : list key) (k : string) :
  get_five_day_forecast (Some data) = Returned fd ->
  (Ok data).["list"] = Ok (JArr items) ->
  (i < List.length items)%nat ->
  In (path, k) (sample_fields i) ->
  get_five_day_forecast (Some (remove_field path k data)) = ParseFailure (KStr k).
Proof.
  intros Hret Hl Hi Hin.
  destruct (forecast_shape data fd Hret)
    as (fields & l & items' & groups & days & city & name & country & -> & Hlist & Hiter
        & Hgroups & Hdays & Hcity & Hname & Hcountry).
  rewrite subscript_obj, Hlist in Hl. apply Ok_inj in Hl. subst l.
  simpl in Hiter. apply Ok_inj in Hiter. subst items'.
  destruct (nth_error items i) as [item|] eqn:Hitem;
    [|apply nth_error_None in Hitem; lia].
  (* every sample field is a field of the sample, below [data['list'][i]] *)
  assert (Hrel : exists p,
    path = KStr "list" :: KInt (Z.of_nat i) :: p /\
    In (p, k) [ ([], "dt_txt"); ([], "main"); ([KStr "main"], "temp"); ([], "weather");
                ([KStr "weather"; KInt 0], "description");
                ([KStr "weather"; KInt 0], "icon") ]).
  { unfold sample_fields in Hin. simpl in Hin.
    repeat (destruct Hin as [Hin|Hin]; [injection Hin as <- <-; eexists; split;
      [reflexivity | simpl; tauto]|]). contradiction. }
  destruct Hrel as (p & -> & Hp).
  cbn [remove_field in_field]. rewrite Nat2Z.id.
  destruct (update_nth_split i (remove_field p k) items item Hitem)
    as (pre & post & Hitems & Hupd).
  unfold get_five_day_forecast.
  match goal with
  | |- context [truthy (JObj ?f)] =>
      assert (T : truthy (JObj f) = true)
        by (apply (truthy_obj "city" (JObj city)); eval_subscripts; reflexivity);
      rewrite T
  end.
  unfold parse_forecast. eval_subscripts.
  cbn [iterate bind]. rewrite Hupd.
  rewrite <- bind_assoc. subst items.
  rewrite (forecast_sample_removed pre post item (remove_field p k item) k groups days
             Hgroups Hdays).
  - reflexivity.
  - intros d t ds ic. now apply sample_field_breaks.
Qed.

(** C8: when one field that the client reads is missing from a response
    that is otherwise read to the end, [get_current_weather] and
    [get_five_day_forecast] report the missing key and return [None]; the
    [KeyError] does not reach the caller. *)
Theorem missing_field_is_parse_failure :
  (forall data w path k,
     In (path, k) current_weather_fields ->
     get_current_weather (Some data) = Returned w ->
     get_current_weather (Some (remove_field path k data)) = ParseFailure (KStr k)) /\
  (forall data fd path k,
     In (path, k) forecast_fields ->
     get_five_day_forecast (Some data) = Returned fd ->
     get_five_day_forecast (Some (remove_field path k data)) = ParseFailure (KStr k)) /\
  (forall data fd items i path k,
     get_five_day_forecast (Some data) = Returned fd ->
     (Ok data).["list"] = Ok (JArr items) ->
     (i < List.length items)%nat ->
     In (path, k) (sample_fields i) ->
     get_five_day_forecast (Some (remove_field path k data)) = ParseFailure (KStr k)) /\
  (forall k, returned (@ParseFailure WeatherData.t k) = Some None) /\
  (forall k, returned (@ParseFailure ForecastData.t k) = Some None).
Proof.
  split; [exact current_weather_missing_field|].
  split; [exact forecast_missing_field|].
  split; [exact forecast_missing_sample_field|].
  split; reflexivity.
Qed.

(** An empty [weather] array is not a missing key: [data['weather'][0]]
    raises [IndexError], which [get_current_weather] does not catch, while
    [get_five_day_forecast] catches every exception. *)
Lemma empty_weather_array_escapes :
  get_current_weather (Some no_weather_response) = Uncaught IndexError.
Proof. reflexivity. Qed.

(* ================================================================= *)
(** * Rounding in binary64 *)

(** The number of binary digits of a mantissa. *)
Lemma digits2_pos_size (p : positive) : digits2_pos p = Pos.size p.
Proof. induction p; simpl; congruence. Qed.

Lemma Zdigits2_log2 (a : Z) : 0 < a -> Zdigits2 a = Z.log2 a + 1.
Proof.
  destruct a as [|p|p]; try lia. intros _. simpl. rewrite digits2_pos_size.
  destruct p; simpl; lia.
Qed.

Lemma Zdigits2_nonneg (a : Z) : 0 <= Zdigits2 a.
Proof. destruct a; simpl; lia. Qed.

Lemma Zdigits2_bounds (a : Z) :
  0 < a -> 2 ^ (Zdigits2 a - 1) <= a < 2 ^ Zdigits2 a.
Proof.
  intros Ha. rewrite Zdigits2_log2 by assumption.
  replace (Z.log2 a + 1 - 1) with (Z.log2 a) by lia.
  replace (Z.log2 a + 1) with (Z.succ (Z.log2 a)) by lia.
  now apply Z.log2_spec.
Qed.

Lemma Zdigits2_le (a k : Z) : 0 <= a < 2 ^ k -> 0 <= k -> Zdigits2 a <= k.
Proof.
  intros (Ha & Hk) Hk0. destruct (Z.eq_dec a 0) as [->|Hne]; [simpl; lia|].
  rewrite Zdigits2_log2 by lia.
  assert (Z.log2 a < k) by (apply Z.log2_lt_pow2; lia). lia.
Qed.

Lemma Zdigits2_mul_pow2 (a n : Z) :
  0 < a -> 0 <= n -> Zdigits2 (a * 2 ^ n) = Zdigits2 a + n.
Proof.
  intros Ha Hn.
  assert (0 < 2 ^ n) by (apply Z.pow_pos_nonneg; lia).
  rewrite !Zdigits2_log2 by nia.
  rewrite Z.log2_mul_pow2 by lia. lia.
Qed.

Lemma Zdigits2_div_pow2 (a n : Z) :
  0 < a -> 0 <= n -> n < Zdigits2 a ->
  0 < a / 2 ^ n /\ Zdigits2 (a / 2 ^ n) = Zdigits2 a - n.
Proof.
  intros Ha Hn Hlt.
  assert (Hp : 0 < 2 ^ n) by (apply Z.pow_pos_nonneg; lia).
  destruct (Zdigits2_bounds a Ha) as (Hlo & Hhi).
  assert (Hle : 2 ^ n <= a).
  { eapply Z.le_trans; [|exact Hlo]. apply Z.pow_le_mono_r; lia. }
  assert (Hq : 0 < a / 2 ^ n) by (apply Z.div_str_pos; lia).
  split; [assumption|].
  rewrite !Zdigits2_log2 by lia.
  rewrite <- Z.shiftr_div_pow2 by lia. rewrite Z.log2_shiftr by lia.
  rewrite Zdigits2_log2 in Hlt by lia. lia.
Qed.

Lemma Zdigits2_div_pow2_le (a n : Z) :
  0 <= a -> 0 <= n -> Zdigits2 (a / 2 ^ n) <= Z.max (Zdigits2 a - n) 0.
Proof.
  intros Ha Hn.
  assert (Hp : 0 < 2 ^ n) by (apply Z.pow_pos_nonneg; lia).
  destruct (Z.eq_dec a 0) as [->|Hne]; [rewrite Z.div_0_l by lia; simpl; lia|].
  destruct (Z.lt_ge_cases n (Zdigits2 a)) as [Hlt|Hge].
  - destruct (Zdigits2_div_pow2 a n) as (_ & ->); lia.
  - assert (Hsmall : a / 2 ^ n = 0).
    { apply Z.div_small. destruct (Zdigits2_bounds a) as (_ & Hhi); [lia|].
      split; [lia|]. eapply Z.lt_le_trans; [exact Hhi|].
      apply Z.pow_le_mono_r; lia. }
    rewrite Hsmall. simpl. lia.
Qed.

Lemma Zdigits2_succ_le (a : Z) : 0 <= a -> Zdigits2 (a + 1) <= Zdigits2 a + 1.
Proof.
  intros Ha. destruct (Z.eq_dec a 0) as [->|Hne]; [simpl; lia|].
  destruct (Zdigits2_bounds a) as (_ & Hhi); [lia|].
  apply Zdigits2_le; [|pose proof (Zdigits2_nonneg a); lia].
  rewrite Z.pow_add_r by (pose proof (Zdigits2_nonneg a); lia). lia.
Qed.

Lemma Zdigits2_mono (a b : Z) : 0 <= a <= b -> Zdigits2 a <= Zdigits2 b.
Proof.
  intros (Ha & Hab). destruct (Z.eq_dec a 0) as [->|Hne];
    [simpl; apply Zdigits2_nonneg|].
  rewrite !Zdigits2_log2 by lia.
  assert (Z.log2 a <= Z.log2 b) by (apply Z.log2_le_mono; lia). lia.
Qed.

(** Shifting a mantissa right halves it, digit by digit. *)
Lemma shr_1_m (mrs : shr_record) :
  0 <= shr_m mrs -> shr_m (shr_1 mrs) = shr_m mrs / 2.
Proof.
  destruct mrs as [m r s]. cbn [shr_m]. intros Hm.
  destruct m as [|[p|p|]|p]; try lia; cbn [shr_1 shr_m]; try reflexivity.
  - apply Z.div_unique with (r := 1); lia.
  - apply Z.div_unique with (r := 0); lia.
Qed.

Lemma iter_shr_1_m (p : positive) :
  forall mrs, 0 <= shr_m mrs ->
    shr_m (iter_pos shr_1 p mrs) = shr_m mrs / 2 ^ Zpos p.
Proof.
  assert (Hdiv : forall a b c, 0 < b -> 0 < c -> a / b / c = a / (b * c))
    by (intros; apply Z.div_div; lia).
  assert (Hnn : forall a k, 0 <= a -> 0 <= k -> 0 <= a / 2 ^ k)
    by (intros; apply Z.div_pos; [lia | apply Z.pow_pos_nonneg; lia]).
  induction p as [p IH|p IH|]; intros mrs Hm; simpl iter_pos.
  - rewrite IH, IH, shr_1_m by
      (try assumption; try (rewrite IH by (rewrite shr_1_m; [apply Z.div_pos|]; lia));
       try (rewrite shr_1_m by assumption); try (apply Hnn; try lia);
       try (apply Z.div_pos; lia)).
    replace (Zpos p~1) with (1 + Zpos p + Zpos p) by lia.
    rewrite !Z.pow_add_r by lia. change (2 ^ 1) with 2.
    rewrite !Hdiv by (try lia; try (apply Z.pow_pos_nonneg; lia);
                      try (apply Z.mul_pos_pos; try lia; apply Z.pow_pos_nonneg; lia)).
    f_equal. ring.
  - rewrite IH, IH by (try assumption; try (rewrite IH by assumption; apply Hnn; lia)).
    replace (Zpos p~0) with (Zpos p + Zpos p) by lia.
    rewrite Z.pow_add_r by lia.
    rewrite Hdiv by (apply Z.pow_pos_nonneg; lia). reflexivity.
  - rewrite shr_1_m by assumption. reflexivity.
Qed.

(** What [shr_fexp] does to a mantissa that is not negative. *)
Lemma shr_fexp_spec (m e : Z) (l : location) :
  0 <= m ->
  let n := fexp F64.prec F64.emax (Zdigits2 m + e) - e in
  exists mrs,
    shr_fexp F64.prec F64.emax m e l = (mrs, Z.max e (e + n)) /\
    shr_m mrs = (if 0 <? n then m / 2 ^ n else m).
Proof.
  intros Hm n. unfold shr_fexp. fold n.
  assert (Hrec : shr_m (shr_record_of_loc m l) = m)
    by (destruct l as [|[| |]]; reflexivity).
  destruct n as [|p|p] eqn:En; simpl shr.
  - eexists. split; [f_equal; lia | exact Hrec].
  - eexists. split; [f_equal; lia|].
    rewrite iter_shr_1_m by (rewrite Hrec; assumption). now rewrite Hrec.
  - eexists. split; [f_equal; lia | exact Hrec].
Qed.

Lemma round_nearest_even_bounds (m : Z) (l : location) :
  m <= round_nearest_even m l <= m + 1.
Proof.
  destruct l as [|[| |]]; simpl; try lia. destruct (Z.even m); lia.
Qed.

(** One shift of [shr_fexp]: the new mantissa, the new exponent, and what
    becomes of the position [digits + exponent] of the leading bit. *)
Lemma shr_fexp_bounds (m e : Z) (l : location) :
  0 <= m ->
  exists mrs e',
    shr_fexp F64.prec F64.emax m e l = (mrs, e') /\
    0 <= shr_m mrs /\
    e' = Z.max e (Z.max (Zdigits2 m + e - 53) (-1074)) /\
    Zdigits2 (shr_m mrs) + e' <= Z.max (Zdigits2 m + e) e' /\
    (0 < m -> -1074 <= e ->
     0 < shr_m mrs /\ Zdigits2 (shr_m mrs) + e' = Zdigits2 m + e).
Proof.
  intros Hm. destruct (shr_fexp_spec m e l Hm) as (mrs & Heq & Hmrs).
  rewrite fexp_64 in *.
  set (n := Z.max (Zdigits2 m + e - 53) (-1074) - e) in *.
  exists mrs, (Z.max e (e + n)). split; [assumption|].
  pose proof (Zdigits2_nonneg m) as Hd.
  destruct (Z.ltb_spec 0 n) as [Hn|Hn]; rewrite Hmrs.
  - pose proof (Zdigits2_div_pow2_le m n Hm ltac:(lia)) as Hle.
    split; [apply Z.div_pos; [lia | apply Z.pow_pos_nonneg; lia]|].
    split; [lia|]. split; [lia|].
    intros Hpos He.
    destruct (Zdigits2_div_pow2 m n Hpos ltac:(lia) ltac:(lia)) as (Hq & Hdq).
    split; [assumption | lia].
  - split; [assumption|]. split; [lia|]. split; [lia|].
    intros Hpos He. split; [assumption | lia].
Qed.

(** The result of [binary_round_aux] on a mantissa that is not negative:
    a zero or a number of exponent [e2], or an infinity when [e2] exceeds
    the largest exponent. *)
Lemma binary_round_aux_spec (s : bool) (m e : Z) (l : location) :
  0 <= m ->
  exists m3 e2,
    binary_round_aux F64.prec F64.emax s m e l =
      match m3 with
      | Z0 => S754_zero s
      | Zpos p => if e2 <=? 971 then S754_finite s p e2 else S754_infinity s
      | Zneg _ => S754_nan
      end /\
    0 <= m3 /\
    e <= e2 /\
    e2 <= Z.max e (Z.max (Zdigits2 m + e - 52) (-1074)) /\
    Zdigits2 m3 + e2 <= Z.max (Zdigits2 m + e + 1) (e2 + 1) /\
    (0 < m -> -1074 <= e -> 0 < m3 /\ Zdigits2 m + e <= Zdigits2 m3 + e2).
Proof.
  intros Hm. unfold binary_round_aux.
  destruct (shr_fexp_bounds m e l Hm) as (mrs1 & e1 & Heq1 & Hm1 & He1 & Hd1 & Hpos1).
  rewrite Heq1.
  set (m2 := round_nearest_even (shr_m mrs1) (loc_of_shr_record mrs1)).
  pose proof (round_nearest_even_bounds (shr_m mrs1) (loc_of_shr_record mrs1)) as Hm2.
  fold m2 in Hm2.
  assert (Hm2' : 0 <= m2) by lia.
  destruct (shr_fexp_bounds m2 e1 loc_Exact Hm2')
    as (mrs2 & e2 & Heq2 & Hm3 & He2 & Hd2 & Hpos2).
  rewrite Heq2.
  exists (shr_m mrs2), e2.
  split; [reflexivity|]. split; [assumption|].
  assert (Hdm2 : Zdigits2 m2 <= Zdigits2 (shr_m mrs1) + 1).
  { eapply Z.le_trans; [apply Zdigits2_mono; split; [exact Hm2' | apply Hm2]|].
    now apply Zdigits2_succ_le. }
  assert (Hdm2' : Zdigits2 (shr_m mrs1) <= Zdigits2 m2)
    by (apply Zdigits2_mono; lia).
  split; [lia|]. split; [lia|]. split; [lia|].
  intros Hpos He.
  destruct (Hpos1 Hpos He) as (Hp1 & Hdeq1).
  destruct (Hpos2 ltac:(lia) ltac:(lia)) as (Hp2 & Hdeq2).
  split; [assumption | lia].
Qed.

Lemma iter_xO_pow2 (m d : positive) : Zpos (Pos.iter xO m d) = Zpos m * 2 ^ Zpos d.
Proof.
  induction d as [|d IH] using Pos.peano_ind.
  - simpl. lia.
  - rewrite Pos.iter_succ, Pos2Z.inj_xO, IH, Pos2Z.inj_succ, Z.pow_succ_r by lia. ring.
Qed.

Lemma shl_align_spec (m : positive) (e e' : Z) :
  exists m' e'',
    shl_align m e e' = (m', e'') /\ e'' = Z.min e e' /\
    Zpos m' = Zpos m * 2 ^ (e - e'').
Proof.
  unfold shl_align. destruct (e' - e) as [|d|d] eqn:Ed.
  - exists m, e. repeat split; [lia|]. replace (e - e) with 0 by lia. lia.
  - exists m, e. repeat split; [lia|]. replace (e - e) with 0 by lia. lia.
  - exists (Pos.iter xO m d), e'. repeat split; [lia|].
    rewrite iter_xO_pow2. f_equal. f_equal. lia.
Qed.

(** Rounding a mantissa that is not zero, at an exponent in range, does
    not give zero. *)
Lemma binary_round_nonzero (s : bool) (m : positive) (e : Z) :
  -1074 <= e -> F64.is_zero (binary_round F64.prec F64.emax s m e) = false.
Proof.
  intros He. unfold binary_round.
  destruct (shl_align_spec m e (fexp F64.prec F64.emax (Zpos (digits2_pos m) + e)))
    as (mz & ez & Heq & Hez & _).
  rewrite Heq. rewrite fexp_64 in Hez.
  destruct (binary_round_aux_spec s (Zpos mz) ez loc_Exact ltac:(lia))
    as (m3 & e2 & Hres & _ & _ & _ & _ & Hpos).
  rewrite Hres. destruct (Hpos ltac:(lia) ltac:(lia)) as (Hm3 & _).
  destruct m3 as [|p|p]; try lia. now destruct (e2 <=? 971).
Qed.

Lemma cond_Zopp_inj (s s' : bool) (a b : positive) :
  cond_Zopp s (Zpos a) = cond_Zopp s' (Zpos b) -> s = s' /\ a = b.
Proof. destruct s, s'; simpl; intros H; split; congruence || lia. Qed.

(** Two well-formed numbers of the same value have the same mantissa and
    exponent. *)
Lemma canonical_unique (mx my : positive) (ex ey : Z) :
  Z.max (Zpos (digits2_pos mx) + ex - 53) (-1074) = ex ->
  Z.max (Zpos (digits2_pos my) + ey - 53) (-1074) = ey ->
  Zpos mx * 2 ^ (ex - Z.min ex ey) = Zpos my * 2 ^ (ey - Z.min ex ey) ->
  mx = my /\ ex = ey.
Proof.
  intros Hx Hy Heq.
  assert (Hd : Zdigits2 (Zpos mx * 2 ^ (ex - Z.min ex ey))
             = Zdigits2 (Zpos my * 2 ^ (ey - Z.min ex ey))) by now rewrite Heq.
  rewrite !Zdigits2_mul_pow2 in Hd by lia. simpl Zdigits2 in Hd.
  assert (He : ex = ey) by lia. subst ey.
  rewrite Z.min_id, Z.sub_diag in Heq. split; [lia | reflexivity].
Qed.

(** [x - y == 0] only if [x == y]. *)
Lemma sub_zero_eq (x y : float) :
  F64.valid x = true -> F64.valid y = true ->
  F64.is_finite x = true -> F64.is_finite y = true ->
  F64.is_zero (F64.sub x y) = true -> F64.eqb x y = true.
Proof.
  intros Hvx Hvy Hfx Hfy.
  destruct x as [sx|sx| |sx mx ex]; try discriminate;
  destruct y as [sy|sy| |sy my ey]; try discriminate.
  - reflexivity.
  - destruct (valid_finite _ _ _ Hvx) as (Hcx & _).
    destruct (valid_finite _ _ _ Hvy) as (Hcy & _).
    unfold F64.sub, SFsub.
    destruct (shl_align_spec mx ex (Z.min ex ey)) as (ax & ex' & Hax & Hex' & Hvx').
    destruct (shl_align_spec my ey (Z.min ex ey)) as (ay & ey' & Hay & Hey' & Hvy').
    rewrite Hax, Hay. cbn [fst].
    destruct (Z.sub (cond_Zopp sx (Zpos ax)) (cond_Zopp sy (Zpos ay))) as [|p|p] eqn:Ediff;
      cbn [binary_normalize].
    + intros _.
      assert (Heq : cond_Zopp sx (Zpos ax) = cond_Zopp sy (Zpos ay)) by lia.
      apply cond_Zopp_inj in Heq. destruct Heq as (-> & ->).
      rewrite Hvy' in Hvx'.
      replace ex' with (Z.min ex ey) in Hvx' by lia.
      replace ey' with (Z.min ex ey) in Hvx' by lia.
      destruct (canonical_unique mx my ex ey Hcx Hcy (eq_sym Hvx')) as (-> & ->).
      apply eqb_place; reflexivity.
    + rewrite binary_round_nonzero by lia. discriminate.
    + rewrite binary_round_nonzero by lia. discriminate.
Qed.

(** [x - y] is a zero when [x == y]. *)
Lemma sub_eq_zero (x y : float) :
  F64.is_finite x = true -> F64.is_finite y = true ->
  F64.eqb x y = true -> F64.is_zero (F64.sub x y) = true.
Proof.
  intros Hfx Hfy Heq.
  apply eqb_place in Heq; [|destruct x; auto; discriminate|destruct y; auto; discriminate].
  destruct x as [sx|sx| |sx mx ex]; try discriminate;
  destruct y as [sy|sy| |sy my ey]; try discriminate.
  - destruct sx, sy; reflexivity.
  - destruct sy; discriminate.
  - destruct sx; discriminate.
  - assert (Hsame : sx = sy /\ mx = my /\ ex = ey).
    { destruct sx, sy; simpl in Heq; try discriminate;
        injection Heq as He Hm; repeat split; lia. }
    destruct Hsame as (-> & -> & ->).
    unfold F64.sub, SFsub. rewrite Z.sub_diag. reflexivity.
Qed.

(** Whatever the guarded range is, it is not a zero: the division by
    [temp_range] never divides by zero. *)
Lemma temp_range_not_zero (min_temp_all max_temp_all : float) :
  F64.is_zero (temp_range_of min_temp_all max_temp_all) = false.
Proof.
  unfold temp_range_of.
  destruct (F64.eqb (F64.sub max_temp_all min_temp_all) (F64.of_int 0)) eqn:E;
    [reflexivity|].
  destruct (F64.sub max_temp_all min_temp_all) as [[|]| | |]; try reflexivity; discriminate.
Qed.

Lemma eqb_0_is_zero (x : float) : F64.eqb x (F64.of_int 0) = true -> F64.is_zero x = true.
Proof. destruct x as [[|]|[|]| |[|] m e]; try discriminate; reflexivity. Qed.

(* ================================================================= *)
(** * The column computation stays finite *)

Lemma to_int_finite (x : float) :
  F64.is_finite x = true -> exists z, F64.to_int x = Ok z.
Proof. destruct x; try discriminate; simpl; eauto. Qed.

(** [float(k)] for a positive integer below [2^53]. *)
Lemma of_int_bounds (k : Z) :
  0 < k < 2 ^ 53 ->
  exists m e,
    F64.of_int k = S754_finite false m e /\
    -53 <= e <= 1 /\
    Zdigits2 k <= Zdigits2 (Zpos m) + e <= Zdigits2 k + 1.
Proof.
  intros (Hk & Hlt). destruct k as [|p|p]; try lia.
  unfold F64.of_int, binary_normalize, binary_round.
  assert (Hd : 1 <= Zdigits2 (Zpos p) <= 53).
  { split; [simpl; lia | apply Zdigits2_le; lia]. }
  destruct (shl_align_spec p 0 (fexp F64.prec F64.emax (Zpos (digits2_pos p) + 0)))
    as (mz & ez & Heq & Hez & Hmz).
  rewrite Heq. rewrite fexp_64 in Hez. simpl Zdigits2 in Hd.
  assert (Hdz : Zdigits2 (Zpos mz) + ez = Zpos (digits2_pos p)).
  { rewrite Hmz, Zdigits2_mul_pow2 by lia. simpl Zdigits2. lia. }
  destruct (binary_round_aux_spec false (Zpos mz) ez loc_Exact ltac:(lia))
    as (m3 & e2 & Hres & _ & Hlo & Hhi & Hdhi & Hpos).
  destruct (Hpos ltac:(lia) ltac:(lia)) as (Hm3 & Hdlo).
  rewrite Hres. destruct m3 as [|q|q]; try lia.
  destruct (Z.leb_spec e2 971); [|lia].
  exists q, e2. simpl Zdigits2 in *. repeat split; lia.
Qed.

Lemma Zdigits2_mul_le (a b : Z) :
  0 < a -> 0 < b -> Zdigits2 (a * b) <= Zdigits2 a + Zdigits2 b.
Proof.
  intros Ha Hb.
  destruct (Zdigits2_bounds a Ha) as (_ & Ha').
  destruct (Zdigits2_bounds b Hb) as (_ & Hb').
  pose proof (Zdigits2_nonneg a). pose proof (Zdigits2_nonneg b).
  apply Zdigits2_le; [|lia]. rewrite Z.pow_add_r by lia. nia.
Qed.

Lemma Zdigits2_quot_le (a b : Z) :
  0 < a -> 0 < b -> Zdigits2 (a / b) <= Z.max (Zdigits2 a - Zdigits2 b + 1) 0.
Proof.
  intros Ha Hb.
  destruct (Zdigits2_bounds a Ha) as (_ & Ha').
  destruct (Zdigits2_bounds b Hb) as (Hb' & _).
  pose proof (Zdigits2_nonneg a) as Hda.
  assert (Hdb : 1 <= Zdigits2 b) by (destruct b; simpl; lia).
  assert (Hq : 0 <= a / b) by (apply Z.div_pos; lia).
  assert (Hqb : a / b * b <= a) by (rewrite Z.mul_comm; apply Z.mul_div_le; lia).
  apply Zdigits2_le; [|lia]. split; [assumption|].
  destruct (Z.le_gt_cases 0 (Zdigits2 a - Zdigits2 b + 1)) as [Hge|Hneg].
  - rewrite Z.max_l by lia.
    destruct (Z.lt_ge_cases (a / b) (2 ^ (Zdigits2 a - Zdigits2 b + 1))) as [|Hbig];
      [assumption|exfalso].
    assert (Hpow : 2 ^ (Zdigits2 a - Zdigits2 b + 1) * 2 ^ (Zdigits2 b - 1)
                   = 2 ^ Zdigits2 a).
    { rewrite <- Z.pow_add_r by lia. f_equal. lia. }
    assert (0 < 2 ^ (Zdigits2 b - 1)) by (apply Z.pow_pos_nonneg; lia).
    assert (0 < 2 ^ (Zdigits2 a - Zdigits2 b + 1)) by (apply Z.pow_pos_nonneg; lia).
    nia.
  - rewrite Z.max_r by lia. simpl.
    assert (Hsmall : a / b = 0).
    { apply Z.div_small. split; [lia|].
      eapply Z.lt_le_trans; [exact Ha'|]. eapply Z.le_trans; [|exact Hb'].
      apply Z.pow_le_mono_r; lia. }
    lia.
Qed.

(** The quotient computed by [SFdiv_core_binary]. *)
Lemma div_core_bounds (mx my : positive) (ex ey : Z) :
  exists q e' l,
    SFdiv_core_binary F64.prec F64.emax (Zpos mx) ex (Zpos my) ey = (q, e', l) /\
    0 <= q /\ e' <= ex - ey /\
    Zdigits2 q + e' <=
      Z.max (Zdigits2 (Zpos mx) + ex - (Zdigits2 (Zpos my) + ey) + 1) e'.
Proof.
  unfold SFdiv_core_binary.
  set (e' := Z.min _ (ex - ey)).
  assert (He' : e' <= ex - ey) by (subst e'; lia).
  set (s := ex - ey - e').
  assert (Hs : 0 <= s) by (subst s; lia).
  set (m' := match s with Zpos _ => Z.shiftl (Zpos mx) s | Z0 => Zpos mx | Zneg _ => 0 end).
  assert (Hm' : m' = Zpos mx * 2 ^ s).
  { subst m'. destruct s as [|p|p] eqn:Es; try lia.
    now rewrite Z.shiftl_mul_pow2 by lia. }
  rewrite (surjective_pairing (Z.div_eucl m' (Zpos my))).
  change (fst (Z.div_eucl m' (Zpos my))) with (m' / Zpos my).
  eexists _, e', _. split; [reflexivity|].
  assert (Hpos : 0 < m') by (rewrite Hm'; apply Z.mul_pos_pos; [lia|];
                             apply Z.pow_pos_nonneg; lia).
  split; [apply Z.div_pos; lia|]. split; [assumption|].
  pose proof (Zdigits2_quot_le m' (Zpos my) Hpos ltac:(lia)) as Hq.
  rewrite Hm', Zdigits2_mul_pow2 in Hq by lia.
  rewrite <- Hm' in Hq. subst s. lia.
Qed.

(** A quotient of two floats in the range of the integers below [2^53]
    is finite, and so is its product with a small integer. *)
Lemma div_small_finite (sx sy : bool) (mx my : positive) (ex ey : Z) :
  -53 <= ex <= 1 -> -53 <= ey <= 1 ->
  Zdigits2 (Zpos mx) + ex <= Zdigits2 (Zpos my) + ey + 1 ->
  F64.is_finite (F64.mul
     (SFdiv F64.prec F64.emax (S754_finite sx mx ex) (S754_finite sy my ey))
     (F64.of_int (chart_width - 1))) = true.
Proof.
  intros Hex Hey Hd. unfold SFdiv.
  destruct (div_core_bounds mx my ex ey) as (q & e' & l & Hcore & Hq & He' & Hdq).
  rewrite Hcore.
  destruct (binary_round_aux_spec (xorb sx sy) q e' l Hq)
    as (m3 & e2 & Hres & Hm3 & Hlo & Hhi & Hdhi & _).
  rewrite Hres. destruct m3 as [|mq|mq]; try lia; [reflexivity|].
  destruct (Z.leb_spec e2 971); [|lia].
  (* the product with [chart_width - 1 = 49] *)
  change (F64.of_int (chart_width - 1)) with (S754_finite false 6896136929411072 (-47)).
  unfold F64.mul, SFmul.
  destruct (binary_round_aux_spec (xorb (xorb sx sy) false)
              (Zpos (mq * 6896136929411072)) (e2 + -47) loc_Exact ltac:(lia))
    as (m4 & e4 & Hres' & Hm4 & _ & Hhi' & _ & _).
  rewrite Hres'.
  pose proof (Zdigits2_mul_le (Zpos mq) 6896136929411072 ltac:(lia) ltac:(lia)) as Hmul.
  change (Zdigits2 6896136929411072) with 53 in Hmul.
  rewrite Pos2Z.inj_mul in Hhi'.
  destruct m4 as [|m4|m4]; try lia; [reflexivity|].
  destruct (Z.leb_spec e4 971); [reflexivity | lia].
Qed.

(** No day index makes the column computation raise. *)
Lemma column_pos_total (i n : Z) :
  0 <= i < n -> n <= 2 ^ 53 -> exists col, column_pos_of i n = Ok col.
Proof.
  intros Hi Hn. unfold column_pos_of.
  destruct (Z.ltb_spec 1 n) as [Hgt|Hle]; [|simpl; eauto].
  destruct (of_int_bounds (n - 1) ltac:(lia)) as (my & ey & Hy & Hey & Hdy).
  rewrite Hy. unfold F64.truediv. cbn [F64.is_zero bind].
  assert (Hfin : F64.is_finite (F64.mul
            (SFdiv F64.prec F64.emax (F64.of_int i) (S754_finite false my ey))
            (F64.of_int (chart_width - 1))) = true).
  { destruct (Z.eq_dec i 0) as [->|Hne]; [reflexivity|].
    destruct (of_int_bounds i ltac:(lia)) as (mx & ex & Hx & Hex & Hdx).
    rewrite Hx. apply div_small_finite; try assumption.
    assert (Zdigits2 i <= Zdigits2 (n - 1)) by (apply Zdigits2_mono; lia). lia. }
  destruct (to_int_finite _ Hfin) as (z & Hz). rewrite Hz. simpl. eauto.
Qed.

(* ================================================================= *)
(** * [display_forecast] runs to the end *)

Lemma mapM_total {A B : Type} (f : A -> result B) (xs : list A) :
  Forall (fun x => exists y, f x = Ok y) xs -> exists ys, mapM f xs = Ok ys.
Proof.
  induction 1 as [|x xs (y & Hy) _ (ys & IH)]; simpl; [eauto|].
  rewrite Hy, IH. simpl. eauto.
Qed.

Lemma get_weather_emoji_Ok (icon : json) :
  hashable icon = true -> exists emoji, _get_weather_emoji icon = Ok emoji.
Proof.
  intros Hh. unfold _get_weather_emoji.
  change (dict_getitem WEATHER_ICONS "unknown") with (@Ok string "❓").
  cbv beta iota delta [bind].
  destruct icon; try discriminate; eauto.
  destruct (lookup s WEATHER_ICONS); eauto.
Qed.

Lemma forecast_panel_Ok (day : DailyForecast.t) :
  day_printable day -> exists panel, forecast_panel day = Ok panel.
Proof.
  intros (Hh & label & Hl). unfold forecast_panel.
  destruct (get_weather_emoji_Ok _ Hh) as (emoji & ->). simpl. rewrite Hl. simpl. eauto.
Qed.

Lemma plot_day_completes (min_temp_all temp_range : float) (n i row col : Z)
    (day : DailyForecast.t) (label : string)
    (chart : list (list string)) (out : list printed) :
  scaled_temp_of (DailyForecast.avg_temp day) min_temp_all temp_range = Ok row ->
  column_pos_of i n = Ok col ->
  day_number day = Ok label ->
  chart_ok chart ->
  exists chart' out',
    plot_day min_temp_all temp_range n chart (i, day) out = (Ok chart', out').
Proof.
  intros Hrow Hcol Hlabel (Hlen & Hwidth).
  pose proof (scaled_temp_range _ _ _ _ Hrow) as Hr.
  pose proof (column_pos_range _ _ _ Hcol) as Hc.
  unfold chart_height, chart_width in *.
  destruct (list_getitem_Ok chart (8 - 1 - row) ltac:(lia)) as (line & Hline).
  assert (Hlw : List.length line = Z.to_nat 50).
  { rewrite Forall_forall in Hwidth. apply Hwidth.
    apply list_getitem_nth in Hline; [|lia]. eapply nth_error_In; eauto. }
  destruct (list_setitem_Ok line col marker ltac:(lia)) as (line' & Hline').
  destruct (list_setitem_Ok chart (8 - 1 - row) line' ltac:(lia)) as (chart' & Hchart').
  unfold plot_day, cbind, lift, print, cret, chart_height.
  rewrite Hrow, Hcol, Hline, Hline', Hchart', Hlabel. eauto.
Qed.

Lemma plot_loop_completes (min_temp_all temp_range : float) (n : Z)
    (days : list DailyForecast.t) :
  forall (i0 : Z) (chart : list (list string)) (out : list printed),
    (forall k day, nth_error days k = Some day ->
       (exists row, scaled_temp_of (DailyForecast.avg_temp day) min_temp_all temp_range
                      = Ok row) /\
       (exists col, column_pos_of (i0 + Z.of_nat k) n = Ok col) /\
       (exists label, day_number day = Ok label)) ->
    chart_ok chart ->
    exists chart' out',
      cfold (plot_day min_temp_all temp_range n) (enumerate_from i0 days) chart out
        = (Ok chart', out').
Proof.
  induction days as [|day days IH]; intros i0 chart out Hdays Hok;
    cbn [cfold enumerate_from].
  - unfold cret. eauto.
  - destruct (Hdays 0%nat day eq_refl) as ((row & Hrow) & (col & Hcol) & (label & Hlabel)).
    rewrite Z.add_0_r in Hcol.
    destruct (plot_day_completes _ _ _ _ _ _ _ _ _ out Hrow Hcol Hlabel Hok)
      as (chart1 & out1 & Hstep).
    destruct (plot_day_Ok _ _ _ _ _ _ _ _ _ Hstep Hok) as (_ & _ & _ & _ & Hok1 & _).
    unfold cbind at 1. rewrite Hstep.
    apply IH; [|assumption].
    intros k d Hk. specialize (Hdays (S k) d Hk).
    replace (i0 + 1 + Z.of_nat k) with (i0 + Z.of_nat (S k)) by lia. exact Hdays.
Qed.

Lemma display_forecast_completes (data : ForecastData.t) (min_temp_all max_temp_all : float) :
  py_min (map DailyForecast.min_temp (ForecastData.daily_forecasts data))
    = Ok min_temp_all ->
  py_max (map DailyForecast.max_temp (ForecastData.daily_forecasts data))
    = Ok max_temp_all ->
  Forall day_printable (ForecastData.daily_forecasts data) ->
  Z.of_nat (List.length (ForecastData.daily_forecasts data)) <= 2 ^ 53 ->
  (forall day, In day (ForecastData.daily_forecasts data) ->
     exists row, scaled_temp_of (DailyForecast.avg_temp day) min_temp_all
                   (temp_range_of min_temp_all max_temp_all) = Ok row) ->
  exists out, display_forecast data [] = (Ok tt, out).
Proof.
  intros Hmin Hmax Hprint Hlen Hrows.
  destruct (mapM_total forecast_panel (ForecastData.daily_forecasts data))
    as (panels & Hpanels).
  { eapply Forall_impl; [|exact Hprint]. apply forecast_panel_Ok. }
  destruct (mapM_total day_number (ForecastData.daily_forecasts data))
    as (labels & Hlabels).
  { eapply Forall_impl; [|exact Hprint]. intros d (_ & Hl). exact Hl. }
  assert (Hloop : forall out, exists chart out1,
            cfold (plot_day min_temp_all (temp_range_of min_temp_all max_temp_all)
                     (Z.of_nat (List.length (ForecastData.daily_forecasts data))))
              (enumerate_from 0 (ForecastData.daily_forecasts data))
              (repeat (repeat blank (Z.to_nat chart_width)) (Z.to_nat chart_height)) out
            = (Ok chart, out1)).
  { intros out. apply plot_loop_completes; [|apply blank_chart_ok].
    intros k day Hk. split; [|split].
    - apply Hrows. eapply nth_error_In; eauto.
    - apply column_pos_total; [|assumption].
      assert (k < List.length (ForecastData.daily_forecasts data))%nat
        by (apply nth_error_Some; congruence). lia.
    - rewrite Forall_forall in Hprint. apply Hprint. eapply nth_error_In; eauto. }
  unfold display_forecast, cbind, lift, print.
  rewrite Hmin, Hmax, Hpanels. unfold enumerate.
  match goal with
  | |- context [cfold (plot_day _ _ _) _ _ ?o] =>
      destruct (Hloop o) as (chart & out1 & ->)
  end.
  rewrite print_lines_Ok, Hlabels. eauto.
Qed.

Lemma finite_not_nan (x : float) : F64.is_finite x = true -> not_nan x.
Proof. destruct x; try discriminate; reflexivity. Qed.

Lemma eqb_leb (x y : float) :
  not_nan x -> not_nan y -> F64.eqb x y = true ->
  F64.leb x y = true /\ F64.leb y x = true.
Proof.
  intros Hx Hy H. apply eqb_place in H; auto.
  split; apply leb_place; auto.
Qed.

Lemma scaled_temp_of_equal (avg_temp min_temp_all : float) :
  F64.is_zero (F64.sub avg_temp min_temp_all) = true ->
  scaled_temp_of avg_temp min_temp_all (F64.of_int 1) = Ok 0.
Proof.
  unfold scaled_temp_of. destruct (F64.sub avg_temp min_temp_all) as [[|]| | |];
    try discriminate; reflexivity.
Qed.

(* ================================================================= *)
(** * The theorems at the sample documents *)

Lemma min_max_bound_the_samples_witness :
  F64.leb (DailyForecast.min_temp example_second_day)
          (DailyForecast.max_temp example_second_day) = true /\
  F64.truediv
    (py_sum [F64.of_decimal 125 (-1); F64.of_int 10; F64.of_decimal 75 (-1)])
    (F64.of_int 3)
  = Ok (DailyForecast.avg_temp example_second_day).
Proof.
  refine (proj2 (proj2 (proj2
    (min_max_bound_the_samples example_response example_forecast example_second_day
       example_items [F64.of_decimal 125 (-1); F64.of_int 10; F64.of_decimal 75 (-1)]
       _ _ _ _ _)))).
  - vm_compute. reflexivity.
  - simpl. tauto.
  - reflexivity.
  - vm_compute. reflexivity.
  - repeat constructor.
Defined.

Lemma description_and_icon_are_first_modes_witness :
  (exists m, is_first_mode m ["cloudy"; "rainy"; "cloudy"] /\
             DailyForecast.description cloudy_day = capitalize m) /\
  (exists m, is_first_mode m ["03d"; "10d"; "03d"] /\
             DailyForecast.icon cloudy_day = JStr m).
Proof.
  refine (proj1 description_and_icon_are_first_modes cloudy_rainy_cloudy cloudy_forecast
            cloudy_day cloudy_items ["cloudy"; "rainy"; "cloudy"] ["03d"; "10d"; "03d"]
            _ _ _ _ _).
  - vm_compute. reflexivity.
  - simpl. tauto.
  - reflexivity.
  - vm_compute. reflexivity.
  - vm_compute. reflexivity.
Defined.

Lemma chart_row_is_truncated_witness :
  exists min_temp_all max_temp_all q scaled_temp col,
    py_min (map DailyForecast.min_temp (ForecastData.daily_forecasts five_days))
      = Ok min_temp_all /\
    py_max (map DailyForecast.max_temp (ForecastData.daily_forecasts five_days))
      = Ok max_temp_all /\
    F64.truediv (F64.sub (F64.of_int 20) min_temp_all)
      (temp_range_of min_temp_all max_temp_all) = Ok q /\
    F64.to_int (F64.mul q (F64.of_int (chart_height - 1))) = Ok scaled_temp /\
    0 <= Z.max 0 (Z.min scaled_temp (chart_height - 1)) <= chart_height - 1 /\
    column_pos_of 2 5 = Ok col /\
    cell (chart_lines_of five_days_output)
      (chart_height - 1 - Z.max 0 (Z.min scaled_temp (chart_height - 1))) col
      = Some marker.
Proof.
  refine (proj1 chart_row_is_truncated five_days five_days_output 2%nat
            (day_of "2024-01-03" 15 25 20) _ _).
  - vm_compute. reflexivity.
  - reflexivity.
Defined.

Lemma chart_column_is_truncated_witness :
  exists min_temp_all max_temp_all row col,
    py_min (map DailyForecast.min_temp (ForecastData.daily_forecasts five_days))
      = Ok min_temp_all /\
    py_max (map DailyForecast.max_temp (ForecastData.daily_forecasts five_days))
      = Ok max_temp_all /\
    scaled_temp_of (F64.of_int 25) min_temp_all
      (temp_range_of min_temp_all max_temp_all) = Ok row /\
    cell (chart_lines_of five_days_output) (chart_height - 1 - row) col = Some marker /\
    0 <= col <= chart_width - 1 /\
    (5 = 1 -> col = 0) /\
    (1 < 5 ->
     exists q column_pos,
       F64.truediv (F64.of_int 3) (F64.of_int (5 - 1)) = Ok q /\
       F64.to_int (F64.mul q (F64.of_int (chart_width - 1))) = Ok column_pos /\
       col = Z.max 0 (Z.min column_pos (chart_width - 1))).
Proof.
  refine (chart_column_is_truncated five_days five_days_output 3%nat
            (day_of "2024-01-04" 20 30 25) _ _).
  - vm_compute. reflexivity.
  - reflexivity.
Defined.


Lemma missing_field_is_parse_failure_witness :
  get_current_weather (Some (remove_field [KStr "main"] "temp" current_response))
    = ParseFailure (KStr "temp") /\
  get_five_day_forecast (Some (remove_field [KStr "city"] "name" example_response))
    = ParseFailure (KStr "name") /\
  get_five_day_forecast
    (Some (remove_field [KStr "list"; KInt 2; KStr "main"] "temp" example_response))
    = ParseFailure (KStr "temp").
Proof.
  destruct missing_field_is_parse_failure as (Hcurrent & Hforecast & Hsample & _).
  split; [|split].
  - refine (Hcurrent current_response current_weather_data [KStr "main"] "temp" _ _).
    + simpl. tauto.
    + vm_compute. reflexivity.
  - refine (Hforecast example_response example_forecast [KStr "city"] "name" _ _).
    + simpl. tauto.
    + vm_compute. reflexivity.
  - refine (Hsample example_response example_forecast example_items 2%nat
              [KStr "list"; KInt 2; KStr "main"] "temp" _ _ _ _).
    + vm_compute. reflexivity.
    + reflexivity.
    + simpl. lia.
    + simpl. tauto.
Defined.

(* ================================================================= *)
(** * Further properties of the client *)

Lemma split_head (sep : ascii) (s : string) :
  exists d rest,
    split sep s = d :: rest /\ free_of sep d /\
    ((s = d /\ rest = []) \/ exists t, s = (d ++ String sep t)%string /\ rest = split sep t).
Proof.
  induction s as [|c s IH]; simpl.
  - exists "", []. split; [reflexivity|]. split; [intros []|]. now left.
  - destruct (Ascii.eqb_spec c sep) as [->|Hne].
    + exists "", (split sep s). split; [reflexivity|]. split; [intros []|].
      right. now exists s.
    + destruct IH as (d & rest & -> & Hfree & Hs).
      exists (String c d), rest. split; [reflexivity|]. split.
      * intros [H|H]; [congruence | now apply Hfree].
      * destruct Hs as [[-> ->]|(t & -> & ->)]; [now left|].
        right. now exists t.
Qed.

Lemma split_length (sep : ascii) (s : string) :
  List.length (split sep s) = S (occurrences sep s).
Proof.
  induction s as [|c s IH]; simpl; [reflexivity|].
  destruct (Ascii.eqb c sep); simpl; [now rewrite IH|].
  destruct (split sep s); simpl in *; [discriminate | exact IH].
Qed.

Lemma firsts_In (ss : list string) :
  forall seen d, In d (firsts seen ss) <-> In d ss /\ ~ In d seen.
Proof.
  induction ss as [|s ss IH]; intros seen d; simpl; [tauto|].
  destruct (in_dec string_dec s seen) as [Hin|Hnin].
  - rewrite IH. split; [tauto|]. intros [[->|H] Hn]; tauto.
  - simpl. rewrite IH, in_app_iff. simpl.
    destruct (string_dec s d) as [->|Hne]; [tauto|]. tauto.
Qed.

Lemma firsts_length (ss : list string) :
  forall seen, (List.length (firsts seen ss) <= List.length ss)%nat.
Proof.
  induction ss as [|s ss IH]; intros seen; simpl; [lia|].
  destruct (in_dec string_dec s seen); simpl.
  - specialize (IH seen). lia.
  - specialize (IH (seen ++ [s])). lia.
Qed.

Lemma mapM_Ok_In {A B : Type} (f : A -> result B) (xs : list A) (ys : list B) (x : A) :
  mapM f xs = Ok ys -> In x xs -> exists y, f x = Ok y /\ In y ys.
Proof.
  intros H. apply mapM_Ok_Forall2 in H.
  induction H as [|x' y' xs ys Hx _ IH]; simpl; intros Hin; [contradiction|].
  destruct Hin as [->|Hin]; [eauto|].
  destruct (IH Hin) as (y & ? & ?); eauto.
Qed.

Lemma list_getitem_head {A : Type} (x : A) (rest : list A) :
  list_getitem (x :: rest) 0 = Ok x.
Proof.
  unfold list_getitem. cbn [Z.ltb Z.compare List.length].
  replace ((0 <=? 0) && (0 <? Z.of_nat (S (List.length rest)))) with true; [reflexivity|].
  symmetry. apply andb_true_iff. split; [reflexivity | apply Z.ltb_lt; lia].
Qed.

(** X1. The date under which a sample is grouped is the text of its
    [dt_txt] before the first space, and the whole text when it holds no
    space: [date_of] never fails on a sample whose [dt_txt] is a string. *)
Theorem date_is_text_before_first_space (item : json) (s : string) :
  (Ok item).["dt_txt"] = Ok (JStr s) ->
  exists d,
    date_of item = Ok d /\ free_of " " d /\
    (s = d \/ exists t, s = (d ++ String " " t)%string).
Proof.
  intros H. unfold date_of. rewrite H. cbn [bind split_method].
  destruct (split_head " " s) as (d & rest & -> & Hfree & Hs).
  exists d. split; [apply list_getitem_head|]. split; [exact Hfree|].
  destruct Hs as [[-> _]|(t & -> & _)]; [now left | right; now exists t].
Qed.

Lemma date_is_text_before_first_space_witness :
  exists d,
    date_of (sample "2024-01-02 03:00:00" (F64.of_int 10) "rainy" "10d") = Ok d /\
    free_of " " d /\
    ("2024-01-02 03:00:00" = d \/ exists t, "2024-01-02 03:00:00" = (d ++ String " " t)%string).
Proof.
  apply (date_is_text_before_first_space
           (sample "2024-01-02 03:00:00" (F64.of_int 10) "rainy" "10d")
           "2024-01-02 03:00:00").
  reflexivity.
Defined.

Lemma sort_by_date_In (l : list DailyForecast.t) (d : DailyForecast.t) :
  In d (sort_by_date l) <-> In d l.
Proof.
  split; intros H.
  - eapply Permutation_in; [apply sort_by_date_perm | exact H].
  - eapply Permutation_in; [apply Permutation_sym, sort_by_date_perm | exact H].
Qed.

Lemma forecast_groups (data : json) (fd : ForecastData.t) (items : list json) :
  get_five_day_forecast (Some data) = Returned fd ->
  forecast_items data = Ok items ->
  exists dates days,
    mapM date_of items = Ok dates /\
    mapM (fun g => aggregate_day (fst g) (snd g))
      (map (fun d => (d, samples_of_day items d)) (firsts [] dates)) = Ok days /\
    map DailyForecast.date days = firsts [] dates /\
    ForecastData.daily_forecasts fd = sort_by_date days.
Proof.
  intros H Hitems.
  destruct (forecast_returned _ _ H) as (d & items' & groups & days & Hd & Hi & Hg & Hm & Hs).
  injection Hd as <-. rewrite Hitems in Hi. injection Hi as <-.
  destruct (group_fold_dates items [] groups Hg) as (dates & Hdates & Hkeys).
  pose proof (group_by_day_fun _ _ _ Hg Hdates) as ->.
  exists dates, days. repeat split; try assumption.
  rewrite (forecast_dates_distinct _ _ Hm), map_map. simpl. apply map_id.
Qed.

(** X2. In a forecast that is returned, every sample has a date, the
    dates of the days are exactly the dates of the samples, and there are
    no more days than samples: nothing limits the forecast to five days. *)
Theorem forecast_days_are_the_sample_dates
    (data : json) (fd : ForecastData.t) (items : list json) :
  get_five_day_forecast (Some data) = Returned fd ->
  forecast_items data = Ok items ->
  (forall item, In item items -> exists d, date_of item = Ok d) /\
  (forall d, In d (map DailyForecast.date (ForecastData.daily_forecasts fd)) <->
             exists item, In item items /\ date_of item = Ok d) /\
  (List.length (ForecastData.daily_forecasts fd) <= List.length items)%nat /\
  (items <> [] -> ForecastData.daily_forecasts fd <> []).
Proof.
  intros H Hitems.
  destruct (forecast_groups _ _ _ H Hitems) as (dates & days & Hdates & Hdays & Hkeys & Hsort).
  assert (Hin : forall d, In d (map DailyForecast.date (ForecastData.daily_forecasts fd)) <->
                          In d dates).
  { intros d. rewrite Hsort. split.
    - intros Hd. apply in_map_iff in Hd. destruct Hd as (day & <- & Hday).
      apply (proj1 (sort_by_date_In _ _)) in Hday.
      assert (Hk : In (DailyForecast.date day) (firsts [] dates))
        by (rewrite <- Hkeys; apply in_map; exact Hday).
      now apply (proj1 (firsts_In _ _ _)) in Hk.
    - intros Hd. assert (Hk : In d (firsts [] dates)) by (apply (proj2 (firsts_In _ _ _)); auto).
      rewrite <- Hkeys in Hk. apply in_map_iff in Hk. destruct Hk as (day & <- & Hday).
      apply in_map. now apply (proj2 (sort_by_date_In _ _)). }
  split; [|split; [|split]].
  - intros item Hitem. destruct (mapM_Ok_In _ _ _ _ Hdates Hitem) as (d & Hd & _). eauto.
  - intros d. rewrite Hin. split.
    + intros Hd. destruct (mapM_In _ _ _ _ Hdates Hd) as (item & ? & ?). eauto.
    + intros (item & Hitem & Hd).
      destruct (mapM_Ok_In _ _ _ _ Hdates Hitem) as (d' & Hd' & Hin').
      rewrite Hd in Hd'. injection Hd' as <-. exact Hin'.
  - rewrite Hsort.
    rewrite (Permutation_length (sort_by_date_perm days)).
    rewrite <- (length_map DailyForecast.date), Hkeys.
    rewrite <- (mapM_length _ _ _ Hdates). apply firsts_length.
  - intros Hne. destruct items as [|item items']; [congruence|].
    destruct (mapM_Ok_In _ _ _ _ Hdates (or_introl eq_refl)) as (d & Hd & Hind).
    apply (proj2 (Hin _)) in Hind. intros Hnil. rewrite Hnil in Hind. destruct Hind.
Qed.

Lemma forecast_days_are_the_sample_dates_witness :
  (forall item, In item example_items -> exists d, date_of item = Ok d) /\
  (forall d, In d (map DailyForecast.date (ForecastData.daily_forecasts example_forecast)) <->
             exists item, In item example_items /\ date_of item = Ok d) /\
  (List.length (ForecastData.daily_forecasts example_forecast) <= List.length example_items)%nat /\
  (example_items <> [] -> ForecastData.daily_forecasts example_forecast <> []).
Proof.
  apply (forecast_days_are_the_sample_dates example_response); vm_compute; reflexivity.
Defined.

Lemma Counter_fold_hashable (xs : list json) :
  forall acc c,
    foldM (fun c x => if hashable x then Ok (counter_add x c) else Raise TypeError) xs acc
      = Ok c ->
    Forall (fun x => hashable x = true) xs.
Proof.
  induction xs as [|x xs IH]; simpl; intros acc c H; [constructor|].
  destruct (hashable x) eqn:Hx; simpl in H; [|discriminate].
  constructor; [exact Hx | eapply IH; eassumption].
Qed.

Lemma most_common_key_hashable (xs : list json) (k : json) :
  most_common_key xs = Ok k -> Forall (fun x => hashable x = true) xs.
Proof.
  unfold most_common_key. intros H.
  destruct (Counter xs) as [c|e] eqn:Hc; simpl in H; [|discriminate].
  eapply Counter_fold_hashable. exact Hc.
Qed.

Lemma samples_of_day_In (items : list json) (item : json) (d : string) :
  In item items -> date_of item = Ok d -> In item (samples_of_day items d).
Proof.
  intros Hin Hd. apply filter_In. split; [exact Hin|].
  unfold on_date. rewrite Hd. apply String.eqb_refl.
Qed.

(** X3. A forecast is returned only if every sample of the response is
    complete and well typed: its temperature is a number, and its
    description and icon can be counted.  One malformed sample is enough
    for the whole forecast to be lost. *)
Theorem returned_forecast_samples_are_well_formed
    (data : json) (fd : ForecastData.t) (items : list json) (item : json) :
  get_five_day_forecast (Some data) = Returned fd ->
  forecast_items data = Ok items ->
  In item items ->
  (exists x t, temp_of item = Ok x /\ as_number x = Ok t) /\
  (exists ds, description_of item = Ok ds /\ hashable ds = true) /\
  (exists ic, icon_of item = Ok ic /\ hashable ic = true).
Proof.
  intros H Hitems Hitem.
  destruct (forecast_groups _ _ _ H Hitems) as (dates & days & Hdates & Hdays & Hkeys & _).
  destruct (mapM_Ok_In _ _ _ _ Hdates Hitem) as (d & Hd & Hind).
  assert (Hg : In (d, samples_of_day items d)
                 (map (fun d => (d, samples_of_day items d)) (firsts [] dates))).
  { apply in_map_iff. exists d. split; [reflexivity|].
    apply (proj2 (firsts_In _ _ _)). auto. }
  destruct (mapM_Ok_In _ _ _ _ Hdays Hg) as (day & Hday & _). simpl in Hday.
  destruct (aggregate_day_inv _ _ _ Hday)
    as (descriptions & icons & temps & top & Hds & Hics & Htemps & Htop & _ & Hicon & _).
  pose proof (samples_of_day_In _ _ _ Hitem Hd) as Hs.
  split; [|split].
  - unfold sample_temps in Htemps.
    destruct (mapM temp_of (samples_of_day items d)) as [raw|e] eqn:Hraw;
      simpl in Htemps; [|discriminate].
    destruct (mapM_Ok_In _ _ _ _ Hraw Hs) as (x & Hx & Hxin).
    destruct (mapM_Ok_In _ _ _ _ Htemps Hxin) as (t & Ht & _).
    exists x, t. auto.
  - destruct (mapM_Ok_In _ _ _ _ Hds Hs) as (ds & Hx & Hxin).
    exists ds. split; [exact Hx|].
    pose proof (most_common_key_hashable _ _ Htop) as Hall.
    rewrite Forall_forall in Hall. now apply Hall.
  - destruct (mapM_Ok_In _ _ _ _ Hics Hs) as (ic & Hx & Hxin).
    exists ic. split; [exact Hx|].
    pose proof (most_common_key_hashable _ _ Hicon) as Hall.
    rewrite Forall_forall in Hall. now apply Hall.
Qed.

Lemma returned_forecast_samples_are_well_formed_witness :
  let item := sample "2024-01-02 03:00:00" (F64.of_decimal 100 (-1)) "rainy" "10d" in
  (exists x t, temp_of item = Ok x /\ as_number x = Ok t) /\
  (exists ds, description_of item = Ok ds /\ hashable ds = true) /\
  (exists ic, icon_of item = Ok ic /\ hashable ic = true).
Proof.
  apply (returned_forecast_samples_are_well_formed example_response example_forecast
           example_items).
  - vm_compute; reflexivity.
  - reflexivity.
  - simpl. tauto.
Defined.

Lemma subscript_truthy (data : json) (k : string) (x : json) :
  (Ok data).[k] = Ok x -> truthy data = true.
Proof.
  intros H. destruct (subscript_str_Ok _ _ _ H) as (fields & Hd & Hl).
  injection Hd as ->. eapply truthy_obj; eassumption.
Qed.

(** X4. Only [get_five_day_forecast] catches every exception.  In
    [get_current_weather] an exception other than [KeyError] leaves the
    function: a response that has the fields read before it and an empty
    [weather] array raises [IndexError], and one whose weather description
    is not a string raises [AttributeError]. *)
Theorem current_weather_lets_exceptions_escape :
  (forall data e, get_five_day_forecast data <> Uncaught e) /\
  (forall data city country temp feels_like humidity,
     (Ok data).["name"] = Ok city ->
     (Ok data).["sys"].["country"] = Ok country ->
     (Ok data).["main"].["temp"] = Ok temp ->
     (Ok data).["main"].["feels_like"] = Ok feels_like ->
     (Ok data).["main"].["humidity"] = Ok humidity ->
     (Ok data).["weather"] = Ok (JArr []) ->
     get_current_weather (Some data) = Uncaught IndexError) /\
  (forall data city country temp feels_like humidity d,
     (Ok data).["name"] = Ok city ->
     (Ok data).["sys"].["country"] = Ok country ->
     (Ok data).["main"].["temp"] = Ok temp ->
     (Ok data).["main"].["feels_like"] = Ok feels_like ->
     (Ok data).["main"].["humidity"] = Ok humidity ->
     (Ok data).["weather"].[0].["description"] = Ok d ->
     (forall s, d <> JStr s) ->
     get_current_weather (Some data) = Uncaught AttributeError).
Proof.
  split; [|split].
  - intros [data|] e; simpl; [|discriminate].
    destruct (truthy data); [|discriminate].
    destruct (parse_forecast data) as [fd|[]]; discriminate.
  - intros data city country temp feels_like humidity Hn Hc Ht Hf Hh Hw.
    unfold get_current_weather. rewrite (subscript_truthy _ _ _ Hn).
    unfold parse_current_weather. rewrite Hn, Hc, Ht, Hf, Hh, Hw. reflexivity.
  - intros data city country temp feels_like humidity d Hn Hc Ht Hf Hh Hd Hs.
    unfold get_current_weather. rewrite (subscript_truthy _ _ _ Hn).
    unfold parse_current_weather. rewrite Hn, Hc, Ht, Hf, Hh, Hd.
    destruct d; try reflexivity. now destruct (Hs s).
Qed.

Lemma current_weather_lets_exceptions_escape_witness :
  get_current_weather (Some no_weather_response) = Uncaught IndexError /\
  get_current_weather
    (Some (in_field "weather" (fun _ => JArr [JObj [("description", JNum (F64.of_int 800))]])
             current_response))
    = Uncaught AttributeError.
Proof.
  destruct current_weather_lets_exceptions_escape as (_ & Hempty & Hdescr).
  split.
  - refine (Hempty no_weather_response (JStr "Paris") (JStr "FR")
              (JNum (F64.of_decimal 125 (-1))) (JNum (F64.of_decimal 118 (-1)))
              (JNum (F64.of_int 70)) _ _ _ _ _ _); reflexivity.
  - refine (Hdescr _ (JStr "Paris") (JStr "FR")
              (JNum (F64.of_decimal 125 (-1))) (JNum (F64.of_decimal 118 (-1)))
              (JNum (F64.of_int 70)) (JNum (F64.of_int 800)) _ _ _ _ _ _ _);
      try reflexivity.
    intros s; discriminate.
Defined.

(* ================================================================= *)
(** * Further properties of the forecast display *)

Lemma appends_cret {A : Type} (a : A) : appends (cret a).
Proof. intros out. unfold cret. simpl. now rewrite app_nil_r. Qed.

Lemma appends_lift {A : Type} (r : result A) : appends (lift r).
Proof. intros out. unfold lift. simpl. now rewrite app_nil_r. Qed.

Lemma appends_print (p : printed) : appends (print p).
Proof. intros out. reflexivity. Qed.

Lemma appends_cbind {A B : Type} (c : console A) (k : A -> console B) :
  appends c -> (forall a, appends (k a)) -> appends (cbind c k).
Proof.
  intros Hc Hk out. unfold cbind. rewrite (Hc out).
  destruct (c []) as [[a|e] o1]; simpl.
  - rewrite (Hk a (out ++ o1)), (Hk a o1). simpl. now rewrite app_assoc.
  - reflexivity.
Qed.

Lemma appends_cfold {A S : Type} (body : S -> A -> console S) (xs : list A) :
  (forall s x, appends (body s x)) -> forall s, appends (cfold body xs s).
Proof.
  intros Hbody. induction xs as [|x xs IH]; intros s; simpl.
  - apply appends_cret.
  - apply appends_cbind; [apply Hbody | exact IH].
Qed.

Lemma appends_plot_day (min_temp_all temp_range : float) (n : Z)
    (chart : list (list string)) (iday : Z * DailyForecast.t) :
  appends (plot_day min_temp_all temp_range n chart iday).
Proof.
  destruct iday as [i day]. unfold plot_day.
  repeat (apply appends_cbind; [first [apply appends_lift | apply appends_print]|intros]).
  apply appends_cret.
Qed.

Lemma display_forecast_appends (data : ForecastData.t) : appends (display_forecast data).
Proof.
  unfold display_forecast.
  repeat first
    [ apply appends_print | apply appends_lift | apply appends_cret
    | apply appends_cfold; intros; first [apply appends_plot_day | apply appends_print]
    | apply appends_cbind; [|intros] ].
Qed.

Lemma plot_day_label (min_temp_all temp_range : float) (n i : Z) (day : DailyForecast.t)
    (chart chart' : list (list string)) (out out' : list printed) :
  plot_day min_temp_all temp_range n chart (i, day) out = (Ok chart', out') ->
  exists label, trend_label day = Ok label /\ out' = out ++ [label].
Proof.
  unfold plot_day. intros H. inv_console H.
  apply cret_Ok in H. destruct H as (_ & ->).
  unfold trend_label. rewrite E4. simpl. eauto.
Qed.

Lemma plot_loop_labels (min_temp_all temp_range : float) (n : Z) (days : list DailyForecast.t) :
  forall (i0 : Z) (chart chart' : list (list string)) (out out' : list printed),
    cfold (plot_day min_temp_all temp_range n) (enumerate_from i0 days) chart out
      = (Ok chart', out') ->
    exists labels, mapM trend_label days = Ok labels /\ out' = out ++ labels.
Proof.
  induction days as [|day days IH]; intros i0 chart chart' out out' H; simpl in H.
  - apply cret_Ok in H. destruct H as (_ & ->). exists []. now rewrite app_nil_r.
  - inv_console H.
    destruct (plot_day_label _ _ _ _ _ _ _ _ _ E) as (label & Hlabel & ->).
    destruct (IH _ _ _ _ _ H) as (labels & Hlabels & ->).
    exists (label :: labels). simpl. rewrite Hlabel, Hlabels. simpl.
    now rewrite <- app_assoc.
Qed.

(** X6. What a completed [display_forecast] has printed, in order: the
    overview panel, one panel per day in a row, a newline, the
    visualization panel, one label per day, the eight chart lines of fifty
    characters, the day numbers, the caption and a newline.  The forecast
    has at least one day. *)
Theorem display_forecast_output (data : ForecastData.t) (out : list printed) :
  display_forecast data [] = (Ok tt, out) ->
  exists panels labels chart date_labels,
    out = [ OverviewPanel (ForecastData.city data) (ForecastData.country data);
            ForecastColumns panels; Newline; VisualizationPanel ]
          ++ labels ++ map ChartLine chart
          ++ [DateLabels date_labels; DaysCaption; Newline] /\
    mapM forecast_panel (ForecastData.daily_forecasts data) = Ok panels /\
    mapM trend_label (ForecastData.daily_forecasts data) = Ok labels /\
    mapM day_number (ForecastData.daily_forecasts data) = Ok date_labels /\
    chart_ok chart /\
    ForecastData.daily_forecasts data <> [].
Proof.
  unfold display_forecast. intros H. inv_console H.
  rewrite print_lines_Ok in E3. injection E3 as _ <-.
  apply print_Ok in H. subst out.
  destruct (plot_loop_Ok _ _ _ _ _ _ _ _ _ E2 blank_chart_ok) as (Hok & _).
  destruct (plot_loop_labels _ _ _ _ _ _ _ _ _ E2) as (labels & Hlabels & ->).
  exists v1, labels, v2, v4. repeat split; try assumption.
  - simpl. rewrite <- !app_assoc. reflexivity.
  - apply Hok.
  - apply Hok.
  - intros Hnil. rewrite Hnil in E. discriminate.
Qed.

Lemma display_forecast_output_witness :
  exists panels labels chart date_labels,
    five_days_output =
          [ OverviewPanel (ForecastData.city five_days) (ForecastData.country five_days);
            ForecastColumns panels; Newline; VisualizationPanel ]
          ++ labels ++ map ChartLine chart
          ++ [DateLabels date_labels; DaysCaption; Newline] /\
    mapM forecast_panel (ForecastData.daily_forecasts five_days) = Ok panels /\
    mapM trend_label (ForecastData.daily_forecasts five_days) = Ok labels /\
    mapM day_number (ForecastData.daily_forecasts five_days) = Ok date_labels /\
    chart_ok chart /\
    ForecastData.daily_forecasts five_days <> [].
Proof.
  apply (display_forecast_output five_days five_days_output).
  vm_compute. reflexivity.
Defined.

(** A finite number divided by itself is exactly 1.0. *)
Lemma div_self (s : bool) (m : positive) (e : Z) :
  SFdiv F64.prec F64.emax (S754_finite s m e) (S754_finite s m e) = F64.of_int 1.
Proof.
  rewrite of_int_1. unfold SFdiv, SFdiv_core_binary.
  rewrite fexp_64.
  replace (Zdigits2 (Zpos m) + e - (Zdigits2 (Zpos m) + e)) with 0 by lia.
  replace (e - e - Z.min (Z.max (0 - 53) (-1074)) (e - e)) with 53 by lia.
  replace (Z.min (Z.max (0 - 53) (-1074)) (e - e)) with (-53) by lia.
  cbv beta iota.
  assert (Hdiv : Z.div_eucl (Z.shiftl (Zpos m) 53) (Zpos m) = (2 ^ 53, 0)).
  { rewrite (surjective_pairing (Z.div_eucl _ _)).
    change (fst (Z.div_eucl ?a ?b)) with (a / b).
    change (snd (Z.div_eucl ?a ?b)) with (a mod b).
    rewrite Z.shiftl_mul_pow2 by lia.
    rewrite (Z.mul_comm (Zpos m)).
    rewrite Z.div_mul by lia. rewrite Z.mod_mul by lia. reflexivity. }
  rewrite Hdiv. cbv beta iota.
  replace (new_location (Zpos m) 0) with loc_Exact.
  - destruct s; vm_compute; reflexivity.
  - unfold new_location. destruct (Z.even (Zpos m)).
    + unfold new_location_even. reflexivity.
    + unfold new_location_odd. reflexivity.
Qed.

Lemma column_pos_first (n : Z) :
  1 <= n <= 2 ^ 53 -> column_pos_of 0 n = Ok 0.
Proof.
  intros Hn. unfold column_pos_of.
  destruct (Z.ltb_spec 1 n) as [Hgt|Hle]; [|reflexivity].
  destruct (of_int_bounds (n - 1) ltac:(lia)) as (my & ey & Hy & _).
  rewrite Hy. reflexivity.
Qed.

Lemma column_pos_last (n : Z) :
  2 <= n <= 2 ^ 53 -> column_pos_of (n - 1) n = Ok (chart_width - 1).
Proof.
  intros Hn. unfold column_pos_of.
  destruct (Z.ltb_spec 1 n) as [Hgt|Hle]; [|lia].
  destruct (of_int_bounds (n - 1) ltac:(lia)) as (my & ey & Hy & _).
  rewrite Hy. unfold F64.truediv. cbn [F64.is_zero bind].
  rewrite div_self. reflexivity.
Qed.

(** X7. In a completed chart of at most [2^53] days the marker of the
    first day is in the first column, and with two days or more the marker
    of the last day is in the last column: the days span the whole width
    of the chart. *)
Theorem first_and_last_day_span_the_chart
    (data : ForecastData.t) (out : list printed) (first last : DailyForecast.t)
    (between : list DailyForecast.t) :
  display_forecast data [] = (Ok tt, out) ->
  ForecastData.daily_forecasts data = first :: between ++ [last] ->
  Z.of_nat (List.length (ForecastData.daily_forecasts data)) <= 2 ^ 53 ->
  exists min_temp_all max_temp_all row_first row_last,
    py_min (map DailyForecast.min_temp (ForecastData.daily_forecasts data))
      = Ok min_temp_all /\
    py_max (map DailyForecast.max_temp (ForecastData.daily_forecasts data))
      = Ok max_temp_all /\
    scaled_temp_of (DailyForecast.avg_temp first) min_temp_all
      (temp_range_of min_temp_all max_temp_all) = Ok row_first /\
    scaled_temp_of (DailyForecast.avg_temp last) min_temp_all
      (temp_range_of min_temp_all max_temp_all) = Ok row_last /\
    cell (chart_lines_of out) (chart_height - 1 - row_first) 0 = Some marker /\
    cell (chart_lines_of out) (chart_height - 1 - row_last) (chart_width - 1) = Some marker.
Proof.
  intros H Hdays Hn.
  destruct (display_forecast_marks _ _ H) as (lo & hi & Hlo & Hhi & _ & Hmarks & _).
  set (days := ForecastData.daily_forecasts data) in *.
  assert (Hlen : List.length days = S (S (List.length between))).
  { rewrite Hdays. simpl. rewrite length_app. simpl. lia. }
  destruct (Hmarks 0%nat first) as (r1 & c1 & Hr1 & Hc1 & Hm1).
  { rewrite Hdays. reflexivity. }
  destruct (Hmarks (S (List.length between)) last) as (r2 & c2 & Hr2 & Hc2 & Hm2).
  { rewrite Hdays. simpl. rewrite nth_error_app2 by lia.
    now rewrite Nat.sub_diag. }
  simpl Z.of_nat in Hc1. rewrite column_pos_first in Hc1 by lia.
  injection Hc1 as <-.
  replace (Z.of_nat (S (List.length between))) with (Z.of_nat (List.length days) - 1)
    in Hc2 by lia.
  rewrite column_pos_last in Hc2 by lia. injection Hc2 as <-.
  exists lo, hi, r1, r2. auto 10.
Qed.

Lemma first_and_last_day_span_the_chart_witness :
  exists min_temp_all max_temp_all row_first row_last,
    py_min (map DailyForecast.min_temp (ForecastData.daily_forecasts five_days))
      = Ok min_temp_all /\
    py_max (map DailyForecast.max_temp (ForecastData.daily_forecasts five_days))
      = Ok max_temp_all /\
    scaled_temp_of (F64.of_int 12) min_temp_all
      (temp_range_of min_temp_all max_temp_all) = Ok row_first /\
    scaled_temp_of (F64.of_int 23) min_temp_all
      (temp_range_of min_temp_all max_temp_all) = Ok row_last /\
    cell (chart_lines_of five_days_output) (chart_height - 1 - row_first) 0 = Some marker /\
    cell (chart_lines_of five_days_output) (chart_height - 1 - row_last) (chart_width - 1)
      = Some marker.
Proof.
  apply (first_and_last_day_span_the_chart five_days five_days_output
           (day_of "2024-01-01" 10 14 12) (day_of "2024-01-05" 18 28 23)
           [ day_of "2024-01-02" 12 18 15; day_of "2024-01-03" 15 25 20;
             day_of "2024-01-04" 20 30 25 ]).
  - vm_compute. reflexivity.
  - reflexivity.
  - vm_compute. discriminate.
Defined.

Lemma day_number_short (day : DailyForecast.t) :
  (occurrences "-" (DailyForecast.date day) < 2)%nat ->
  day_number day = Raise IndexError.
Proof.
  intros H. unfold day_number, list_getitem. rewrite split_length.
  cbn [Z.ltb Z.compare].
  replace (2 <? Z.of_nat (S (occurrences "-" (DailyForecast.date day)))) with false.
  - reflexivity.
  - symmetry. apply Z.ltb_ge. lia.
Qed.

Lemma day_number_Ok_or_IndexError (day : DailyForecast.t) :
  (exists label, day_number day = Ok label) \/ day_number day = Raise IndexError.
Proof.
  unfold day_number, list_getitem. cbn [Z.ltb Z.compare].
  destruct ((0 <=? 2) && (2 <? Z.of_nat (List.length (split "-" (DailyForecast.date day)))));
    [|now right].
  destruct (nth_error _ _); [left; eauto | now right].
Qed.

Lemma mapM_Raise_same {A B : Type} (f : A -> result B) (e : exn) (xs : list A) :
  Forall (fun x => (exists y, f x = Ok y) \/ f x = Raise e) xs ->
  Exists (fun x => f x = Raise e) xs ->
  mapM f xs = Raise e.
Proof.
  induction xs as [|x xs IH]; intros Hall Hex; [inversion Hex|].
  inversion Hall as [|? ? Hx Hrest]; subst. simpl.
  destruct Hx as [(y & Hy)|Hx]; [|now rewrite Hx].
  rewrite Hy. simpl.
  inversion Hex as [? ? Hx|? ? Hx]; subst; [congruence|].
  now rewrite (IH Hrest Hx).
Qed.

(** X8. A date needs two hyphens: when some day's date has fewer, so
    that [date.split('-')[2]] does not exist, [display_forecast] raises
    [IndexError] while it builds the day panels, after printing the
    overview panel only. *)
Theorem date_without_day_number_stops_the_display
    (data : ForecastData.t) (out : list printed) :
  Forall (fun day => hashable (DailyForecast.icon day) = true)
    (ForecastData.daily_forecasts data) ->
  Exists (fun day => (occurrences "-" (DailyForecast.date day) < 2)%nat)
    (ForecastData.daily_forecasts data) ->
  display_forecast data out =
  (Raise IndexError,
   out ++ [OverviewPanel (ForecastData.city data) (ForecastData.country data)]).
Proof.
  intros Hicons Hshort. unfold display_forecast.
  set (days := ForecastData.daily_forecasts data) in *.
  assert (Hpanels : mapM forecast_panel days = Raise IndexError).
  { apply mapM_Raise_same.
    - rewrite Forall_forall in *. intros day Hday. unfold forecast_panel.
      destruct (get_weather_emoji_Ok _ (Hicons day Hday)) as (emoji & ->). simpl.
      destruct (day_number_Ok_or_IndexError day) as [(label & ->)| ->]; simpl; eauto.
    - rewrite Exists_exists in *. destruct Hshort as (day & Hday & Hlt).
      exists day. split; [exact Hday|]. unfold forecast_panel.
      destruct (get_weather_emoji_Ok day.(DailyForecast.icon)) as (emoji & ->).
      + rewrite Forall_forall in Hicons. now apply Hicons.
      + simpl. now rewrite day_number_short. }
  destruct days as [|day days'] eqn:Hdays; [inversion Hshort|].
  unfold cbind, print, lift. simpl py_min. simpl py_max. cbv beta iota.
  rewrite Hpanels. reflexivity.
Qed.

Lemma date_without_day_number_stops_the_display_witness :
  display_forecast
    (ForecastData.make (JStr "Paris") (JStr "FR") [day_of "2024-01" 10 14 12]) [] =
  (Raise IndexError, [] ++ [OverviewPanel (JStr "Paris") (JStr "FR")]).
Proof.
  apply (date_without_day_number_stops_the_display
           (ForecastData.make (JStr "Paris") (JStr "FR") [day_of "2024-01" 10 14 12]) []).
  - repeat constructor.
  - constructor. simpl. lia.
Defined.

(* ================================================================= *)
(** * The current-weather table *)

(** Discharges [plain] and [plain_value] on a literal. *)
Ltac plain_text := vm_compute; intuition discriminate.

Lemma upper_char_bracket (c : ascii) : upper_char c = "["%char -> c = "["%char.
Proof.
  destruct c as [[|] [|] [|] [|] [|] [|] [|] [|]]; vm_compute; congruence.
Qed.

Lemma lower_char_bracket (c : ascii) : lower_char c = "["%char -> c = "["%char.
Proof.
  destruct c as [[|] [|] [|] [|] [|] [|] [|] [|]]; vm_compute; congruence.
Qed.

Lemma lower_plain (s : string) : plain s -> plain (lower s).
Proof.
  unfold plain, free_of. induction s as [|c s IH]; simpl; [tauto|].
  intros Hfree [H|H].
  - apply Hfree. left. now apply lower_char_bracket.
  - apply IH; [tauto | exact H].
Qed.

(** Changing the case of letters brings no bracket into a text. *)
Lemma capitalize_plain (s : string) : plain s -> plain (capitalize s).
Proof.
  destruct s as [|c s]; [tauto|]. intros Hfree [H|H].
  - apply Hfree. left. now apply upper_char_bracket.
  - apply (lower_plain s); [|exact H]. intros Hin. apply Hfree. now right.
Qed.

Lemma format_1f_number (v : json) (x : float) :
  as_number v = Ok x -> CurrentWeather.format_1f v = Ok x.
Proof. destruct v; simpl; congruence. Qed.

Lemma format_1f_not_number (v : json) (e : exn) :
  as_number v = Raise e ->
  CurrentWeather.format_1f v = Raise ValueError \/
  CurrentWeather.format_1f v = Raise TypeError.
Proof. destruct v; simpl; intros H; try discriminate; auto. Qed.

Lemma get_weather_emoji_unhashable (icon : json) :
  hashable icon = false -> _get_weather_emoji icon = Raise TypeError.
Proof. destruct icon; simpl; intros H; try discriminate; reflexivity. Qed.

(** X9. [display_current_weather] prints all or nothing.  The data can
    be pasted into the table: the city, the country, the description, the
    humidity and the pressure are plain, and no number is beyond the
    binary64 range.  When the temperature, the felt temperature and the
    wind speed are numbers and the icon can be looked up, the method
    appends the panel with the table and a newline; otherwise it raises
    [ValueError] or [TypeError] before anything is printed. *)
Theorem display_current_weather_all_or_nothing
    (data : WeatherData.t) (out : list CurrentWeather.printed) :
  table_plain data ->
  (forall t f w,
     as_number (WeatherData.temperature data) = Ok t ->
     as_number (WeatherData.feels_like data) = Ok f ->
     as_number (WeatherData.wind_speed data) = Ok w ->
     hashable (WeatherData.icon data) = true ->
     exists emoji,
       _get_weather_emoji (WeatherData.icon data) = Ok emoji /\
       CurrentWeather.display_current_weather data out =
       (Ok tt,
        out ++ [ CurrentWeather.CurrentConditions
                   (CurrentWeather.make_table
                      (WeatherData.city data) (WeatherData.country data)
                      t emoji f (WeatherData.description data)
                      (WeatherData.humidity data) w (WeatherData.pressure data));
                 CurrentWeather.Newline ])) /\
  (forall e out',
     CurrentWeather.display_current_weather data out = (Raise e, out') ->
     out' = out /\ (e = ValueError \/ e = TypeError) /\
     ((exists e', as_number (WeatherData.temperature data) = Raise e') \/
      (exists e', as_number (WeatherData.feels_like data) = Raise e') \/
      (exists e', as_number (WeatherData.wind_speed data) = Raise e') \/
      hashable (WeatherData.icon data) = false)).
Proof.
  intros _. split.
  - intros t f w Ht Hf Hw Hi.
    destruct (get_weather_emoji_Ok _ Hi) as (emoji & Hemoji).
    exists emoji. split; [exact Hemoji|].
    unfold CurrentWeather.display_current_weather, CurrentWeather.build_table.
    rewrite (format_1f_number _ _ Ht), Hemoji, (format_1f_number _ _ Hf),
      (format_1f_number _ _ Hw). reflexivity.
  - unfold CurrentWeather.display_current_weather, CurrentWeather.build_table.
    intros e out'.
    destruct (as_number (WeatherData.temperature data)) as [t|e1] eqn:Ht.
    2:{ destruct (format_1f_not_number _ _ Ht) as [-> | ->]; simpl;
          intros H; injection H as <- <-; eauto 10. }
    rewrite (format_1f_number _ _ Ht). cbn [bind].
    destruct (hashable (WeatherData.icon data)) eqn:Hi.
    2:{ rewrite (get_weather_emoji_unhashable _ Hi). simpl.
        intros H; injection H as <- <-. eauto 10. }
    destruct (get_weather_emoji_Ok _ Hi) as (emoji & ->). cbn [bind].
    destruct (as_number (WeatherData.feels_like data)) as [f|e1] eqn:Hf.
    2:{ destruct (format_1f_not_number _ _ Hf) as [-> | ->]; simpl;
          intros H; injection H as <- <-; eauto 10. }
    rewrite (format_1f_number _ _ Hf). cbn [bind].
    destruct (as_number (WeatherData.wind_speed data)) as [w|e1] eqn:Hw.
    2:{ destruct (format_1f_not_number _ _ Hw) as [-> | ->]; simpl;
          intros H; injection H as <- <-; eauto 10. }
    rewrite (format_1f_number _ _ Hw). cbn [bind]. discriminate.
Qed.

Lemma display_current_weather_all_or_nothing_witness :
  exists emoji,
    _get_weather_emoji (JStr "10d") = Ok emoji /\
    CurrentWeather.display_current_weather current_weather_data [] =
    (Ok tt,
     [] ++ [ CurrentWeather.CurrentConditions
               (CurrentWeather.make_table (JStr "Paris") (JStr "FR")
                  (F64.of_decimal 125 (-1)) emoji (F64.of_decimal 118 (-1)) "Light rain"
                  (JNum (F64.of_int 70)) (F64.of_decimal 41 (-1)) (JNum (F64.of_int 1013)));
             CurrentWeather.Newline ]).
Proof.
  destruct (display_current_weather_all_or_nothing current_weather_data []) as (Hall & _).
  - repeat split; try plain_text;
      intros t Ht; vm_compute in Ht; injection Ht as <-; reflexivity.
  - apply (Hall (F64.of_decimal 125 (-1)) (F64.of_decimal 118 (-1)) (F64.of_decimal 41 (-1)));
      reflexivity.
Defined.

Lemma current_weather_returned (data : json)
    (city country temp feels_like humidity icon speed pressure : json) (descr : string) :
  current_weather_reads data city country temp feels_like humidity (JStr descr) icon
    speed pressure ->
  get_current_weather (Some data) =
  Returned (WeatherData.make city country temp feels_like humidity (capitalize descr)
              icon speed pressure).
Proof.
  intros (Hn & Hc & Ht & Hf & Hh & Hd & Hi & Hs & Hp).
  unfold get_current_weather. rewrite (subscript_truthy _ _ _ Hn).
  unfold parse_current_weather. rewrite Hn, Hc, Ht, Hf, Hh, Hd, Hi, Hs, Hp. reflexivity.
Qed.

Lemma table_plain_make
    (city country temp feels_like humidity icon speed pressure : json)
    (descr : string) (t f w : float) :
  as_number temp = Ok t -> as_number feels_like = Ok f -> as_number speed = Ok w ->
  F64.is_finite t = true -> F64.is_finite f = true -> F64.is_finite w = true ->
  plain_value city -> plain_value country -> plain descr ->
  plain_value humidity -> plain_value pressure ->
  table_plain (WeatherData.make city country temp feels_like humidity (capitalize descr)
                 icon speed pressure).
Proof.
  intros Ht Hf Hw Hft Hff Hfw Hcity Hcountry Hdescr Hhum Hpres.
  unfold table_plain, finite_number.
  cbn [WeatherData.temperature WeatherData.icon WeatherData.feels_like
       WeatherData.wind_speed WeatherData.city WeatherData.country
       WeatherData.description WeatherData.humidity WeatherData.pressure].
  repeat split; try assumption; try (now apply capitalize_plain);
    intros x Hx; congruence.
Qed.

(** X10. A current-weather response with the nine fields, whose
    description and icon are strings, whose temperature, felt temperature
    and wind speed are finite numbers, and whose city, country,
    description, humidity and pressure are plain, is returned and
    displayed: the data returned can be pasted into the table, and the
    table shows the values of the response, the description capitalised
    and the emoji of the icon. *)
Theorem current_weather_is_returned_and_shown
    (data city country temp feels_like humidity speed pressure : json)
    (descr icon : string) (t f w : float) (out : list CurrentWeather.printed) :
  current_weather_reads data city country temp feels_like humidity (JStr descr) (JStr icon)
    speed pressure ->
  as_number temp = Ok t -> as_number feels_like = Ok f -> as_number speed = Ok w ->
  F64.is_finite t = true -> F64.is_finite f = true -> F64.is_finite w = true ->
  plain_value city -> plain_value country -> plain descr ->
  plain_value humidity -> plain_value pressure ->
  exists wd emoji,
    get_current_weather (Some data) = Returned wd /\
    table_plain wd /\
    _get_weather_emoji (JStr icon) = Ok emoji /\
    CurrentWeather.display_current_weather wd out =
    (Ok tt,
     out ++ [ CurrentWeather.CurrentConditions
                (CurrentWeather.make_table city country t emoji f (capitalize descr)
                   humidity w pressure);
              CurrentWeather.Newline ]).
Proof.
  intros Hreads Ht Hf Hw Hft Hff Hfw Hcity Hcountry Hdescr Hhum Hpres.
  destruct (get_weather_emoji_Ok (JStr icon) eq_refl) as (emoji & Hemoji).
  eexists. exists emoji.
  split; [apply (current_weather_returned _ _ _ _ _ _ _ _ _ _ Hreads)|].
  split; [now apply (table_plain_make city country temp feels_like humidity (JStr icon)
                       speed pressure descr t f w)|].
  split; [exact Hemoji|].
  unfold CurrentWeather.display_current_weather, CurrentWeather.build_table.
  cbn [WeatherData.temperature WeatherData.icon WeatherData.feels_like
       WeatherData.wind_speed WeatherData.city WeatherData.country
       WeatherData.description WeatherData.humidity WeatherData.pressure].
  rewrite (format_1f_number _ _ Ht), Hemoji, (format_1f_number _ _ Hf),
    (format_1f_number _ _ Hw). reflexivity.
Qed.

Lemma current_weather_is_returned_and_shown_witness :
  exists wd emoji,
    get_current_weather (Some current_response) = Returned wd /\
    table_plain wd /\
    _get_weather_emoji (JStr "10d") = Ok emoji /\
    CurrentWeather.display_current_weather wd [] =
    (Ok tt,
     [] ++ [ CurrentWeather.CurrentConditions
               (CurrentWeather.make_table (JStr "Paris") (JStr "FR")
                  (F64.of_decimal 125 (-1)) emoji (F64.of_decimal 118 (-1))
                  (capitalize "light rain")
                  (JNum (F64.of_int 70)) (F64.of_decimal 41 (-1)) (JNum (F64.of_int 1013)));
             CurrentWeather.Newline ]).
Proof.
  apply (current_weather_is_returned_and_shown current_response
           (JStr "Paris") (JStr "FR") (JNum (F64.of_decimal 125 (-1)))
           (JNum (F64.of_decimal 118 (-1))) (JNum (F64.of_int 70))
           (JNum (F64.of_decimal 41 (-1))) (JNum (F64.of_int 1013))
           "light rain" "10d");
    first [reflexivity | repeat split; reflexivity | plain_text].
Defined.

(** X11. The client checks no type: a temperature given as a string is
    returned in the [WeatherData] as it is, and it is
    [display_current_weather] that raises [ValueError] on it, before
    anything is printed. *)
Theorem string_temperature_fails_at_display
    (data city country feels_like humidity icon speed pressure : json)
    (descr temp : string) (out : list CurrentWeather.printed) :
  current_weather_reads data city country (JStr temp) feels_like humidity (JStr descr) icon
    speed pressure ->
  exists wd,
    get_current_weather (Some data) = Returned wd /\
    WeatherData.temperature wd = JStr temp /\
    CurrentWeather.display_current_weather wd out = (Raise ValueError, out).
Proof.
  intros Hreads. eexists.
  split; [apply (current_weather_returned _ _ _ _ _ _ _ _ _ _ Hreads)|].
  split; reflexivity.
Qed.

Lemma string_temperature_fails_at_display_witness :
  exists wd,
    get_current_weather
      (Some (in_field "main" (in_field "temp" (fun _ => JStr "12.5")) current_response))
      = Returned wd /\
    WeatherData.temperature wd = JStr "12.5" /\
    CurrentWeather.display_current_weather wd [] = (Raise ValueError, []).
Proof.
  apply (string_temperature_fails_at_display
           (in_field "main" (in_field "temp" (fun _ => JStr "12.5")) current_response)
           (JStr "Paris") (JStr "FR") (JNum (F64.of_decimal 118 (-1))) (JNum (F64.of_int 70))
           (JStr "10d") (JNum (F64.of_decimal 41 (-1))) (JNum (F64.of_int 1013))
           "light rain" "12.5").
  repeat split; reflexivity.
Defined.

(* ================================================================= *)
(** * The session of [main] *)

Lemma loop_completed_turns (before rest : list Main.turn) :
  Forall turn_completes before ->
  Main.loop (before ++ rest) =
  (written before ++ fst (Main.loop rest), snd (Main.loop rest)).
Proof.
  induction before as [|t before IH]; intros Hall.
  - simpl. now destruct (Main.loop rest).
  - inversion Hall as [|? ? (Hexit & Hq) Hrest]; subst.
    cbn [app Main.loop]. rewrite Hexit.
    destruct (Main.query t) as [out [e|]] eqn:Hquery; simpl in Hq; [discriminate|].
    rewrite (IH Hrest). unfold written. cbn [map List.concat]. rewrite Hquery. cbn [fst snd].
    now rewrite app_assoc.
Qed.

(** X12. The session of [main].  Without an API key (unset or empty)
    nothing is asked and the program exits with status 1.  With a key, as
    long as no exception leaves the loop body, the session writes what the
    turns write one after the other and ends at the first answer that is
    [exit] in any letter case; the answers after it are never read.  With
    no such answer the session ends when the input does. *)
Theorem session_ends_at_first_exit :
  (forall turns,
     Main.main None turns = ([Main.WelcomePanel; Main.ConfigurationErrorPanel], Main.Exited 1) /\
     Main.main (Some "") turns
       = ([Main.WelcomePanel; Main.ConfigurationErrorPanel], Main.Exited 1)) /\
  (forall c key before last rest,
     Forall turn_completes before ->
     Main.is_exit (Main.answer last) = true ->
     Main.main (Some (String c key)) (before ++ last :: rest) =
     (Main.WelcomePanel :: written before ++ [Main.GoodbyePanel], Main.Finished)) /\
  (forall c key before,
     Forall turn_completes before ->
     Main.main (Some (String c key)) before =
     (Main.WelcomePanel :: written before, Main.EndOfInput)).
Proof.
  split; [|split].
  - intros turns. split; reflexivity.
  - intros c key before last rest Hall Hexit. unfold Main.main.
    rewrite (loop_completed_turns _ _ Hall). cbn [Main.loop]. rewrite Hexit. reflexivity.
  - intros c key before Hall. unfold Main.main.
    rewrite <- (app_nil_r before) at 1.
    rewrite (loop_completed_turns _ _ Hall). simpl. now rewrite app_nil_r.
Qed.

Lemma session_ends_at_first_exit_witness :
  Main.main (Some "key") atlantis_then_exit =
  ( [ Main.WelcomePanel;
      Main.Fetching "Atlantis"; Main.NoCurrentWeather "Atlantis";
      Main.NoForecast "Atlantis"; Main.Separator;
      Main.GoodbyePanel ],
    Main.Finished ).
Proof.
  destruct session_ends_at_first_exit as (_ & Hexit & _).
  apply (Hexit "k"%char "ey" [Main.make_turn "Atlantis" None None]
           (Main.make_turn "EXIT" None None)
           [Main.make_turn "Paris" (Some current_response) (Some example_response)]).
  - constructor; [split; reflexivity | constructor].
  - reflexivity.
Defined.

Lemma forecast_without_samples (data name country : json) :
  (Ok data).["list"] = Ok (JArr []) ->
  (Ok data).["city"].["name"] = Ok name ->
  (Ok data).["city"].["country"] = Ok country ->
  get_five_day_forecast (Some data) = Returned (ForecastData.make name country []).
Proof.
  intros Hl Hn Hc. unfold get_five_day_forecast.
  rewrite (subscript_truthy _ _ _ Hl). unfold parse_forecast.
  rewrite Hl. cbn [bind iterate group_by_day foldM mapM sort_by_date fold_right].
  rewrite Hn, Hc. reflexivity.
Qed.

(** X13. A forecast response whose [list] is empty ends the session:
    [get_five_day_forecast] returns a forecast without days, [main] hands
    it to [display_forecast], and the [ValueError] of [min] on no day
    leaves [main] after the overview panel; no later answer is read.  The
    answer of the turn is plain, and so is what is shown of the current
    weather. *)
Theorem empty_forecast_list_crashes_the_session
    (c : ascii) (key : string) (before rest : list Main.turn) (t : Main.turn)
    (data name country : json) (shown : list Main.event) :
  Forall turn_completes before ->
  Main.is_exit (Main.answer t) = false ->
  plain (Main.answer t) ->
  current_reply_plain (Main.weather_reply t) ->
  Main.show_current_weather (Main.answer t) (Main.weather_reply t) = (shown, None) ->
  Main.forecast_reply t = Some data ->
  (Ok data).["list"] = Ok (JArr []) ->
  (Ok data).["city"].["name"] = Ok name ->
  (Ok data).["city"].["country"] = Ok country ->
  Main.main (Some (String c key)) (before ++ t :: rest) =
  ( Main.WelcomePanel :: written before
      ++ [Main.Fetching (Main.answer t)] ++ shown
      ++ [Main.Forecast (OverviewPanel name country)],
    Main.Crashed ValueError ).
Proof.
  intros Hall Hexit _ _ Hcur Hreply Hl Hn Hc. unfold Main.main.
  rewrite (loop_completed_turns _ _ Hall). cbn [Main.loop]. rewrite Hexit.
  unfold Main.query. rewrite Hcur, Hreply. unfold Main.show_forecast.
  rewrite (forecast_without_samples _ _ _ Hl Hn Hc). reflexivity.
Qed.

Lemma empty_forecast_list_crashes_the_session_witness :
  Main.main (Some "key") empty_forecast_session =
  ( Main.WelcomePanel :: written []
      ++ [Main.Fetching "Paris"] ++ [Main.NoCurrentWeather "Paris"]
      ++ [Main.Forecast (OverviewPanel (JStr "Paris") (JStr "FR"))],
    Main.Crashed ValueError ).
Proof.
  apply (empty_forecast_list_crashes_the_session "k"%char "ey" []
           [Main.make_turn "exit" None None]
           (Main.make_turn "Paris" None (Some (forecast_response [])))
           (forecast_response []) (JStr "Paris") (JStr "FR") [Main.NoCurrentWeather "Paris"]);
    try reflexivity.
  - constructor.
  - plain_text.
  - intros w Hw. discriminate Hw.
Defined.

(* ================================================================= *)
(** * The forecast of a well-formed response *)

Lemma mapM_strings {A : Type} (f : A -> result json) (xs : list A) :
  Forall (fun x => exists s, f x = Ok (JStr s)) xs ->
  exists ss, mapM f xs = Ok (map JStr ss) /\ List.length ss = List.length xs.
Proof.
  induction 1 as [|x xs (s & Hs) _ (ss & Hss & Hlen)].
  - exists []. auto.
  - exists (s :: ss). simpl. rewrite Hs, Hss. simpl. auto.
Qed.

Lemma mapM_numbers {A : Type} (f : A -> result json) (xs : list A) :
  Forall (fun x => exists y t, f x = Ok y /\ as_number y = Ok t) xs ->
  exists ys ts,
    mapM f xs = Ok ys /\ mapM as_number ys = Ok ts /\ List.length ts = List.length xs.
Proof.
  induction 1 as [|x xs (y & t & Hy & Ht) _ (ys & ts & Hys & Hts & Hlen)].
  - exists [], []. auto.
  - exists (y :: ys), (t :: ts). simpl. rewrite Hy, Hys, Ht, Hts. simpl. auto.
Qed.

Lemma of_int_positive_nonzero (n : Z) : 0 < n -> F64.is_zero (F64.of_int n) = false.
Proof.
  intros Hn. destruct n as [|p|p]; try lia.
  unfold F64.of_int. simpl binary_normalize. apply binary_round_nonzero. lia.
Qed.

Lemma aggregate_day_total (date_str : string) (readings : list json) :
  readings <> [] -> Forall sample_ok readings ->
  exists day, aggregate_day date_str readings = Ok day.
Proof.
  intros Hne Hall.
  assert (Htemps : Forall (fun x => exists y t, temp_of x = Ok y /\ as_number y = Ok t) readings).
  { eapply Forall_impl; [|exact Hall]. intros item (_ & H & _). exact H. }
  assert (Hds : Forall (fun x => exists s, description_of x = Ok (JStr s)) readings).
  { eapply Forall_impl; [|exact Hall]. intros item (_ & _ & H & _). exact H. }
  assert (Hics : Forall (fun x => exists s, icon_of x = Ok (JStr s)) readings).
  { eapply Forall_impl; [|exact Hall]. intros item (_ & _ & _ & H). exact H. }
  destruct (mapM_numbers _ _ Htemps) as (raw & temps & Hraw & Hnum & Hlen).
  destruct (mapM_strings _ _ Hds) as (ds & Hdescr & Hdlen).
  destruct (mapM_strings _ _ Hics) as (ics & Hicons & Hilen).
  assert (Hds_ne : ds <> []) by (destruct ds, readings; simpl in *; congruence).
  assert (Hics_ne : ics <> []) by (destruct ics, readings; simpl in *; congruence).
  destruct (most_common_key_strings ds Hds_ne) as (md & Hmd & _).
  destruct (most_common_key_strings ics Hics_ne) as (mi & Hmi & _).
  unfold aggregate_day. rewrite Hraw, Hdescr, Hicons. cbn [bind].
  rewrite Hmd. cbn [bind capitalize_method]. rewrite Hmi. cbn [bind]. rewrite Hnum. cbn [bind].
  destruct temps as [|t temps]; [destruct readings; simpl in *; congruence|].
  cbn [py_min py_max bind]. unfold F64.truediv.
  rewrite of_int_positive_nonzero by (simpl List.length; lia).
  cbn [bind]. eauto.
Qed.

Lemma sample_ok_date (item : json) : sample_ok item -> exists d, date_of item = Ok d.
Proof.
  intros ((dt & Hdt) & _).
  destruct (split_head " " dt) as (d & rest & Hsplit & _).
  exists d. unfold date_of. rewrite Hdt. cbn [bind split_method]. rewrite Hsplit.
  apply list_getitem_head.
Qed.

Lemma forecast_total (data : json) (items : list json) (name country : json) :
  forecast_items data = Ok items ->
  Forall sample_ok items ->
  (Ok data).["city"].["name"] = Ok name ->
  (Ok data).["city"].["country"] = Ok country ->
  exists dates days,
    mapM date_of items = Ok dates /\
    mapM (fun g => aggregate_day (fst g) (snd g))
      (map (fun d => (d, samples_of_day items d)) (firsts [] dates)) = Ok days /\
    get_five_day_forecast (Some data)
      = Returned (ForecastData.make name country (sort_by_date days)).
Proof.
  intros Hitems Hall Hn Hc.
  destruct (mapM_total date_of items) as (dates & Hdates).
  { eapply Forall_impl; [|exact Hall]. exact sample_ok_date. }
  destruct (group_fold_total items dates Hdates []) as (groups & Hgroups).
  pose proof (group_by_day_fun items groups dates Hgroups Hdates) as Hfun.
  destruct (mapM_total (fun g => aggregate_day (fst g) (snd g)) groups) as (days & Hdays).
  { subst groups. rewrite Forall_forall. intros g Hg.
    apply in_map_iff in Hg. destruct Hg as (d & <- & Hd). cbn [fst snd].
    apply (proj1 (firsts_In _ _ _)) in Hd. destruct Hd as (Hd & _).
    destruct (mapM_In _ _ _ _ Hdates Hd) as (item & Hitem & Hdate).
    apply aggregate_day_total.
    - intros Hnil. pose proof (samples_of_day_In _ _ _ Hitem Hdate) as Hin.
      rewrite Hnil in Hin. destruct Hin.
    - rewrite Forall_forall in *. intros x Hx. apply Hall.
      unfold samples_of_day in Hx. apply filter_In in Hx. tauto. }
  exists dates, days. split; [exact Hdates|]. split; [now rewrite <- Hfun|].
  unfold forecast_items in Hitems.
  destruct ((Ok data).["list"]) as [l|e] eqn:Hl; simpl in Hitems; [|discriminate].
  unfold get_five_day_forecast. rewrite (subscript_truthy _ _ _ Hl).
  unfold parse_forecast. rewrite Hl. cbn [bind]. rewrite Hitems. cbn [bind].
  unfold group_by_day in *. rewrite Hgroups. cbn [bind]. rewrite Hdays. cbn [bind].
  rewrite Hn, Hc. reflexivity.
Qed.

(** X14. A response of up to [2^53] samples that all have a string
    [dt_txt], a number below [2^900] in magnitude for the temperature and
    strings for the description and the icon, and which names the city
    and the country, is turned into a forecast: the function returns a
    [ForecastData] with that city and country, whatever the order of the
    samples. *)
Theorem well_formed_response_gives_a_forecast
    (data : json) (items : list json) (name country : json) :
  forecast_items data = Ok items ->
  Forall sample_ok items ->
  Forall temperature_bounded items ->
  Z.of_nat (List.length items) <= 2 ^ 53 ->
  (Ok data).["city"].["name"] = Ok name ->
  (Ok data).["city"].["country"] = Ok country ->
  exists fd,
    get_five_day_forecast (Some data) = Returned fd /\
    ForecastData.city fd = name /\ ForecastData.country fd = country.
Proof.
  intros Hitems Hall _ _ Hn Hc.
  destruct (forecast_total _ _ _ _ Hitems Hall Hn Hc) as (dates & days & _ & _ & H).
  eexists. split; [exact H|]. split; reflexivity.
Qed.

(* ================================================================= *)
(** * Magnitudes through the arithmetic *)

Lemma below_finite (hi : Z) (x : float) : below hi x -> F64.is_finite x = true.
Proof. destruct x; simpl; tauto. Qed.

Lemma below_le (hi hi' : Z) (x : float) : hi <= hi' -> below hi x -> below hi' x.
Proof. destruct x; cbn [below]; intros; auto; lia. Qed.

Lemma moderate_below (lo hi : Z) (x : float) : moderate lo hi x -> below hi x.
Proof. destruct x; simpl; tauto. Qed.

Lemma round_aux_below (s : bool) (m e : Z) (l : location) (T : Z) :
  0 <= m -> Zdigits2 m + e <= T -> e <= T -> -1074 <= T <= 971 ->
  below (T + 1) (binary_round_aux F64.prec F64.emax s m e l).
Proof.
  intros Hm HD He HT.
  destruct (binary_round_aux_spec s m e l Hm)
    as (m3 & e2 & Hres & Hm3 & Hlo & Hhi & Hdhi & _).
  rewrite Hres. destruct m3 as [|p|p]; try lia; [exact I|].
  destruct (Z.leb_spec e2 971); [|lia]. cbn [below]. lia.
Qed.

(** The result of [binary_normalize] on an integer [M] at exponent [ez]. *)
Lemma normalize_below (M ez T : Z) :
  Zdigits2 (Z.abs M) + ez <= T -> -1074 <= T <= 971 ->
  below (T + 1) (binary_normalize F64.prec F64.emax M ez false).
Proof.
  intros HD HT.
  assert (Hround : forall s p, Zdigits2 (Zpos p) + ez <= T ->
            below (T + 1) (binary_round F64.prec F64.emax s p ez)).
  { intros s p Hp. unfold binary_round.
    destruct (shl_align_spec p ez (fexp F64.prec F64.emax (Zpos (digits2_pos p) + ez)))
      as (mz & ez' & Heq & Hez & Hmz).
    rewrite Heq. rewrite fexp_64 in Hez.
    assert (Hdz : Zdigits2 (Zpos mz) + ez' = Zdigits2 (Zpos p) + ez).
    { rewrite Hmz, Zdigits2_mul_pow2 by lia. lia. }
    change (Zpos (digits2_pos p)) with (Zdigits2 (Zpos p)) in Hez.
    apply round_aux_below; lia. }
  destruct M as [|p|p]; simpl; [exact I| |]; apply Hround; exact HD.
Qed.

Lemma normalize_at_least (M ez T : Z) :
  M <> 0 -> -1074 <= ez -> Zdigits2 (Z.abs M) + ez <= T -> T <= 971 ->
  at_least ez (binary_normalize F64.prec F64.emax M ez false).
Proof.
  intros HM Hez HD HT.
  assert (Hround : forall s p, Zdigits2 (Zpos p) + ez <= T ->
            at_least ez (binary_round F64.prec F64.emax s p ez)).
  { intros s p Hp. unfold binary_round.
    destruct (shl_align_spec p ez (fexp F64.prec F64.emax (Zpos (digits2_pos p) + ez)))
      as (mz & ez' & Heq & Hez' & Hmz).
    rewrite Heq. rewrite fexp_64 in Hez'.
    change (Zpos (digits2_pos p)) with (Zdigits2 (Zpos p)) in Hez'.
    assert (Hd1 : 1 <= Zdigits2 (Zpos p)) by (simpl; lia).
    assert (Hdz : Zdigits2 (Zpos mz) + ez' = Zdigits2 (Zpos p) + ez).
    { rewrite Hmz, Zdigits2_mul_pow2 by lia. lia. }
    destruct (binary_round_aux_spec s (Zpos mz) ez' loc_Exact ltac:(lia))
      as (m3 & e2 & Hres & Hm3 & Hlo & Hhi & Hdhi & Hpos).
    destruct (Hpos ltac:(lia) ltac:(lia)) as (Hm3' & Hdlo).
    rewrite Hres. destruct m3 as [|q|q]; try lia.
    destruct (Z.leb_spec e2 971); [|lia]. cbn [at_least]. lia. }
  destruct M as [|p|p]; simpl; [congruence| |]; apply Hround; exact HD.
Qed.

(** Two mantissas brought to the smaller exponent, then added or
    subtracted. *)
Lemma aligned_digits (sx sy : bool) (mx my : positive) (ex ey T : Z) (sub : bool) :
  Zdigits2 (Zpos mx) + ex <= T -> Zdigits2 (Zpos my) + ey <= T ->
  let ez := Z.min ex ey in
  let a := cond_Zopp sx (Zpos (fst (shl_align mx ex ez))) in
  let b := cond_Zopp sy (Zpos (fst (shl_align my ey ez))) in
  Zdigits2 (Z.abs (if sub then a - b else a + b)) + ez <= T + 1.
Proof.
  intros Hx Hy ez a b.
  destruct (shl_align_spec mx ex ez) as (ax & ex' & Hax & Hex' & Hvx).
  destruct (shl_align_spec my ey ez) as (ay & ey' & Hay & Hey' & Hvy).
  subst a b. rewrite Hax, Hay. cbn [fst].
  assert (Hex : ex' = ez) by (subst ez; lia).
  assert (Hey : ey' = ez) by (subst ez; lia).
  rewrite Hex in Hvx. rewrite Hey in Hvy.
  assert (Hdx : Zdigits2 (Zpos ax) + ez = Zdigits2 (Zpos mx) + ex).
  { rewrite Hvx, Zdigits2_mul_pow2 by (subst ez; lia). lia. }
  assert (Hdy : Zdigits2 (Zpos ay) + ez = Zdigits2 (Zpos my) + ey).
  { rewrite Hvy, Zdigits2_mul_pow2 by (subst ez; lia). lia. }
  destruct (Zdigits2_bounds (Zpos ax) ltac:(lia)) as (_ & Hbx).
  destruct (Zdigits2_bounds (Zpos ay) ltac:(lia)) as (_ & Hby).
  assert (Hk : 0 <= T - ez).
  { pose proof (Zdigits2_nonneg (Zpos ax)). simpl Zdigits2 in *. lia. }
  assert (Hpx : 2 ^ Zdigits2 (Zpos ax) <= 2 ^ (T - ez)) by (apply Z.pow_le_mono_r; lia).
  assert (Hpy : 2 ^ Zdigits2 (Zpos ay) <= 2 ^ (T - ez)) by (apply Z.pow_le_mono_r; lia).
  assert (Hsum : Z.abs (if sub then cond_Zopp sx (Zpos ax) - cond_Zopp sy (Zpos ay)
                        else cond_Zopp sx (Zpos ax) + cond_Zopp sy (Zpos ay))
                 < 2 ^ (T - ez + 1)).
  { rewrite Z.pow_add_r by lia. destruct sub, sx, sy; simpl cond_Zopp; lia. }
  assert (Hd : Zdigits2 (Z.abs (if sub then cond_Zopp sx (Zpos ax) - cond_Zopp sy (Zpos ay)
                                else cond_Zopp sx (Zpos ax) + cond_Zopp sy (Zpos ay)))
               <= T - ez + 1).
  { apply Zdigits2_le; [|lia]. split; [apply Z.abs_nonneg | exact Hsum]. }
  lia.
Qed.

Lemma add_below (T : Z) (x y : float) :
  below T x -> below T y -> -1075 <= T <= 970 -> below (T + 2) (F64.add x y).
Proof.
  intros Hx Hy HT.
  destruct x as [sx|sx| |sx mx ex]; try contradiction;
  destruct y as [sy|sy| |sy my ey]; try contradiction.
  - now destruct sx, sy.
  - cbn [below F64.add F64.sub SFadd SFsub] in *. lia.
  - cbn [below F64.add F64.sub SFadd SFsub] in *. lia.
  - unfold F64.add, SFadd.
    pose proof (aligned_digits sx sy mx my ex ey T false Hx Hy) as Hd. cbv zeta in Hd.
    replace (T + 2) with (T + 1 + 1) by lia. apply normalize_below; [exact Hd | lia].
Qed.

Lemma sub_below (T : Z) (x y : float) :
  below T x -> below T y -> -1075 <= T <= 970 -> below (T + 2) (F64.sub x y).
Proof.
  intros Hx Hy HT.
  destruct x as [sx|sx| |sx mx ex]; try contradiction;
  destruct y as [sy|sy| |sy my ey]; try contradiction.
  - now destruct sx, sy.
  - cbn [below F64.add F64.sub SFadd SFsub] in *. lia.
  - cbn [below F64.add F64.sub SFadd SFsub] in *. lia.
  - unfold F64.sub, SFsub.
    pose proof (aligned_digits sx sy mx my ex ey T true Hx Hy) as Hd. cbv zeta in Hd.
    replace (T + 2) with (T + 1 + 1) by lia. apply normalize_below; [exact Hd | lia].
Qed.

(** The difference of two moderate numbers is a zero or at least [2^lo]
    in magnitude. *)
Lemma sub_moderate (lo hi : Z) (x y : float) :
  moderate lo hi x -> moderate lo hi y -> -1074 <= lo -> hi <= 970 ->
  F64.is_zero (F64.sub x y) = true \/ at_least lo (F64.sub x y).
Proof.
  intros Hx Hy Hlo Hhi.
  destruct x as [sx|sx| |sx mx ex]; try contradiction;
  destruct y as [sy|sy| |sy my ey]; try contradiction.
  - left. now destruct sx, sy.
  - right. cbn [moderate F64.sub SFsub at_least] in *.
    assert (1 <= Zdigits2 (Zpos my)) by (simpl; lia). lia.
  - right. cbn [moderate F64.sub SFsub at_least] in *.
    assert (1 <= Zdigits2 (Zpos mx)) by (simpl; lia). lia.
  - cbn [moderate] in Hx, Hy. unfold F64.sub, SFsub.
    pose proof (aligned_digits sx sy mx my ex ey hi true
                  ltac:(lia) ltac:(lia)) as Hd. cbv zeta in Hd.
    set (M := cond_Zopp sx (Zpos (fst (shl_align mx ex (Z.min ex ey)))) -
              cond_Zopp sy (Zpos (fst (shl_align my ey (Z.min ex ey))))) in *.
    destruct (Z.eq_dec M 0) as [HM|HM].
    + left. rewrite HM. reflexivity.
    + right.
      pose proof (normalize_at_least M (Z.min ex ey) (hi + 1) HM
                    ltac:(lia) Hd ltac:(lia)) as Hge.
      destruct (binary_normalize F64.prec F64.emax M (Z.min ex ey) false);
        try contradiction. cbn [at_least] in *. lia.
Qed.

(** The exponent and the size of the quotient of [SFdiv_core_binary]. *)
Lemma div_core_spec (mx my : positive) (ex ey : Z) :
  let delta := Zdigits2 (Zpos mx) + ex - (Zdigits2 (Zpos my) + ey) in
  exists q e' l,
    SFdiv_core_binary F64.prec F64.emax (Zpos mx) ex (Zpos my) ey = (q, e', l) /\
    0 <= q /\ e' <= Z.max (delta - 53) (-1074) /\
    Zdigits2 q + e' <= Z.max (delta + 1) (-1074).
Proof.
  intros delta.
  destruct (div_core_bounds mx my ex ey) as (q & e' & l & Hcore & Hq & He' & Hdq).
  exists q, e', l. split; [exact Hcore|]. split; [exact Hq|].
  assert (Hexp : e' <= Z.max (delta - 53) (-1074)).
  { unfold SFdiv_core_binary in Hcore.
    rewrite (surjective_pairing (Z.div_eucl _ _)) in Hcore.
    pose proof (f_equal (fun t => snd (fst t)) Hcore) as He. cbn [fst snd] in He.
    rewrite <- He.
    eapply Z.le_trans; [apply Z.le_min_l|]. rewrite fexp_64. subst delta. lia. }
  split; [exact Hexp|]. fold delta in Hdq. lia.
Qed.

Lemma div_below (Tn L : Z) (n r : float) :
  below Tn n -> at_least L r -> -1074 <= Tn - L <= 971 ->
  below (Tn - L + 1) (SFdiv F64.prec F64.emax n r).
Proof.
  intros Hn Hr HT.
  destruct r as [sr|sr| |sr mr er]; try contradiction.
  destruct n as [sn|sn| |sn mn en]; try contradiction; [exact I|].
  cbn [below at_least] in Hn, Hr. unfold SFdiv.
  destruct (div_core_spec mn mr en er) as (q & e' & l & Hcore & Hq & He' & Hdq).
  cbv zeta in He', Hdq. rewrite Hcore.
  apply round_aux_below; lia.
Qed.

Lemma mul_below (Tx Ty : Z) (x y : float) :
  below Tx x -> below Ty y -> -1074 <= Tx + Ty <= 971 ->
  below (Tx + Ty + 1) (F64.mul x y).
Proof.
  intros Hx Hy HT.
  destruct x as [sx|sx| |sx mx ex]; try contradiction;
  destruct y as [sy|sy| |sy my ey]; try contradiction; try exact I.
  cbn [below] in Hx, Hy. unfold F64.mul, SFmul.
  pose proof (Zdigits2_mul_le (Zpos mx) (Zpos my) ltac:(lia) ltac:(lia)) as Hmul.
  assert (1 <= Zdigits2 (Zpos mx * Zpos my)) by (simpl; lia).
  apply round_aux_below; rewrite ?Pos2Z.inj_mul; lia.
Qed.

Lemma at_least_not_zero (lo : Z) (x : float) : at_least lo x -> F64.is_zero x = false.
Proof. destruct x; simpl; tauto. Qed.

(** The guarded range of two moderate temperatures. *)
Lemma temp_range_at_least (lo hi : Z) (min_temp_all max_temp_all : float) :
  moderate lo hi min_temp_all -> moderate lo hi max_temp_all ->
  -1074 <= lo <= 0 -> hi <= 970 ->
  at_least lo (temp_range_of min_temp_all max_temp_all).
Proof.
  intros Hmin Hmax Hlo Hhi. unfold temp_range_of.
  destruct (sub_moderate lo hi max_temp_all min_temp_all Hmax Hmin ltac:(lia) Hhi)
    as [Hz|Hge].
  - destruct (F64.sub max_temp_all min_temp_all) as [[|]| | |]; try discriminate;
      simpl; lia.
  - destruct (F64.sub max_temp_all min_temp_all) as [|[|]| |s m e] eqn:E;
      try contradiction.
    replace (F64.eqb (S754_finite s m e) (F64.of_int 0)) with false; [exact Hge|].
    now destruct s.
Qed.

(** The row of a day is computed without an exception when the
    temperatures are moderate. *)
Lemma scaled_temp_total (lo hi : Z) (avg_temp min_temp_all max_temp_all : float) :
  below hi avg_temp ->
  moderate lo hi min_temp_all -> moderate lo hi max_temp_all ->
  -1074 <= lo <= 0 -> -1000 <= hi -> hi - lo <= 960 ->
  exists row,
    scaled_temp_of avg_temp min_temp_all (temp_range_of min_temp_all max_temp_all) = Ok row.
Proof.
  intros Havg Hmin Hmax Hlo Hhi Hspan.
  pose proof (temp_range_at_least lo hi _ _ Hmin Hmax Hlo ltac:(lia)) as Hrange.
  pose proof (sub_below hi _ _ Havg (moderate_below _ _ _ Hmin) ltac:(lia)) as Hnum.
  pose proof (div_below (hi + 2) lo _ _ Hnum Hrange ltac:(lia)) as Hq.
  assert (H7 : below 3 (F64.of_int (chart_height - 1))) by (vm_compute; discriminate).
  pose proof (mul_below _ _ _ _ Hq H7 ltac:(lia)) as Hp.
  unfold scaled_temp_of, F64.truediv.
  rewrite (at_least_not_zero _ _ Hrange). cbn [bind].
  destruct (to_int_finite _ (below_finite _ _ Hp)) as (z & ->). cbn [bind]. eauto.
Qed.

(* ================================================================= *)
(** * A forecast without a range *)

Lemma to_int_below_one (x : float) : below 0 x -> F64.to_int x = Ok 0.
Proof.
  destruct x as [s|s| |s m e]; try contradiction; [reflexivity|].
  cbn [below F64.to_int]. intros H.
  assert (Hd : 1 <= Zdigits2 (Zpos m)) by (simpl; lia).
  destruct (Zdigits2_bounds (Zpos m) ltac:(lia)) as (_ & Hhi).
  destruct (Z.leb_spec 0 e) as [He|He]; [lia|].
  rewrite Z.div_small; [now destruct s|].
  split; [lia|].
  eapply Z.lt_le_trans; [exact Hhi|]. apply Z.pow_le_mono_r; lia.
Qed.

(** With the range replaced by 1, an average within [2^-5] of
    [min_temp_all] is cut to row 0. *)
Lemma small_difference_row (avg_temp min_temp_all : float) :
  below (-5) (F64.sub avg_temp min_temp_all) ->
  scaled_temp_of avg_temp min_temp_all (F64.of_int 1) = Ok 0.
Proof.
  intros Hd.
  assert (H1 : at_least 0 (F64.of_int 1)) by (vm_compute; reflexivity).
  pose proof (div_below (-5) 0 _ _ Hd H1 ltac:(lia)) as Hq.
  assert (H7 : below 3 (F64.of_int (chart_height - 1))) by (vm_compute; discriminate).
  pose proof (mul_below _ _ _ _ Hq H7 ltac:(lia)) as Hp.
  unfold scaled_temp_of, F64.truediv.
  rewrite (at_least_not_zero _ _ H1). cbn [bind].
  rewrite (to_int_below_one _ (below_le (-5 - 0 + 1 + 3 + 1) 0 _ ltac:(lia) Hp)).
  reflexivity.
Qed.

Lemma day_flat_extremes (min_temp_all : float) (day : DailyForecast.t) :
  day_flat min_temp_all day ->
  temperature_ok (DailyForecast.min_temp day) /\
  temperature_ok (DailyForecast.max_temp day).
Proof. intros [(H1 & H2 & _)|(H1 & H2 & _)]; auto. Qed.

Lemma day_renders_printable (day : DailyForecast.t) : day_renders day -> day_printable day.
Proof. intros (Hicon & label & Hlabel & _). split; eauto. Qed.

(** C6: when [max_temp_all - min_temp_all == 0], [temp_range] is replaced
    by 1.  When moreover the average of every day lies between its
    minimum and its maximum, so that all temperatures of all days are
    equal, or is within [2^-5] of the common temperature, and the day
    numbers are plain, [display_forecast] runs to the end without
    raising, every day scales to row 0, and every marker of the chart is
    on its bottom line. *)
Theorem equal_temperatures_bottom_row
    (data : ForecastData.t) (min_temp_all max_temp_all : float) :
  py_min (map DailyForecast.min_temp (ForecastData.daily_forecasts data))
    = Ok min_temp_all ->
  py_max (map DailyForecast.max_temp (ForecastData.daily_forecasts data))
    = Ok max_temp_all ->
  F64.eqb (F64.sub max_temp_all min_temp_all) (F64.of_int 0) = true ->
  Forall (day_flat min_temp_all) (ForecastData.daily_forecasts data) ->
  Forall day_renders (ForecastData.daily_forecasts data) ->
  Z.of_nat (List.length (ForecastData.daily_forecasts data)) <= 2 ^ 53 ->
  temp_range_of min_temp_all max_temp_all = F64.of_int 1 /\
  exists out,
    display_forecast data [] = (Ok tt, out) /\
    (forall day, In day (ForecastData.daily_forecasts data) ->
       scaled_temp_of (DailyForecast.avg_temp day) min_temp_all
         (temp_range_of min_temp_all max_temp_all) = Ok 0) /\
    (forall k day, nth_error (ForecastData.daily_forecasts data) k = Some day ->
       exists col,
         column_pos_of (Z.of_nat k)
           (Z.of_nat (List.length (ForecastData.daily_forecasts data))) = Ok col /\
         cell (chart_lines_of out) (chart_height - 1) col = Some marker) /\
    (forall line col, cell (chart_lines_of out) line col = Some marker ->
       line = chart_height - 1).
Proof.
  intros Hmin Hmax Hzero Hdays Hrender Hlen.
  set (days := ForecastData.daily_forecasts data) in *.
  assert (Hrange : temp_range_of min_temp_all max_temp_all = F64.of_int 1)
    by (unfold temp_range_of; now rewrite Hzero).
  split; [assumption|].
  assert (Hprint : Forall day_printable days)
    by (eapply Forall_impl; [|exact Hrender]; exact day_renders_printable).
  rewrite Forall_forall in Hdays.
  (* the extremes are temperatures of some day, and bound all days *)
  destruct (py_min_spec _ _ Hmin) as (Hmin_in & Hmin_le).
  destruct (py_max_spec _ _ Hmax) as (Hmax_in & Hmax_ge).
  apply in_map_iff in Hmin_in. destruct Hmin_in as (dmin & Hdmin_eq & Hdmin).
  apply in_map_iff in Hmax_in. destruct Hmax_in as (dmax & Hdmax_eq & Hdmax).
  destruct (day_flat_extremes _ _ (Hdays _ Hdmin)) as ((Hv1 & Hf1) & _).
  destruct (day_flat_extremes _ _ (Hdays _ Hdmax)) as (_ & (Hv2 & Hf2)).
  rewrite Hdmin_eq in Hv1, Hf1. rewrite Hdmax_eq in Hv2, Hf2.
  assert (Hnan_min : Forall not_nan (map DailyForecast.min_temp days)).
  { apply Forall_forall. intros x Hx. apply in_map_iff in Hx.
    destruct Hx as (d & <- & Hd). apply finite_not_nan.
    apply (day_flat_extremes _ _ (Hdays _ Hd)). }
  assert (Hnan_max : Forall not_nan (map DailyForecast.max_temp days)).
  { apply Forall_forall. intros x Hx. apply in_map_iff in Hx.
    destruct Hx as (d & <- & Hd). apply finite_not_nan.
    apply (day_flat_extremes _ _ (Hdays _ Hd)). }
  destruct (Hmin_le Hnan_min) as (_ & Hle). destruct (Hmax_ge Hnan_max) as (_ & Hge).
  rewrite Forall_forall in Hle, Hge.
  (* the extremes are equal *)
  assert (Heq : F64.eqb max_temp_all min_temp_all = true)
    by (apply sub_zero_eq; auto; now apply eqb_0_is_zero).
  destruct (eqb_leb _ _ (finite_not_nan _ Hf2) (finite_not_nan _ Hf1) Heq) as (Hmaxmin & _).
  assert (Hrows : forall day, In day days ->
            scaled_temp_of (DailyForecast.avg_temp day) min_temp_all
              (temp_range_of min_temp_all max_temp_all) = Ok 0).
  { intros day Hday. rewrite Hrange.
    destruct (Hdays _ Hday) as [((_ & Hfa) & (_ & Hfb) & (_ & Hfc) & Hlo & Hhi)|(_ & _ & Hnear)].
    - (* an average between the extremes is equal to them *)
      pose proof (finite_not_nan _ Hfa) as Na. pose proof (finite_not_nan _ Hfb) as Nb.
      pose proof (finite_not_nan _ Hfc) as Nc.
      pose proof (finite_not_nan _ Hf1) as N1. pose proof (finite_not_nan _ Hf2) as N2.
      assert (H1 : F64.leb min_temp_all (DailyForecast.avg_temp day) = true).
      { apply (leb_trans _ (DailyForecast.min_temp day)); auto.
        apply Hle. now apply in_map. }
      assert (H2 : F64.leb (DailyForecast.avg_temp day) min_temp_all = true).
      { apply (leb_trans _ (DailyForecast.max_temp day)); auto.
        apply (leb_trans _ max_temp_all); auto.
        apply Hge. now apply in_map. }
      apply scaled_temp_of_equal. apply sub_eq_zero; auto.
      now apply leb_antisym.
    - now apply small_difference_row. }
  destruct (display_forecast_completes data _ _ Hmin Hmax Hprint Hlen) as (out & Hrun).
  { intros day Hday. exists 0. now apply Hrows. }
  exists out. split; [assumption|]. split; [assumption|].
  destruct (display_forecast_marks data out Hrun)
    as (mn & mx & Hmn & Hmx & _ & Hmarks & Honly).
  fold days in Hmn, Hmx, Hmarks, Honly.
  rewrite Hmin in Hmn. rewrite Hmax in Hmx. apply Ok_inj in Hmn, Hmx. subst mn mx.
  split.
  - intros k day Hk. destruct (Hmarks k day Hk) as (row & col & Hrow & Hcol & Hcell).
    rewrite (Hrows day (nth_error_In _ _ Hk)) in Hrow. apply Ok_inj in Hrow. subst row.
    exists col. rewrite Z.sub_0_r in Hcell. auto.
  - intros line col Hm.
    destruct (Honly line col Hm) as (k & day & row & col' & Hk & Hrow & _ & -> & _).
    rewrite (Hrows day (nth_error_In _ _ Hk)) in Hrow. apply Ok_inj in Hrow. subst row.
    lia.
Qed.

(** The first day of [tenth_days] is the day that the client returns for
    [three_tenths]. *)
Lemma three_tenths_day :
  exists fd,
    get_five_day_forecast (Some three_tenths) = Returned fd /\
    ForecastData.daily_forecasts fd = firstn 1 (ForecastData.daily_forecasts tenth_days).
Proof. eexists. split; vm_compute; reflexivity. Qed.

Lemma equal_temperatures_bottom_row_witness :
  temp_range_of (F64.of_decimal 1 (-1)) (F64.of_decimal 1 (-1)) = F64.of_int 1 /\
  exists out,
    display_forecast tenth_days [] = (Ok tt, out) /\
    (forall day, In day (ForecastData.daily_forecasts tenth_days) ->
       scaled_temp_of (DailyForecast.avg_temp day) (F64.of_decimal 1 (-1))
         (temp_range_of (F64.of_decimal 1 (-1)) (F64.of_decimal 1 (-1))) = Ok 0) /\
    (forall k day, nth_error (ForecastData.daily_forecasts tenth_days) k = Some day ->
       exists col,
         column_pos_of (Z.of_nat k)
           (Z.of_nat (List.length (ForecastData.daily_forecasts tenth_days))) = Ok col /\
         cell (chart_lines_of out) (chart_height - 1) col = Some marker) /\
    (forall line col, cell (chart_lines_of out) line col = Some marker ->
       line = chart_height - 1).
Proof.
  refine (equal_temperatures_bottom_row tenth_days
            (F64.of_decimal 1 (-1)) (F64.of_decimal 1 (-1)) _ _ _ _ _ _).
  - vm_compute. reflexivity.
  - vm_compute. reflexivity.
  - vm_compute. reflexivity.
  - constructor; [|constructor; [|constructor]].
    + right. repeat split; try reflexivity. vm_compute. discriminate.
    + left. repeat split; reflexivity.
  - repeat constructor; eexists; (split; [reflexivity|]);
      vm_compute; intuition discriminate.
  - vm_compute. discriminate.
Defined.

(* ================================================================= *)
(** * Forecasts of moderate temperatures *)

Lemma moderate_days_are_displayed (lo hi : Z) (data : ForecastData.t) :
  ForecastData.daily_forecasts data <> [] ->
  Forall day_printable (ForecastData.daily_forecasts data) ->
  Forall (day_moderate lo hi) (ForecastData.daily_forecasts data) ->
  Z.of_nat (List.length (ForecastData.daily_forecasts data)) <= 2 ^ 53 ->
  -1074 <= lo <= 0 -> -1000 <= hi -> hi - lo <= 960 ->
  exists shown, forall out, display_forecast data out = (Ok tt, out ++ shown).
Proof.
  intros Hne Hprint Hmod Hlen Hlo Hhi Hspan.
  set (days := ForecastData.daily_forecasts data) in *.
  rewrite Forall_forall in Hmod.
  destruct (py_min (map DailyForecast.min_temp days)) as [lo_all|e] eqn:Hmin.
  2:{ destruct days; [congruence | discriminate]. }
  destruct (py_max (map DailyForecast.max_temp days)) as [hi_all|e] eqn:Hmax.
  2:{ destruct days; [congruence | discriminate]. }
  assert (Hlo_all : moderate lo hi lo_all).
  { destruct (py_min_spec _ _ Hmin) as (Hin & _).
    apply in_map_iff in Hin. destruct Hin as (day & <- & Hday). now apply Hmod. }
  assert (Hhi_all : moderate lo hi hi_all).
  { destruct (py_max_spec _ _ Hmax) as (Hin & _).
    apply in_map_iff in Hin. destruct Hin as (day & <- & Hday). now apply Hmod. }
  destruct (display_forecast_completes data lo_all hi_all Hmin Hmax Hprint Hlen)
    as (shown & Hshown).
  { intros day Hday. apply (scaled_temp_total lo hi); try assumption.
    now apply Hmod. }
  exists shown. intros out. rewrite (display_forecast_appends data out), Hshown.
  reflexivity.
Qed.

(** X15. A forecast of at least one day is displayed to the end, without
    an exception, when every day has a hashable icon and a date with a
    plain day number, a minimum and a maximum that are zero or written
    with an exponent of at least -300, and three temperatures below
    [2^600] in magnitude; there may be up to [2^53] days. *)
Theorem moderate_forecast_is_displayed (data : ForecastData.t) :
  ForecastData.daily_forecasts data <> [] ->
  Forall day_renders (ForecastData.daily_forecasts data) ->
  Forall (day_moderate (-300) 600) (ForecastData.daily_forecasts data) ->
  Z.of_nat (List.length (ForecastData.daily_forecasts data)) <= 2 ^ 53 ->
  exists shown, forall out, display_forecast data out = (Ok tt, out ++ shown).
Proof.
  intros Hne Hrender Hmod Hlen.
  apply (moderate_days_are_displayed (-300) 600); try assumption; try lia.
  eapply Forall_impl; [|exact Hrender]. exact day_renders_printable.
Qed.

Lemma moderate_le (lo hi hi' : Z) (x : float) :
  hi <= hi' -> moderate lo hi x -> moderate lo hi' x.
Proof. destruct x; cbn [moderate]; intros; auto; lia. Qed.

Lemma sum_below (a : Z) (xs : list float) :
  forall acc T,
    below T acc -> Forall (below a) xs -> a <= T -> -1075 <= T ->
    T + 2 * Z.of_nat (List.length xs) <= 972 ->
    below (T + 2 * Z.of_nat (List.length xs)) (fold_left F64.add xs acc).
Proof.
  induction xs as [|x xs IH]; intros acc T Hacc Hall Ha HT Hlen.
  - simpl. now rewrite Z.add_0_r.
  - inversion Hall as [|? ? Hx Hrest]; subst. cbn [fold_left].
    cbn [List.length] in *.
    replace (T + 2 * Z.of_nat (S (List.length xs)))
      with (T + 2 + 2 * Z.of_nat (List.length xs)) by lia.
    apply IH; try assumption; try lia.
    apply add_below; [exact Hacc | apply (below_le a); [lia | exact Hx] | lia].
Qed.

(** The mean of at most [n] moderate temperatures. *)
Lemma mean_below (a : Z) (temps : list float) (avg : float) :
  Forall (below a) temps -> -1075 <= a -> a + 2 * Z.of_nat (List.length temps) <= 970 ->
  F64.truediv (py_sum temps) (F64.of_int (Z.of_nat (List.length temps))) = Ok avg ->
  below (a + 2 * Z.of_nat (List.length temps) + 1) avg.
Proof.
  intros Hall Ha Hlen Havg.
  destruct temps as [|t temps'] eqn:Htemps; [discriminate|]. rewrite <- Htemps in *.
  assert (Hn : 0 < Z.of_nat (List.length temps) < 2 ^ 53).
  { split; [rewrite Htemps; simpl; lia|].
    assert (2 ^ 10 <= 2 ^ 53) by (apply Z.pow_le_mono_r; lia).
    change (2 ^ 10) with 1024 in *. lia. }
  destruct (of_int_bounds _ Hn) as (m & e & Hof & _ & Hd & _).
  assert (Hn1 : 1 <= Zdigits2 (Z.of_nat (List.length temps)))
    by (destruct (Z.of_nat (List.length temps)); simpl; lia).
  unfold F64.truediv in Havg. rewrite Hof in Havg. cbn [F64.is_zero] in Havg.
  injection Havg as <-.
  pose proof (sum_below a temps (F64.of_int 0) a I Hall ltac:(lia) Ha ltac:(lia)) as Hsum.
  fold (py_sum temps) in Hsum.
  replace (a + 2 * Z.of_nat (List.length temps) + 1)
    with (a + 2 * Z.of_nat (List.length temps) - 0 + 1) by lia.
  apply div_below; [exact Hsum | cbn [at_least]; lia | lia].
Qed.

Lemma split_free (c sep : ascii) (s : string) :
  free_of c s -> Forall (free_of c) (split sep s).
Proof.
  unfold free_of. induction s as [|a s IH]; intros Hfree.
  - constructor; [intros [] | constructor].
  - simpl in Hfree. assert (Hs : ~ In c (list_ascii_of_string s)) by tauto.
    specialize (IH Hs). cbn [split].
    destruct (Ascii.eqb a sep); [constructor; [intros [] | exact IH]|].
    destruct (split sep s) as [|piece pieces].
    + constructor; [simpl; tauto | constructor].
    + inversion IH; subst. constructor; [simpl; tauto | assumption].
Qed.

(** The day number of a plain date is plain. *)
Lemma day_number_plain (day : DailyForecast.t) (label : string) :
  plain (DailyForecast.date day) -> day_number day = Ok label -> plain label.
Proof.
  intros Hplain Hlabel. unfold day_number in Hlabel.
  apply list_getitem_nth in Hlabel; [|lia]. apply nth_error_In in Hlabel.
  pose proof (split_free "[" "-" _ Hplain) as Hall.
  rewrite Forall_forall in Hall. now apply Hall.
Qed.

Lemma day_number_long (day : DailyForecast.t) :
  (2 <= occurrences "-" (DailyForecast.date day))%nat ->
  exists label, day_number day = Ok label.
Proof.
  intros H. unfold day_number. apply list_getitem_Ok. rewrite split_length. lia.
Qed.

Lemma aggregate_day_moderate (items : list json) (d : string) (day : DailyForecast.t) :
  Forall sample_displayable items ->
  (List.length items <= 250)%nat ->
  (exists item, In item items /\ date_of item = Ok d) ->
  aggregate_day d (samples_of_day items d) = Ok day ->
  day_renders day /\ day_moderate (-300) 601 day.
Proof.
  intros Hall Hlen (item0 & Hitem0 & Hdate0) Hday.
  rewrite Forall_forall in Hall.
  pose proof (aggregate_day_date _ _ _ Hday) as Hd.
  destruct (aggregate_day_inv _ _ _ Hday)
    as (descriptions & icons & temps & top & _ & Hics & Htemps & _ & _ & Hicon & Hmin & Hmax & Havg).
  set (readings := samples_of_day items d) in *.
  assert (Hsub : forall r, In r readings -> In r items).
  { intros r Hr. unfold readings, samples_of_day in Hr. apply filter_In in Hr. tauto. }
  assert (Hrlen : (List.length readings <= List.length items)%nat)
    by apply filter_length_le.
  (* the temperatures *)
  unfold sample_temps in Htemps.
  destruct (mapM temp_of readings) as [raw|e] eqn:Hraw; simpl in Htemps; [|discriminate].
  assert (Hmod : Forall (moderate (-300) 100) temps).
  { rewrite Forall_forall. intros t Ht.
    destruct (mapM_In _ _ _ _ Htemps Ht) as (x & Hx & Hxt).
    destruct (mapM_In _ _ _ _ Hraw Hx) as (r & Hr & Hrx).
    destruct (Hall r (Hsub r Hr)) as (_ & _ & _ & Hm). eapply Hm; eassumption. }
  assert (Htlen : List.length temps = List.length readings).
  { rewrite (mapM_length _ _ _ Htemps). apply (mapM_length _ _ _ Hraw). }
  split; [split|split; [|split]].
  - (* the icon is a string *)
    assert (Hstr : Forall (fun x => exists s, icon_of x = Ok (JStr s)) readings).
    { rewrite Forall_forall. intros r Hr.
      destruct (Hall r (Hsub r Hr)) as ((_ & _ & _ & H) & _). exact H. }
    destruct (mapM_strings _ _ Hstr) as (ics & Hics' & Hilen).
    rewrite Hics in Hics'. injection Hics' as ->.
    assert (Hne : ics <> []).
    { intros ->. pose proof (samples_of_day_In _ _ _ Hitem0 Hdate0) as Hin.
      fold readings in Hin. destruct readings; [destruct Hin | discriminate]. }
    destruct (most_common_key_strings ics Hne) as (m & Hm & _).
    rewrite Hm in Hicon. injection Hicon as <-. reflexivity.
  - destruct (Hall item0 Hitem0) as (_ & Hh & Hp & _).
    destruct (day_number_long day) as (label & Hlabel); [rewrite Hd; now apply Hh|].
    exists label. split; [exact Hlabel|].
    apply (day_number_plain day); [rewrite Hd; now apply Hp | exact Hlabel].
  - destruct (py_min_spec _ _ Hmin) as (Hin & _).
    rewrite Forall_forall in Hmod. apply (moderate_le _ 100); [lia | now apply Hmod].
  - destruct (py_max_spec _ _ Hmax) as (Hin & _).
    rewrite Forall_forall in Hmod. apply (moderate_le _ 100); [lia | now apply Hmod].
  - assert (Hbelow : Forall (below 100) temps).
    { eapply Forall_impl; [|exact Hmod]. intros t. apply moderate_below. }
    pose proof (mean_below 100 temps _ Hbelow ltac:(lia) ltac:(lia) Havg) as Hb.
    eapply below_le; [|exact Hb]. lia.
Qed.

Lemma displayable_forecast
    (data : json) (items : list json) (name country : json) :
  forecast_items data = Ok items ->
  items <> [] -> (List.length items <= 250)%nat ->
  Forall sample_displayable items ->
  (Ok data).["city"].["name"] = Ok name ->
  (Ok data).["city"].["country"] = Ok country ->
  exists days shown,
    get_five_day_forecast (Some data) = Returned (ForecastData.make name country days) /\
    Forall day_renders days /\
    forall out,
      display_forecast (ForecastData.make name country days) out = (Ok tt, out ++ shown).
Proof.
  intros Hitems Hne Hlen Hall Hn Hc.
  assert (Hok : Forall sample_ok items).
  { eapply Forall_impl; [|exact Hall]. intros item (H & _). exact H. }
  destruct (forecast_total _ _ _ _ Hitems Hok Hn Hc)
    as (dates & days & Hdates & Hdays & Hret).
  assert (Hkeys : map DailyForecast.date days = firsts [] dates).
  { rewrite (forecast_dates_distinct _ _ Hdays), map_map. simpl. apply map_id. }
  assert (Heach : forall day, In day days ->
            day_renders day /\ day_moderate (-300) 601 day).
  { intros day Hday.
    destruct (mapM_In _ _ _ _ Hdays Hday) as (g & Hg & Hagg).
    apply in_map_iff in Hg. destruct Hg as (d & <- & Hd). cbn [fst snd] in Hagg.
    apply (proj1 (firsts_In _ _ _)) in Hd. destruct Hd as (Hd & _).
    destruct (mapM_In _ _ _ _ Hdates Hd) as (item & Hitem & Hdate).
    apply (aggregate_day_moderate items d); eauto. }
  assert (Hdays_len : (List.length days <= List.length items)%nat).
  { rewrite <- (length_map DailyForecast.date), Hkeys.
    rewrite <- (mapM_length _ _ _ Hdates). apply firsts_length. }
  destruct (moderate_days_are_displayed (-300) 601
              (ForecastData.make name country (sort_by_date days))) as (shown & Hshown).
  - cbn [ForecastData.daily_forecasts]. intros Hnil.
    destruct items as [|item items']; [congruence|].
    destruct (mapM_Ok_In _ _ _ _ Hdates (or_introl eq_refl)) as (d & _ & Hd).
    assert (Hk : In d (firsts [] dates)) by (apply (proj2 (firsts_In _ _ _)); auto).
    rewrite <- Hkeys in Hk. apply in_map_iff in Hk. destruct Hk as (day & _ & Hday).
    apply (proj2 (sort_by_date_In _ _)) in Hday. rewrite Hnil in Hday. destruct Hday.
  - cbn [ForecastData.daily_forecasts]. rewrite Forall_forall. intros day Hday.
    apply (proj1 (sort_by_date_In _ _)) in Hday. apply day_renders_printable.
    now apply Heach.
  - cbn [ForecastData.daily_forecasts]. rewrite Forall_forall. intros day Hday.
    apply (proj1 (sort_by_date_In _ _)) in Hday. now apply Heach.
  - cbn [ForecastData.daily_forecasts].
    rewrite (Permutation_length (sort_by_date_perm days)).
    assert (2 ^ 10 <= 2 ^ 53) by (apply Z.pow_le_mono_r; lia).
    change (2 ^ 10) with 1024 in *. lia.
  - lia.
  - lia.
  - lia.
  - exists (sort_by_date days), shown. split; [exact Hret|]. split; [|exact Hshown].
    rewrite Forall_forall. intros day Hday.
    apply (proj1 (sort_by_date_In _ _)) in Hday. now apply Heach.
Qed.

(** X16. From the response to the screen.  A forecast response of 1 to
    250 samples that names the city and the country, and whose samples
    have a [dt_txt] with a plain date of two hyphens, a moderate
    temperature (zero, or written with an exponent of at least -300 and
    below [2^100] in magnitude) and strings for the description and the
    icon, is returned by [get_five_day_forecast]; its days have plain day
    numbers, and [display_forecast] displays it to the end, without an
    exception. *)
Theorem well_formed_forecast_is_returned_and_displayed
    (data : json) (items : list json) (name country : json) :
  forecast_items data = Ok items ->
  items <> [] -> (List.length items <= 250)%nat ->
  Forall sample_displayable items ->
  (Ok data).["city"].["name"] = Ok name ->
  (Ok data).["city"].["country"] = Ok country ->
  exists fd shown,
    get_five_day_forecast (Some data) = Returned fd /\
    Forall day_renders (ForecastData.daily_forecasts fd) /\
    forall out, display_forecast fd out = (Ok tt, out ++ shown).
Proof.
  intros Hitems Hne Hlen Hall Hn Hc.
  destruct (displayable_forecast _ _ _ _ Hitems Hne Hlen Hall Hn Hc)
    as (days & shown & Hret & Hrender & Hshown).
  exists (ForecastData.make name country days), shown. auto.
Qed.

Lemma example_items_displayable : Forall sample_displayable example_items.
Proof.
  repeat constructor;
    try (eexists; reflexivity);
    try (do 2 eexists; split; reflexivity);
    try (intros d H; vm_compute in H; injection H as <-; vm_compute; lia);
    try (intros d H; vm_compute in H; injection H as <-; plain_text);
    try (intros x t Hx Ht; vm_compute in Hx; injection Hx as <-;
         vm_compute in Ht; injection Ht as <-; vm_compute; split; discriminate).
Qed.

Lemma well_formed_response_gives_a_forecast_witness :
  exists fd,
    get_five_day_forecast (Some example_response) = Returned fd /\
    ForecastData.city fd = JStr "Paris" /\ ForecastData.country fd = JStr "FR".
Proof.
  apply (well_formed_response_gives_a_forecast example_response example_items).
  - reflexivity.
  - repeat constructor; try (eexists; reflexivity);
      do 2 eexists; split; reflexivity.
  - repeat constructor; intros x t Hx Ht; vm_compute in Hx; injection Hx as <-;
      vm_compute in Ht; injection Ht as <-; vm_compute; discriminate.
  - vm_compute. discriminate.
  - reflexivity.
  - reflexivity.
Defined.

Lemma moderate_forecast_is_displayed_witness :
  exists shown, forall out, display_forecast five_days out = (Ok tt, out ++ shown).
Proof.
  apply (moderate_forecast_is_displayed five_days).
  - discriminate.
  - repeat constructor; eexists; (split; [reflexivity|]); plain_text.
  - repeat constructor; vm_compute; discriminate.
  - vm_compute. discriminate.
Defined.

Lemma well_formed_forecast_is_returned_and_displayed_witness :
  exists fd shown,
    get_five_day_forecast (Some example_response) = Returned fd /\
    Forall day_renders (ForecastData.daily_forecasts fd) /\
    forall out, display_forecast fd out = (Ok tt, out ++ shown).
Proof.
  apply (well_formed_forecast_is_returned_and_displayed example_response example_items
           (JStr "Paris") (JStr "FR")).
  - reflexivity.
  - discriminate.
  - simpl. lia.
  - exact example_items_displayable.
  - reflexivity.
  - reflexivity.
Defined.

(* ================================================================= *)
(** * The borders of the chart *)

Lemma scaled_temp_of_zero (num range : float) (min_temp_all avg_temp : float) (row : Z) :
  F64.sub avg_temp min_temp_all = num -> F64.is_zero num = true ->
  scaled_temp_of avg_temp min_temp_all range = Ok row -> row = 0.
Proof.
  intros Hnum Hz. unfold scaled_temp_of. rewrite Hnum.
  destruct num as [s| | |]; try discriminate.
  destruct range as [sr|sr| |sr mr er]; simpl; intros H; try discriminate;
    destruct s, sr; vm_compute in H; now injection H as <-.
Qed.

(** A day as cold as the coldest minimum is on row 0. *)
Lemma coldest_row (avg_temp min_temp_all range : float) (row : Z) :
  F64.eqb avg_temp min_temp_all = true ->
  scaled_temp_of avg_temp min_temp_all range = Ok row -> row = 0.
Proof.
  intros Heq Hrow.
  destruct avg_temp as [sa|sa| |sa ma ea] eqn:Ea;
    destruct min_temp_all as [sm|sm| |sm mm em] eqn:Em;
    try discriminate;
    try (destruct sa; discriminate); try (destruct sm; discriminate);
    try (destruct sa, sm; discriminate).
  - eapply scaled_temp_of_zero; [reflexivity| |exact Hrow]. now destruct sa, sm.
  - exfalso. unfold scaled_temp_of in Hrow.
    destruct sa, sm; try discriminate;
      destruct range as [sr|sr| |sr mr er]; simpl in Hrow; try discriminate;
      destruct sr; discriminate.
  - eapply scaled_temp_of_zero; [reflexivity| |exact Hrow].
    apply sub_eq_zero; auto.
Qed.

(** A day as warm as the warmest maximum is on the last row, unless all
    temperatures are equal. *)
Lemma warmest_row (avg_temp min_temp_all max_temp_all : float) (row : Z) :
  F64.eqb avg_temp max_temp_all = true ->
  F64.eqb (F64.sub max_temp_all min_temp_all) (F64.of_int 0) = false ->
  scaled_temp_of avg_temp min_temp_all (temp_range_of min_temp_all max_temp_all) = Ok row ->
  row = chart_height - 1.
Proof.
  intros Heq Hrange. unfold temp_range_of. rewrite Hrange.
  assert (Hsame : F64.sub avg_temp min_temp_all = F64.sub max_temp_all min_temp_all).
  { destruct avg_temp as [sa|sa| |sa ma ea];
      destruct max_temp_all as [sx|sx| |sx mx ex];
      try discriminate;
      try (destruct sa; discriminate); try (destruct sx; discriminate);
      try (destruct sa, sx; discriminate).
    - destruct min_temp_all as [sm|sm| |sm mm em]; try reflexivity.
      exfalso. destruct sx, sm; discriminate.
    - destruct sa, sx; try discriminate; reflexivity.
    - apply eqb_place in Heq; try reflexivity.
      destruct sa, sx; simpl in Heq; try discriminate;
        injection Heq as He Hm; f_equal; f_equal; lia. }
  unfold scaled_temp_of. rewrite Hsame.
  destruct (F64.sub max_temp_all min_temp_all) as [s|s| |s m e] eqn:Er.
  - now destruct s.
  - unfold F64.truediv. cbn [F64.is_zero bind]. destruct s; discriminate.
  - discriminate.
  - unfold F64.truediv. cbn [F64.is_zero bind]. rewrite div_self.
    intros H. vm_compute in H. now injection H as <-.
Qed.

(** X17. The borders of a completed chart.  A day whose average equals
    the lowest minimum of the forecast has its marker on the bottom line;
    a day whose average equals the highest maximum has it on the top line,
    unless the range of the forecast is zero. *)
Theorem extreme_averages_are_on_the_border_lines
    (data : ForecastData.t) (out : list printed) (k : nat) (day : DailyForecast.t) :
  display_forecast data [] = (Ok tt, out) ->
  nth_error (ForecastData.daily_forecasts data) k = Some day ->
  exists min_temp_all max_temp_all col,
    py_min (map DailyForecast.min_temp (ForecastData.daily_forecasts data))
      = Ok min_temp_all /\
    py_max (map DailyForecast.max_temp (ForecastData.daily_forecasts data))
      = Ok max_temp_all /\
    column_pos_of (Z.of_nat k) (Z.of_nat (List.length (ForecastData.daily_forecasts data)))
      = Ok col /\
    (F64.eqb (DailyForecast.avg_temp day) min_temp_all = true ->
     cell (chart_lines_of out) (chart_height - 1) col = Some marker) /\
    (F64.eqb (DailyForecast.avg_temp day) max_temp_all = true ->
     F64.eqb (F64.sub max_temp_all min_temp_all) (F64.of_int 0) = false ->
     cell (chart_lines_of out) 0 col = Some marker).
Proof.
  intros H Hday.
  destruct (display_forecast_marks _ _ H) as (lo & hi & Hlo & Hhi & _ & Hmarks & _).
  destruct (Hmarks k day Hday) as (row & col & Hrow & Hcol & Hcell).
  exists lo, hi, col. repeat split; try assumption.
  - intros Heq. rewrite (coldest_row _ _ _ _ Heq Hrow) in Hcell.
    now rewrite Z.sub_0_r in Hcell.
  - intros Heq Hrange. rewrite (warmest_row _ _ _ _ Heq Hrange Hrow) in Hcell.
    now rewrite Z.sub_diag in Hcell.
Qed.

Lemma extreme_averages_are_on_the_border_lines_witness :
  exists min_temp_all max_temp_all col,
    py_min (map DailyForecast.min_temp (ForecastData.daily_forecasts two_level_days))
      = Ok min_temp_all /\
    py_max (map DailyForecast.max_temp (ForecastData.daily_forecasts two_level_days))
      = Ok max_temp_all /\
    column_pos_of (Z.of_nat 1)
      (Z.of_nat (List.length (ForecastData.daily_forecasts two_level_days))) = Ok col /\
    (F64.eqb (F64.of_int 20) min_temp_all = true ->
     cell (chart_lines_of (snd (display_forecast two_level_days []))) (chart_height - 1) col
       = Some marker) /\
    (F64.eqb (F64.of_int 20) max_temp_all = true ->
     F64.eqb (F64.sub max_temp_all min_temp_all) (F64.of_int 0) = false ->
     cell (chart_lines_of (snd (display_forecast two_level_days []))) 0 col = Some marker).
Proof.
  apply (extreme_averages_are_on_the_border_lines two_level_days
           (snd (display_forecast two_level_days [])) 1 (day_of "2024-01-02" 20 20 20)).
  - vm_compute. reflexivity.
  - reflexivity.
Defined.

(** X18. A turn with two complete answers.  When the answer is plain and
    not [exit], the current-weather reply has its nine fields with finite
    numbers and strings where they are displayed and plain text where it
    is pasted into markup, and the forecast reply is well formed with
    plain dates and moderate temperatures, the turn runs to its end: it
    writes the fetching line, the current-conditions panel and a newline,
    what [display_forecast] prints, and the separator, and no exception
    leaves the loop body. *)
Theorem complete_answers_complete_the_turn
    (t : Main.turn) (wdata fdata : json)
    (city country temp feels_like humidity speed pressure name fcountry : json)
    (descr icon : string) (tv fv wv : float) (items : list json) :
  Main.is_exit (Main.answer t) = false ->
  plain (Main.answer t) ->
  Main.weather_reply t = Some wdata ->
  current_weather_reads wdata city country temp feels_like humidity (JStr descr) (JStr icon)
    speed pressure ->
  as_number temp = Ok tv -> as_number feels_like = Ok fv -> as_number speed = Ok wv ->
  F64.is_finite tv = true -> F64.is_finite fv = true -> F64.is_finite wv = true ->
  plain_value city -> plain_value country -> plain descr ->
  plain_value humidity -> plain_value pressure ->
  Main.forecast_reply t = Some fdata ->
  forecast_items fdata = Ok items ->
  items <> [] -> (List.length items <= 250)%nat ->
  Forall sample_displayable items ->
  (Ok fdata).["city"].["name"] = Ok name ->
  (Ok fdata).["city"].["country"] = Ok fcountry ->
  turn_completes t /\
  exists emoji shown,
    _get_weather_emoji (JStr icon) = Ok emoji /\
    Main.query t =
    ( [ Main.Fetching (Main.answer t);
        Main.Current (CurrentWeather.CurrentConditions
                        (CurrentWeather.make_table city country tv emoji fv
                           (capitalize descr) humidity wv pressure));
        Main.Current CurrentWeather.Newline ]
      ++ map Main.Forecast shown ++ [Main.Separator],
      None ).
Proof.
  intros Hexit _ Hw Hreads Ht Hf Hs _ _ _ _ _ _ _ _ Hfr Hitems Hne Hlen Hall Hn Hc.
  destruct (get_weather_emoji_Ok (JStr icon) eq_refl) as (emoji & Hemoji).
  destruct (displayable_forecast _ _ _ _ Hitems Hne Hlen Hall Hn Hc)
    as (days & shown & Hret & _ & Hshown).
  assert (Hq : Main.query t =
    ( [ Main.Fetching (Main.answer t);
        Main.Current (CurrentWeather.CurrentConditions
                        (CurrentWeather.make_table city country tv emoji fv
                           (capitalize descr) humidity wv pressure));
        Main.Current CurrentWeather.Newline ]
      ++ map Main.Forecast shown ++ [Main.Separator],
      None )).
  { unfold Main.query, Main.show_current_weather, Main.show_forecast.
    rewrite Hw, Hfr, (current_weather_returned _ _ _ _ _ _ _ _ _ _ Hreads), Hret.
    rewrite (Hshown []).
    unfold CurrentWeather.display_current_weather, CurrentWeather.build_table.
    cbn [WeatherData.temperature WeatherData.icon WeatherData.feels_like
         WeatherData.wind_speed WeatherData.city WeatherData.country
         WeatherData.description WeatherData.humidity WeatherData.pressure].
    rewrite (format_1f_number _ _ Ht), Hemoji, (format_1f_number _ _ Hf),
      (format_1f_number _ _ Hs). reflexivity. }
  split.
  - split; [exact Hexit | now rewrite Hq].
  - exists emoji, shown. auto.
Qed.

Lemma complete_answers_complete_the_turn_witness :
  turn_completes paris_turn /\
  exists emoji shown,
    _get_weather_emoji (JStr "10d") = Ok emoji /\
    Main.query paris_turn =
    ( [ Main.Fetching "Paris";
        Main.Current (CurrentWeather.CurrentConditions
                        (CurrentWeather.make_table (JStr "Paris") (JStr "FR")
                           (F64.of_decimal 125 (-1)) emoji (F64.of_decimal 118 (-1))
                           (capitalize "light rain") (JNum (F64.of_int 70))
                           (F64.of_decimal 41 (-1)) (JNum (F64.of_int 1013))));
        Main.Current CurrentWeather.Newline ]
      ++ map Main.Forecast shown ++ [Main.Separator],
      None ).
Proof.
  apply (complete_answers_complete_the_turn paris_turn current_response example_response
           (JStr "Paris") (JStr "FR") (JNum (F64.of_decimal 125 (-1)))
           (JNum (F64.of_decimal 118 (-1))) (JNum (F64.of_int 70))
           (JNum (F64.of_decimal 41 (-1))) (JNum (F64.of_int 1013))
           (JStr "Paris") (JStr "FR") "light rain" "10d"
           (F64.of_decimal 125 (-1)) (F64.of_decimal 118 (-1)) (F64.of_decimal 41 (-1))
           example_items);
    first [ reflexivity | exact example_items_displayable | simpl; lia | discriminate
          | repeat split; reflexivity | plain_text ].
Defined.

(* ================================================================= *)
(** * The cells of the chart *)

Lemma list_setitem_Forall {A : Type} (P : A -> Prop) (xs xs' : list A) (i : Z) (v : A) :
  0 <= i -> list_setitem xs i v = Ok xs' -> Forall P xs -> P v -> Forall P xs'.
Proof.
  intros Hi Hset Hall Hv.
  destruct (list_setitem_spec _ _ _ _ Hi Hset) as (_ & Hsame & Hother).
  rewrite Forall_forall in *. intros x Hx.
  apply In_nth_error in Hx. destruct Hx as (j & Hj).
  destruct (Nat.eq_dec j (Z.to_nat i)) as [->|Hne].
  - rewrite Hsame in Hj. now injection Hj as <-.
  - rewrite (Hother j Hne) in Hj. apply Hall. eapply nth_error_In; eauto.
Qed.

Lemma plot_day_cells (min_temp_all temp_range : float) (n : Z)
    (iday : Z * DailyForecast.t) (chart chart' : list (list string))
    (out out' : list printed) :
  plot_day min_temp_all temp_range n chart iday out = (Ok chart', out') ->
  cells_ok chart -> cells_ok chart'.
Proof.
  destruct iday as [i day]. unfold plot_day. intros H Hok. inv_console H.
  apply cret_Ok in H. destruct H as (<- & _).
  pose proof (scaled_temp_range _ _ _ _ E) as Hrow.
  pose proof (column_pos_range _ _ _ E0) as Hcol.
  unfold chart_height, chart_width in *.
  assert (Hr : 0 <= 8 - 1 - v) by lia.
  pose proof (list_getitem_nth _ _ _ Hr E1) as Hline.
  eapply list_setitem_Forall; [exact Hr | exact E3 | exact Hok |].
  eapply list_setitem_Forall; [| exact E2 | | now right]; [lia|].
  unfold cells_ok in Hok. rewrite Forall_forall in Hok. apply Hok.
  eapply nth_error_In; eauto.
Qed.

Lemma plot_loop_cells (min_temp_all temp_range : float) (n : Z)
    (idays : list (Z * DailyForecast.t)) :
  forall (chart chart' : list (list string)) (out out' : list printed),
    cfold (plot_day min_temp_all temp_range n) idays chart out = (Ok chart', out') ->
    cells_ok chart -> cells_ok chart'.
Proof.
  induction idays as [|iday idays IH]; intros chart chart' out out' H Hok; simpl in H.
  - apply cret_Ok in H. now destruct H as (<- & _).
  - inv_console H. eapply IH; [exact H|]. eapply plot_day_cells; eauto.
Qed.

Lemma blank_chart_cells :
  cells_ok (repeat (repeat blank (Z.to_nat chart_width)) (Z.to_nat chart_height)).
Proof.
  apply Forall_forall. intros line Hline. apply repeat_spec in Hline. subst line.
  apply Forall_forall. intros c Hc. apply repeat_spec in Hc. now left.
Qed.

(** X19. The cells of a completed chart.  Every character of the eight
    lines is a blank or the marker, and a marker stands only where a day
    is plotted: in the column of the day's index, on the line of its
    scaled average. *)
Theorem chart_holds_blanks_and_day_markers
    (data : ForecastData.t) (out : list printed) (line col : Z) (c : string) :
  display_forecast data [] = (Ok tt, out) ->
  cell (chart_lines_of out) line col = Some c ->
  (c = blank \/ c = marker) /\
  (c = marker ->
   exists min_temp_all max_temp_all k day row,
     py_min (map DailyForecast.min_temp (ForecastData.daily_forecasts data))
       = Ok min_temp_all /\
     py_max (map DailyForecast.max_temp (ForecastData.daily_forecasts data))
       = Ok max_temp_all /\
     nth_error (ForecastData.daily_forecasts data) k = Some day /\
     scaled_temp_of (DailyForecast.avg_temp day) min_temp_all
       (temp_range_of min_temp_all max_temp_all) = Ok row /\
     column_pos_of (Z.of_nat k) (Z.of_nat (List.length (ForecastData.daily_forecasts data)))
       = Ok col /\
     line = chart_height - 1 - row).
Proof.
  intros H Hcell. split.
  - assert (Hcells : cells_ok (chart_lines_of out)).
    { clear Hcell. unfold display_forecast in H. inv_console H.
      rewrite print_lines_Ok in E3. injection E3 as _ <-.
      apply print_Ok in H. subst out.
      destruct (plot_loop_Ok _ _ _ _ _ _ _ _ _ E2 blank_chart_ok) as (_ & Hout & _).
      pose proof (plot_loop_cells _ _ _ _ _ _ _ _ E2 blank_chart_cells) as Hc.
      rewrite !chart_lines_of_app, Hout, chart_lines_of_lines. simpl.
      now rewrite !app_nil_r. }
    unfold cell in Hcell.
    destruct ((0 <=? line) && (0 <=? col)); [|discriminate].
    destruct (nth_error (chart_lines_of out) (Z.to_nat line)) as [l|] eqn:Hl; [|discriminate].
    unfold cells_ok in Hcells. rewrite Forall_forall in Hcells.
    pose proof (Hcells l (nth_error_In _ _ Hl)) as Hline.
    rewrite Forall_forall in Hline. apply Hline. eapply nth_error_In; eauto.
  - intros ->.
    destruct (display_forecast_marks _ _ H) as (lo & hi & Hlo & Hhi & _ & _ & Honly).
    destruct (Honly line col Hcell) as (k & day & row & col' & Hk & Hrow & Hcol & -> & ->).
    exists lo, hi, k, day, row. auto 10.
Qed.

Lemma chart_holds_blanks_and_day_markers_witness :
  (marker = blank \/ marker = marker) /\
  (marker = marker ->
   exists min_temp_all max_temp_all k day row,
     py_min (map DailyForecast.min_temp (ForecastData.daily_forecasts five_days))
       = Ok min_temp_all /\
     py_max (map DailyForecast.max_temp (ForecastData.daily_forecasts five_days))
       = Ok max_temp_all /\
     nth_error (ForecastData.daily_forecasts five_days) k = Some day /\
     scaled_temp_of (DailyForecast.avg_temp day) min_temp_all
       (temp_range_of min_temp_all max_temp_all) = Ok row /\
     column_pos_of (Z.of_nat k) (Z.of_nat (List.length (ForecastData.daily_forecasts five_days)))
       = Ok 24 /\
     4 = chart_height - 1 - row).
Proof.
  apply (chart_holds_blanks_and_day_markers five_days five_days_output 4 24 marker).
  - vm_compute. reflexivity.
  - vm_compute. reflexivity.
Defined.

(* ================================================================= *)
(** * The order of the samples *)

Lemma mapM_Permutation {A B : Type} (f : A -> result B) (xs xs' : list A) :
  Permutation xs xs' ->
  forall ys, mapM f xs = Ok ys -> exists ys', mapM f xs' = Ok ys' /\ Permutation ys ys'.
Proof.
  induction 1 as [|x xs xs' _ IH|x y xs|xs xs' xs'' _ IH1 _ IH2]; intros ys Hys.
  - exists ys. auto.
  - simpl in *. destruct (f x) as [b|e]; simpl in *; [|discriminate].
    destruct (mapM f xs) as [bs|e]; simpl in *; [|discriminate].
    injection Hys as <-. destruct (IH bs eq_refl) as (bs' & -> & Hp).
    exists (b :: bs'). simpl. auto.
  - simpl in *. destruct (f y) as [b|e]; simpl in *; [|discriminate].
    destruct (f x) as [a|e]; simpl in *; [|discriminate].
    destruct (mapM f xs) as [bs|e]; simpl in *; [|discriminate].
    injection Hys as <-. exists (a :: b :: bs). split; [reflexivity | apply perm_swap].
  - destruct (IH1 ys Hys) as (ys' & Hys' & Hp1).
    destruct (IH2 ys' Hys') as (ys'' & Hys'' & Hp2).
    exists ys''. split; [assumption | eapply perm_trans; eauto].
Qed.

Lemma date_lt_asym (a b : DailyForecast.t) : date_lt a b -> date_lt b a -> False.
Proof.
  unfold date_lt. intros Hab Hba.
  assert (H : String.ltb (DailyForecast.date b) (DailyForecast.date a) = false)
    by (apply string_not_ltb; now right).
  congruence.
Qed.

(** A list sorted strictly by date is determined by its elements. *)
Lemma sorted_by_date_unique (l1 l2 : list DailyForecast.t) :
  StronglySorted date_lt l1 -> StronglySorted date_lt l2 -> Permutation l1 l2 -> l1 = l2.
Proof.
  revert l2. induction l1 as [|a l1 IH]; intros l2 H1 H2 Hp.
  - apply Permutation_nil in Hp. now subst.
  - destruct l2 as [|b l2]; [apply Permutation_sym, Permutation_nil in Hp; discriminate|].
    inversion H1 as [|? ? Hs1 Ha]; subst. inversion H2 as [|? ? Hs2 Hb]; subst.
    rewrite Forall_forall in Ha, Hb.
    assert (Hab : a = b).
    { assert (Hina : In a (b :: l2)) by (eapply Permutation_in; [exact Hp | now left]).
      assert (Hinb : In b (a :: l1))
        by (eapply Permutation_in; [apply Permutation_sym; exact Hp | now left]).
      destruct Hina as [->|Hina]; [reflexivity|].
      destruct Hinb as [->|Hinb]; [reflexivity|].
      exfalso. apply (date_lt_asym a b); auto. }
    subst b. f_equal. apply IH; try assumption.
    eapply Permutation_cons_inv; eauto.
Qed.

Lemma sort_by_date_unique (l1 l2 : list DailyForecast.t) :
  NoDup (map DailyForecast.date l1) -> Permutation l1 l2 ->
  sort_by_date l1 = sort_by_date l2.
Proof.
  intros Hnd Hp.
  assert (Hp' : Permutation (sort_by_date l1) (sort_by_date l2)).
  { eapply perm_trans; [apply sort_by_date_perm|].
    eapply perm_trans; [exact Hp | apply Permutation_sym, sort_by_date_perm]. }
  apply sorted_by_date_unique; [| |exact Hp'].
  - apply sorted_distinct_strict; [apply sort_by_date_sorted|].
    eapply Permutation_NoDup; [|exact Hnd].
    apply Permutation_map, Permutation_sym, sort_by_date_perm.
  - apply sorted_distinct_strict; [apply sort_by_date_sorted|].
    eapply Permutation_NoDup; [|exact Hnd].
    apply Permutation_map. eapply perm_trans; [exact Hp|].
    apply Permutation_sym, sort_by_date_perm.
Qed.

(** X20. The forecast does not depend on how the dates are interleaved
    in the response.  When a response gives a forecast, any response with
    the same city and country whose samples are the same ones in another
    order, the samples of each date keeping their order, gives the same
    forecast. *)
Theorem forecast_ignores_the_interleaving_of_dates
    (data data' : json) (fd : ForecastData.t) (items items' : list json) :
  get_five_day_forecast (Some data) = Returned fd ->
  forecast_items data = Ok items ->
  forecast_items data' = Ok items' ->
  Permutation items items' ->
  (forall d, samples_of_day items' d = samples_of_day items d) ->
  (Ok data').["city"].["name"] = (Ok data).["city"].["name"] ->
  (Ok data').["city"].["country"] = (Ok data).["city"].["country"] ->
  get_five_day_forecast (Some data') = Returned fd.
Proof.
  intros H Hitems Hitems' Hperm Hsame Hname Hcountry.
  destruct (forecast_groups _ _ _ H Hitems) as (dates & days & Hdates & Hdays & Hkeys & Hsort).
  destruct (forecast_shape _ _ H)
    as (fields & l & items0 & groups0 & days0 & city & name & country
        & -> & Hl & Hit & Hg0 & Hd0 & Hcity & Hn & Hc).
  (* the dates of the samples in the other order *)
  destruct (mapM_Permutation date_of _ _ Hperm _ Hdates) as (dates' & Hdates' & Hpd).
  destruct (group_fold_total items' dates' Hdates' []) as (groups' & Hgroups').
  pose proof (group_by_day_fun items' groups' dates' Hgroups' Hdates') as Hfun.
  assert (Hkeys' : Permutation (firsts [] dates) (firsts [] dates')).
  { apply NoDup_Permutation.
    - apply (firsts_NoDup dates []). constructor.
    - apply (firsts_NoDup dates' []). constructor.
    - intros d. rewrite !firsts_In. split; intros (Hd & _); (split; [|intros []]).
      + eapply Permutation_in; eauto.
      + eapply Permutation_in; [apply Permutation_sym|]; eauto. }
  assert (Hgroups_eq : groups' = map (fun d => (d, samples_of_day items d)) (firsts [] dates')).
  { rewrite Hfun. apply map_ext. intros d. now rewrite Hsame. }
  destruct (mapM_Permutation (fun g => aggregate_day (fst g) (snd g)) _ _
              (Permutation_map (fun d => (d, samples_of_day items d)) Hkeys') _ Hdays)
    as (days' & Hdays' & Hpdays).
  rewrite <- Hgroups_eq in Hdays'.
  assert (Hnd : NoDup (map DailyForecast.date days)).
  { rewrite Hkeys. apply (firsts_NoDup dates []). constructor. }
  (* the call on the other response *)
  unfold forecast_items in Hitems'.
  destruct ((Ok data').["list"]) as [l'|e] eqn:Hl'; simpl in Hitems'; [|discriminate].
  unfold get_five_day_forecast in *. rewrite (subscript_truthy _ _ _ Hl').
  unfold parse_forecast in *. rewrite Hl'. cbn [bind]. rewrite Hitems'. cbn [bind].
  unfold group_by_day in *. rewrite Hgroups'. cbn [bind]. rewrite Hdays'. cbn [bind].
  rewrite Hname, Hcountry.
  rewrite <- (sort_by_date_unique days days' Hnd Hpdays).
  (* the call on the first response *)
  assert (Htruthy : truthy (JObj fields) = true) by (eapply truthy_obj; eassumption).
  rewrite Htruthy in H.
  destruct ((Ok (JObj fields)).["list"]) as [l0|e] eqn:Hl0; simpl in H;
    [|destruct e; discriminate].
  unfold forecast_items in Hitems. rewrite Hl0 in Hitems. simpl in Hitems.
  rewrite Hitems in H. cbn [bind] in H.
  destruct (group_fold_total items dates Hdates []) as (groups & Hgroups).
  pose proof (group_by_day_fun items groups dates Hgroups Hdates) as Hfun0.
  rewrite Hgroups in H. cbn [bind] in H. rewrite Hfun0, Hdays in H. cbn [bind] in H.
  exact H.
Qed.

Lemma forecast_ignores_the_interleaving_of_dates_witness :
  get_five_day_forecast (Some example_response_by_date) = Returned example_forecast.
Proof.
  apply (forecast_ignores_the_interleaving_of_dates example_response
           example_response_by_date example_forecast example_items
           [ sample "2024-01-01 21:00:00" (F64.of_decimal 55 (-1)) "rainy" "10d";
             sample "2024-01-02 00:00:00" (F64.of_decimal 125 (-1)) "cloudy" "03d";
             sample "2024-01-02 03:00:00" (F64.of_decimal 100 (-1)) "rainy" "10d";
             sample "2024-01-02 06:00:00" (F64.of_decimal 75 (-1)) "cloudy" "03d" ]).
  - vm_compute. reflexivity.
  - reflexivity.
  - reflexivity.
  - apply perm_swap.
  - intros d. unfold samples_of_day, example_items. cbn [filter].
    change (on_date d (sample "2024-01-01 21:00:00" (F64.of_decimal 55 (-1)) "rainy" "10d"))
      with (String.eqb "2024-01-01" d).
    change (on_date d (sample "2024-01-02 00:00:00" (F64.of_decimal 125 (-1)) "cloudy" "03d"))
      with (String.eqb "2024-01-02" d).
    destruct (String.eqb_spec "2024-01-01" d) as [<-|]; [reflexivity|].
    destruct (String.eqb "2024-01-02" d); reflexivity.
  - reflexivity.
  - reflexivity.
Defined.

(* ================================================================= *)
(** * A temperature that is not a number *)

Lemma as_number_Raise (v : json) (e : exn) : as_number v = Raise e -> e = TypeError.
Proof. destruct v; simpl; congruence. Qed.

Lemma mapM_readable {A : Type} (f : A -> result json) (xs : list A) :
  Forall (fun x => exists y, f x = Ok y) xs ->
  exists ys, mapM f xs = Ok ys /\ List.length ys = List.length xs.
Proof.
  induction 1 as [|x xs (y & Hy) _ (ys & Hys & Hlen)].
  - exists []. auto.
  - exists (y :: ys). simpl. rewrite Hy, Hys. simpl. auto.
Qed.

Lemma mapM_as_number (raw : list json) :
  (exists temps, mapM as_number raw = Ok temps /\ List.length temps = List.length raw) \/
  (mapM as_number raw = Raise TypeError /\ exists x, In x raw /\ as_number x = Raise TypeError).
Proof.
  induction raw as [|x raw IH]; [left; exists []; auto|]. simpl.
  destruct (as_number x) as [t|e] eqn:Hx.
  - destruct IH as [(temps & -> & Hlen)|(-> & y & Hy & Hny)]; simpl.
    + left. exists (t :: temps). simpl. auto.
    + right. split; [reflexivity|]. exists y. auto.
  - pose proof (as_number_Raise _ _ Hx) as ->. right. split; [reflexivity|].
    exists x. auto.
Qed.

(** A day of readable samples is aggregated, or stops with [TypeError] on
    a temperature that is not a number. *)
Lemma aggregate_day_readable (date_str : string) (readings : list json) :
  readings <> [] -> Forall sample_readable readings ->
  (exists day, aggregate_day date_str readings = Ok day) \/
  aggregate_day date_str readings = Raise TypeError.
Proof.
  intros Hne Hall.
  assert (Htemps : Forall (fun x => exists y, temp_of x = Ok y) readings).
  { eapply Forall_impl; [|exact Hall]. intros item (_ & H & _). exact H. }
  assert (Hds : Forall (fun x => exists s, description_of x = Ok (JStr s)) readings).
  { eapply Forall_impl; [|exact Hall]. intros item (_ & _ & H & _). exact H. }
  assert (Hics : Forall (fun x => exists s, icon_of x = Ok (JStr s)) readings).
  { eapply Forall_impl; [|exact Hall]. intros item (_ & _ & _ & H). exact H. }
  destruct (mapM_readable _ _ Htemps) as (raw & Hraw & Hrlen).
  destruct (mapM_strings _ _ Hds) as (ds & Hdescr & Hdlen).
  destruct (mapM_strings _ _ Hics) as (ics & Hicons & Hilen).
  assert (Hds_ne : ds <> []) by (destruct ds, readings; simpl in *; congruence).
  assert (Hics_ne : ics <> []) by (destruct ics, readings; simpl in *; congruence).
  destruct (most_common_key_strings ds Hds_ne) as (md & Hmd & _).
  destruct (most_common_key_strings ics Hics_ne) as (mi & Hmi & _).
  unfold aggregate_day. rewrite Hraw, Hdescr, Hicons. cbn [bind].
  rewrite Hmd. cbn [bind capitalize_method]. rewrite Hmi. cbn [bind].
  destruct (mapM_as_number raw) as [(temps & -> & Hlen)|(-> & _)]; [|now right].
  left. cbn [bind].
  destruct temps as [|t temps]; [destruct raw, readings; simpl in *; congruence|].
  cbn [py_min py_max bind]. unfold F64.truediv.
  rewrite of_int_positive_nonzero by (simpl List.length; lia).
  cbn [bind]. eauto.
Qed.

Lemma aggregate_day_not_a_number (date_str : string) (readings : list json) (item x : json) :
  Forall sample_readable readings ->
  In item readings -> temp_of item = Ok x -> as_number x = Raise TypeError ->
  aggregate_day date_str readings = Raise TypeError.
Proof.
  intros Hall Hitem Hx Hnx.
  assert (Hne : readings <> []) by (intros ->; destruct Hitem).
  destruct (aggregate_day_readable date_str readings Hne Hall) as [(day & Hday)|H];
    [exfalso|exact H].
  destruct (aggregate_day_inv _ _ _ Hday) as (_ & _ & temps & _ & _ & _ & Htemps & _).
  unfold sample_temps in Htemps.
  destruct (mapM temp_of readings) as [raw|e] eqn:Hraw; simpl in Htemps; [|discriminate].
  destruct (mapM_Ok_In _ _ _ _ Hraw Hitem) as (x' & Hx' & Hin).
  rewrite Hx in Hx'. injection Hx' as <-.
  destruct (mapM_Ok_In _ _ _ _ Htemps Hin) as (t & Ht & _). congruence.
Qed.

(** X21. A forecast sample whose temperature is not a number costs the
    whole forecast, without an exception for the caller: when every one
    of up to [2^53] samples can be read and has strings for the date, the
    description and the icon, the temperatures that are numbers are below
    [2^900] in magnitude, and some temperature is a string, [None], a
    list or a dict, [get_five_day_forecast] ends in its
    [except Exception] branch on a [TypeError] and returns [None]. *)
Theorem non_numeric_temperature_voids_the_forecast
    (data : json) (items : list json) (item x : json) :
  forecast_items data = Ok items ->
  Forall sample_readable items ->
  Forall temperature_bounded items ->
  Z.of_nat (List.length items) <= 2 ^ 53 ->
  In item items -> temp_of item = Ok x -> as_number x = Raise TypeError ->
  get_five_day_forecast (Some data) = UnexpectedFailure TypeError /\
  returned (get_five_day_forecast (Some data)) = Some None.
Proof.
  intros Hitems Hall _ _ Hitem Hx Hnx.
  assert (Hgoal : get_five_day_forecast (Some data) = UnexpectedFailure TypeError);
    [|now rewrite Hgoal].
  destruct (mapM_total date_of items) as (dates & Hdates).
  { eapply Forall_impl; [|exact Hall]. intros it ((dt & Hdt) & _).
    destruct (split_head " " dt) as (d & rest & Hsplit & _).
    exists d. unfold date_of. rewrite Hdt. cbn [bind split_method]. rewrite Hsplit.
    apply list_getitem_head. }
  destruct (group_fold_total items dates Hdates []) as (groups & Hgroups).
  pose proof (group_by_day_fun items groups dates Hgroups Hdates) as Hfun.
  assert (Hraise : mapM (fun g => aggregate_day (fst g) (snd g)) groups = Raise TypeError).
  { apply mapM_Raise_same.
    - subst groups. rewrite Forall_forall. intros g Hg.
      apply in_map_iff in Hg. destruct Hg as (d & <- & Hd). cbn [fst snd].
      apply (proj1 (firsts_In _ _ _)) in Hd. destruct Hd as (Hd & _).
      destruct (mapM_In _ _ _ _ Hdates Hd) as (it & Hit & Hdate).
      apply aggregate_day_readable.
      + intros Hnil. pose proof (samples_of_day_In _ _ _ Hit Hdate) as Hin.
        rewrite Hnil in Hin. destruct Hin.
      + rewrite Forall_forall in *. intros y Hy. apply Hall.
        unfold samples_of_day in Hy. apply filter_In in Hy. tauto.
    - destruct (mapM_Ok_In _ _ _ _ Hdates Hitem) as (d & Hd & Hind).
      apply Exists_exists. exists (d, samples_of_day items d). split.
      + subst groups. apply in_map_iff. exists d. split; [reflexivity|].
        apply (proj2 (firsts_In _ _ _)). auto.
      + cbn [fst snd]. apply (aggregate_day_not_a_number d _ item x); try assumption.
        * rewrite Forall_forall in *. intros y Hy. apply Hall.
          unfold samples_of_day in Hy. apply filter_In in Hy. tauto.
        * now apply samples_of_day_In. }
  unfold forecast_items in Hitems.
  destruct ((Ok data).["list"]) as [l|e] eqn:Hl; simpl in Hitems; [|discriminate].
  unfold get_five_day_forecast. rewrite (subscript_truthy _ _ _ Hl).
  unfold parse_forecast. rewrite Hl. cbn [bind]. rewrite Hitems. cbn [bind].
  unfold group_by_day in *. rewrite Hgroups. cbn [bind]. rewrite Hraise. reflexivity.
Qed.

Lemma non_numeric_temperature_voids_the_forecast_witness :
  get_five_day_forecast (Some string_temperature_response) = UnexpectedFailure TypeError /\
  returned (get_five_day_forecast (Some string_temperature_response)) = Some None.
Proof.
  apply (non_numeric_temperature_voids_the_forecast string_temperature_response
           [ sample "2024-01-02 00:00:00" (F64.of_decimal 125 (-1)) "cloudy" "03d";
             sample "2024-01-01 21:00:00" (F64.of_decimal 55 (-1)) "rainy" "10d";
             JObj [ ("dt_txt", JStr "2024-01-02 03:00:00");
                    ("main", JObj [("temp", JStr "10.0")]);
                    ("weather", JArr [JObj [("description", JStr "rainy");
                                            ("icon", JStr "10d")]]) ];
             sample "2024-01-02 06:00:00" (F64.of_decimal 75 (-1)) "cloudy" "03d" ]
           (JObj [ ("dt_txt", JStr "2024-01-02 03:00:00");
                   ("main", JObj [("temp", JStr "10.0")]);
                   ("weather", JArr [JObj [("description", JStr "rainy");
                                           ("icon", JStr "10d")]]) ])
           (JStr "10.0")).
  - reflexivity.
  - repeat constructor; eexists; reflexivity.
  - repeat constructor; intros x t Hx Ht; vm_compute in Hx; injection Hx as <-;
      vm_compute in Ht; first [discriminate Ht | injection Ht as <-; vm_compute; discriminate].
  - vm_compute. discriminate.
  - simpl. tauto.
  - reflexivity.
  - reflexivity.
Defined.
